(** * Image-Text-Composer: history store, editor store, export and nudging

    A shallow embedding of the TypeScript sources

      - [src/types/canvas.ts], [src/types/history.ts]   (data model)
      - [src/store/editorSlice.ts]                      (Document Store)
      - [src/store/historySlice.ts]                     (History Store)
      - [src/utils/export.ts], [components/Editor/ExportButton.tsx]
      - [src/pages/index.tsx]  (applySmartSpacing, nudgeSelectedLayers,
                                handleKeyDown)

    and the properties of the specification that concern them.

    Conventions.  A JavaScript [number] that carries a coordinate, a size
    or a ratio is an exact rational ([Q]); equalities between such numbers
    are stated with [==].  The export is embedded a second time over IEEE
    754 doubles ([Double], [ExportDouble]), for the properties that
    depend on rounding, overflow or [NaN].  Array lengths,
    [maxHistorySize] and clock readings are integers ([Z]).  A zustand store is its data record, an
    action is a function from store to store, and an action that reads or
    writes two stores works on the pair [World].  Code that can raise a
    JavaScript exception returns a [Js.Result]. *)

From Stdlib Require Import List String Ascii ZArith QArith Qabs Qminmax Lia Bool.
From Stdlib Require Import DecimalString Permutation Lqa Sorted.
From Stdlib Require Floats.
Import ListNotations.

Set Implicit Arguments.

Local Open Scope string_scope.
Local Open Scope list_scope.

(* ------------------------------------------------------------------ *)
(** ** JavaScript values used by the sources *)

Module Js.

(** A number as an exact rational: a finite value, without rounding.
    The arithmetic that rounding, overflow or [NaN] decide is embedded
    over doubles, in [Double] and [ExportDouble]. *)
Definition number := Q.

(** [a < b], [a <= b], [a > b] and [!a] on numbers. *)
Definition ltb (a b : number) : bool := negb (Qle_bool b a).
Definition leb (a b : number) : bool := Qle_bool a b.
Definition gtb (a b : number) : bool := ltb b a.
Definition isZero (a : number) : bool := Qeq_bool a 0.

(** [Math.max(a, b)] and [Math.abs(a)]. *)
Definition max (a b : number) : number := if Qle_bool a b then b else a.
Definition abs (a : number) : number := Qabs a.

(** An array length as a number. *)
Definition ofNat (n : nat) : number := inject_Z (Z.of_nat n).

(** A thrown value: an [Error] with its message, or anything else. *)
Inductive Exn : Type :=
| Error (message : string)
| NonError.

(** Outcome of code that may throw. *)
Inductive Result (A : Type) : Type :=
| Ok (a : A)
| Throw (e : Exn).
Arguments Ok {A} a.
Arguments Throw {A} e.

Definition bind {A B} (r : Result A) (k : A -> Result B) : Result B :=
  match r with
  | Ok a => k a
  | Throw e => Throw e
  end.

(** [arr[i]]: [undefined] (here [None]) outside the array. *)
Definition index {A} (arr : list A) (i : Z) : option A :=
  if (i <? 0)%Z then None else nth_error arr (Z.to_nat i).

(** Reading a property of the result of an indexing: a [TypeError]
    when the array had no such element. *)
Definition deref {A} (o : option A) : Result A :=
  match o with
  | Some a => Ok a
  | None => Throw (Error "Cannot read properties of undefined")
  end.

(** Relative index of [Array.prototype.slice]: negative counts from
    the end, and the result is clamped to [0 .. len]. *)
Definition relIndex (len i : Z) : Z :=
  if (i <? 0)%Z then Z.max (len + i) 0 else Z.min i len.

(** [arr.slice(start)]. *)
Definition sliceFrom {A} (arr : list A) (start : Z) : list A :=
  let len := Z.of_nat (List.length arr) in
  skipn (Z.to_nat (relIndex len start)) arr.

(** [arr.slice(start, end)]. *)
Definition slice {A} (arr : list A) (start stop : Z) : list A :=
  let len := Z.of_nat (List.length arr) in
  let k := relIndex len start in
  let final := relIndex len stop in
  firstn (Z.to_nat (Z.max (final - k) 0)) (skipn (Z.to_nat k) arr).

(** [`${n}`] for an integer. *)
Definition showZ (z : Z) : string := NilZero.string_of_int (Z.to_int z).

(** [s.startsWith(p)]. *)
Definition startsWith (s p : string) : bool := String.prefix p s.

End Js.

Notation "x <- r ;; k" := (Js.bind r (fun x => k))
  (at level 61, r at next level, right associativity).

(* ------------------------------------------------------------------ *)
(** ** [types/canvas.ts] *)

Module ImageDimensions.
Record t : Type := mk
  { width : Js.number;
    height : Js.number;
    aspectRatio : Js.number }.
End ImageDimensions.

(** The [File] of an upload.  [JSON.stringify] writes a [File] as [{}],
    so a deep clone through JSON holds a plain empty object instead. *)
Inductive FileValue : Type :=
| FileObject (name : string)
| EmptyObject.

Module BackgroundImage.
Record t : Type := mk
  { url : string;
    file : option FileValue;
    dimensions : ImageDimensions.t }.
End BackgroundImage.

Module TextShadow.
Record t : Type := mk
  { color : string;
    blur : Js.number;
    offsetX : Js.number;
    offsetY : Js.number }.
End TextShadow.

Inductive TextAlign : Type := AlignLeft | AlignCenter | AlignRight.

Inductive FontWeight : Type :=
| WeightName (s : string)
| WeightNumber (n : Js.number).

Module TextLayerProperties.
(** Optional fields are [option]s; [shadow] is optional and nullable. *)
Record t : Type := mk
  { id : string;
    text : string;
    fontFamily : string;
    fontSize : Js.number;
    fontWeight : FontWeight;
    color : string;
    opacity : Js.number;
    textAlign : TextAlign;
    top : Js.number;
    left : Js.number;
    width : Js.number;
    height : Js.number;
    angle : Js.number;
    scaleX : Js.number;
    scaleY : Js.number;
    lineHeight : option Js.number;
    charSpacing : option Js.number;
    shadow : option (option TextShadow.t);
    locked : option bool }.
End TextLayerProperties.

Module Dimensions.
Record t : Type := mk { width : Js.number; height : Js.number }.
End Dimensions.

Module CanvasState.
Record t : Type := mk
  { backgroundImage : option BackgroundImage.t;
    textLayers : list TextLayerProperties.t;
    selectedLayerIds : list string;
    canvasDimensions : Dimensions.t }.
End CanvasState.

(** [JSON.parse(JSON.stringify(state))] on the data of a [CanvasState]:
    the action functions of the store are dropped, every data field is
    copied, and a [File] comes back as [{}]. *)
Module Json.

Definition cloneFile (f : FileValue) : FileValue := EmptyObject.

Definition cloneBackground (b : BackgroundImage.t) : BackgroundImage.t :=
  BackgroundImage.mk (BackgroundImage.url b)
                     (option_map cloneFile (BackgroundImage.file b))
                     (BackgroundImage.dimensions b).

Definition deepClone (s : CanvasState.t) : CanvasState.t :=
  CanvasState.mk (option_map cloneBackground (CanvasState.backgroundImage s))
                 (CanvasState.textLayers s)
                 (CanvasState.selectedLayerIds s)
                 (CanvasState.canvasDimensions s).

End Json.

(* ------------------------------------------------------------------ *)
(** ** [store/editorSlice.ts]: the Document Store *)

Module EditorSlice.

Definition initialState : CanvasState.t :=
  CanvasState.mk None [] [] (Dimensions.mk 800 600).

(** The defaults that [addTextLayer] gives a new layer. *)
Definition newTextLayer (id : string) : TextLayerProperties.t :=
  TextLayerProperties.mk id "New Text" "Arial" 24 (WeightName "normal")
    "#000000" 1 AlignLeft 100 100 200 50 0 1 1
    (Some (12 # 10)) (Some 0) None None.

(** The [Partial<TextLayerProperties>] objects that the callers
    modelled here build: [{ left }] and [{ left, top }]. *)
Record LayerPatch : Type := mkPatch
  { p_left : option Js.number;
    p_top : option Js.number }.

(** [{ ...layer, ...properties }]. *)
Definition spread (layer : TextLayerProperties.t) (properties : LayerPatch)
  : TextLayerProperties.t :=
  TextLayerProperties.mk
    (TextLayerProperties.id layer)
    (TextLayerProperties.text layer)
    (TextLayerProperties.fontFamily layer)
    (TextLayerProperties.fontSize layer)
    (TextLayerProperties.fontWeight layer)
    (TextLayerProperties.color layer)
    (TextLayerProperties.opacity layer)
    (TextLayerProperties.textAlign layer)
    (match p_top properties with
     | Some v => v
     | None => TextLayerProperties.top layer
     end)
    (match p_left properties with
     | Some v => v
     | None => TextLayerProperties.left layer
     end)
    (TextLayerProperties.width layer)
    (TextLayerProperties.height layer)
    (TextLayerProperties.angle layer)
    (TextLayerProperties.scaleX layer)
    (TextLayerProperties.scaleY layer)
    (TextLayerProperties.lineHeight layer)
    (TextLayerProperties.charSpacing layer)
    (TextLayerProperties.shadow layer)
    (TextLayerProperties.locked layer).

Definition updateTextLayer (id : string) (properties : LayerPatch)
           (state : CanvasState.t) : CanvasState.t :=
  CanvasState.mk
    (CanvasState.backgroundImage state)
    (map (fun layer =>
            if String.eqb (TextLayerProperties.id layer) id
            then spread layer properties
            else layer)
         (CanvasState.textLayers state))
    (CanvasState.selectedLayerIds state)
    (CanvasState.canvasDimensions state).

(** [addTextLayer(layer)]; [id] is the value of [nanoid()]. *)
Definition addTextLayer (id : string) (layer : LayerPatch)
           (state : CanvasState.t) : CanvasState.t :=
  CanvasState.mk
    (CanvasState.backgroundImage state)
    (CanvasState.textLayers state ++ [spread (newTextLayer id) layer])
    [id]
    (CanvasState.canvasDimensions state).

Definition selectLayer (id : string) (state : CanvasState.t) : CanvasState.t :=
  CanvasState.mk (CanvasState.backgroundImage state)
                 (CanvasState.textLayers state)
                 [id]
                 (CanvasState.canvasDimensions state).

Definition selectMultipleLayers (ids : list string) (state : CanvasState.t)
  : CanvasState.t :=
  CanvasState.mk (CanvasState.backgroundImage state)
                 (CanvasState.textLayers state)
                 ids
                 (CanvasState.canvasDimensions state).

Definition setCanvasDimensions (width height : Js.number)
           (state : CanvasState.t) : CanvasState.t :=
  CanvasState.mk (CanvasState.backgroundImage state)
                 (CanvasState.textLayers state)
                 (CanvasState.selectedLayerIds state)
                 (Dimensions.mk width height).

Definition setBackgroundImage (image : BackgroundImage.t)
           (state : CanvasState.t) : CanvasState.t :=
  CanvasState.mk (Some image)
                 (CanvasState.textLayers state)
                 (CanvasState.selectedLayerIds state)
                 (CanvasState.canvasDimensions state).

(** [importState: (state) => set(state)]: every key of the imported
    [CanvasState] overwrites the key of the store. *)
Definition importState (imported : CanvasState.t) (state : CanvasState.t)
  : CanvasState.t :=
  CanvasState.mk (CanvasState.backgroundImage imported)
                 (CanvasState.textLayers imported)
                 (CanvasState.selectedLayerIds imported)
                 (CanvasState.canvasDimensions imported).

End EditorSlice.

(* ------------------------------------------------------------------ *)
(** ** [types/history.ts] *)

Module HistoryAction.
Record t : Type := mk
  { timestamp : Z;
    description : string;
    state : CanvasState.t }.
End HistoryAction.

Module HistoryState.
Record t : Type := mk
  { past : list HistoryAction.t;
    present : option HistoryAction.t;
    future : list HistoryAction.t;
    maxHistorySize : Z }.
End HistoryState.

(** The two stores an action of the history slice can touch. *)
Record World : Type := mkWorld
  { editor : CanvasState.t;
    history : HistoryState.t }.

(* ------------------------------------------------------------------ *)
(** ** [store/historySlice.ts]: the History Store *)

Module HistorySlice.

Definition MAX_HISTORY_SIZE : Z := 20.

Definition initialState : HistoryState.t :=
  HistoryState.mk [] None [] MAX_HISTORY_SIZE.

(** [pushHistory(description, state)]; [now] is the reading of
    [Date.now()]. *)
Definition pushHistory (now : Z) (description : string)
           (state : CanvasState.t) (historyState : HistoryState.t)
  : HistoryState.t :=
  let newAction :=
    HistoryAction.mk now description (Json.deepClone state) in
  let newPast :=
    match HistoryState.present historyState with
    | Some present =>
        Js.sliceFrom (HistoryState.past historyState ++ [present])
                     (- HistoryState.maxHistorySize historyState + 1)
    | None => HistoryState.past historyState
    end in
  HistoryState.mk newPast (Some newAction) []
                  (HistoryState.maxHistorySize historyState).

Definition undo (w : World) : Js.Result World :=
  let past := HistoryState.past (history w) in
  let future := HistoryState.future (history w) in
  let len := Z.of_nat (List.length past) in
  if (len =? 0)%Z then Js.Ok w
  else
    match HistoryState.present (history w) with
    | None => Js.Ok w
    | Some present =>
        previous <- Js.deref (Js.index past (len - 1)) ;;
        let newPast := Js.slice past 0 (len - 1) in
        let editor' :=
          EditorSlice.importState (HistoryAction.state previous) (editor w) in
        Js.Ok (mkWorld editor'
                 (HistoryState.mk newPast (Some previous) (present :: future)
                    (HistoryState.maxHistorySize (history w))))
    end.

Definition redo (w : World) : Js.Result World :=
  let past := HistoryState.past (history w) in
  let present := HistoryState.present (history w) in
  let future := HistoryState.future (history w) in
  if (Z.of_nat (List.length future) =? 0)%Z then Js.Ok w
  else
    next <- Js.deref (Js.index future 0) ;;
    let newFuture := Js.sliceFrom future 1 in
    let editor' :=
      EditorSlice.importState (HistoryAction.state next) (editor w) in
    Js.Ok (mkWorld editor'
             (HistoryState.mk
                (match present with
                 | Some present => past ++ [present]
                 | None => past
                 end)
                (Some next) newFuture
                (HistoryState.maxHistorySize (history w)))).

Definition canUndo (h : HistoryState.t) : bool :=
  (0 <? Z.of_nat (List.length (HistoryState.past h)))%Z.

Definition canRedo (h : HistoryState.t) : bool :=
  (0 <? Z.of_nat (List.length (HistoryState.future h)))%Z.

Definition clearHistory (h : HistoryState.t) : HistoryState.t := initialState.

End HistorySlice.

(** A history action as a caller issues it, and a run of such actions
    from a given pair of stores. *)
Inductive HistoryOp : Type :=
| OpPush (now : Z) (description : string) (state : CanvasState.t)
| OpUndo
| OpRedo
| OpClear.

Definition step (op : HistoryOp) (w : World) : Js.Result World :=
  match op with
  | OpPush now description state =>
      Js.Ok (mkWorld (editor w)
               (HistorySlice.pushHistory now description state (history w)))
  | OpUndo => HistorySlice.undo w
  | OpRedo => HistorySlice.redo w
  | OpClear => Js.Ok (mkWorld (editor w) (HistorySlice.clearHistory (history w)))
  end.

Fixpoint run (ops : list HistoryOp) (w : World) : Js.Result World :=
  match ops with
  | [] => Js.Ok w
  | op :: rest => w' <- step op w ;; run rest w'
  end.

(** The arguments of one [pushHistory] call. *)
Record PushArgs : Type := mkPush
  { arg_now : Z;
    arg_description : string;
    arg_state : CanvasState.t }.

Definition opOfPush (a : PushArgs) : HistoryOp :=
  OpPush (arg_now a) (arg_description a) (arg_state a).

(** The action that a [pushHistory] call stores. *)
Definition actionOfPush (a : PushArgs) : HistoryAction.t :=
  HistoryAction.mk (arg_now a) (arg_description a)
                   (Json.deepClone (arg_state a)).

(** The stores when the application starts. *)
Definition initialWorld : World :=
  mkWorld EditorSlice.initialState HistorySlice.initialState.

(* ------------------------------------------------------------------ *)
(** ** [utils/export.ts] and [components/Editor/ExportButton.tsx] *)

Module ExportPng.

(** The argument of Fabric's [canvas.toDataURL]. *)
Record ToDataURLOptions : Type := mkOptions
  { format : string;
    quality : Js.number;
    multiplier : Js.number;
    left : Js.number;
    top : Js.number;
    width : Js.number;
    height : Js.number }.

(** The part of a Fabric canvas that the export reads.  [toDataURL]
    belongs to the drawing surface: it is any function, and it may
    throw. *)
Record FabricCanvas : Type := mkCanvas
  { getWidth : Js.number;
    getHeight : Js.number;
    toDataURL : ToDataURLOptions -> Js.Result string }.

(** What the export does to the outside, in order. *)
Inductive Event : Type :=
| ConsoleWarnLargeExport (exportWidth exportHeight : Js.number)
| ConsoleError (label : string) (e : Js.Exn)
| CallToDataURL (options : ToDataURLOptions)
| ShowError (title message : string)
| ShowWarning (title message : string)
| ShowSuccess (title message : string)
| SetIsExporting (b : bool)
| DownloadPng (dataUrl filename : string).

(** How the promise of [exportToPng] settles. *)
Inductive Settled : Type :=
| Resolved (dataUrl : string)
| Rejected (message : string).

(** [isFinite] of a rational: every rational is finite.  The guard as
    it acts on doubles is [ExportDouble.invalidMultiplier]. *)
Definition isFinite (x : Js.number) : bool := true.

(** [!x || !y || x <= 0 || y <= 0]. *)
Definition invalidDimensions (x y : Js.number) : bool :=
  Js.isZero x || Js.isZero y || Js.leb x 0 || Js.leb y 0.

Definition computeMultiplier (canvas : FabricCanvas)
           (backgroundImage : BackgroundImage.t) : Js.number :=
  let imgWidth :=
    ImageDimensions.width (BackgroundImage.dimensions backgroundImage) in
  let imgHeight :=
    ImageDimensions.height (BackgroundImage.dimensions backgroundImage) in
  Js.max (imgWidth / getWidth canvas) (imgHeight / getHeight canvas).

Definition exportWidth (canvas : FabricCanvas)
           (backgroundImage : BackgroundImage.t) : Js.number :=
  getWidth canvas * computeMultiplier canvas backgroundImage.

Definition exportHeight (canvas : FabricCanvas)
           (backgroundImage : BackgroundImage.t) : Js.number :=
  getHeight canvas * computeMultiplier canvas backgroundImage.

Definition exportOptions (canvas : FabricCanvas)
           (backgroundImage : BackgroundImage.t) : ToDataURLOptions :=
  mkOptions "png" 1 (computeMultiplier canvas backgroundImage)
            0 0 (getWidth canvas) (getHeight canvas).

Definition maxDimension : Js.number := 8000.

(** The body of the [try] block of [exportToPng].  [dimensions] is a
    required field of [BackgroundImage], so [!backgroundImage.dimensions]
    holds for no value of the type. *)
Definition exportTry (canvas : option FabricCanvas)
           (backgroundImage : option BackgroundImage.t)
  : list Event * Js.Result string :=
  match canvas with
  | None => ([], Js.Throw (Js.Error "Canvas is required for export"))
  | Some canvas =>
  match backgroundImage with
  | None =>
      ([], Js.Throw
             (Js.Error "Background image with dimensions is required for export"))
  | Some backgroundImage =>
  let imgWidth :=
    ImageDimensions.width (BackgroundImage.dimensions backgroundImage) in
  let imgHeight :=
    ImageDimensions.height (BackgroundImage.dimensions backgroundImage) in
  let canvasWidth := getWidth canvas in
  let canvasHeight := getHeight canvas in
  if invalidDimensions imgWidth imgHeight
  then ([], Js.Throw (Js.Error "Invalid background image dimensions"))
  else if invalidDimensions canvasWidth canvasHeight
  then ([], Js.Throw (Js.Error "Invalid canvas dimensions"))
  else
    let multiplier := computeMultiplier canvas backgroundImage in
    if negb (isFinite multiplier) || Js.leb multiplier 0
    then ([], Js.Throw (Js.Error "Invalid export multiplier calculated"))
    else
      let warn :=
        if Js.gtb (exportWidth canvas backgroundImage) maxDimension
           || Js.gtb (exportHeight canvas backgroundImage) maxDimension
        then [ConsoleWarnLargeExport (exportWidth canvas backgroundImage)
                                     (exportHeight canvas backgroundImage)]
        else [] in
      let options := exportOptions canvas backgroundImage in
      let called := warn ++ [CallToDataURL options] in
      match toDataURL canvas options with
      | Js.Throw e => (called, Js.Throw e)
      | Js.Ok dataUrl =>
          if String.eqb dataUrl EmptyString
             || negb (Js.startsWith dataUrl "data:image/png;base64,")
          then (called,
                Js.Throw (Js.Error "Failed to generate valid PNG data URL"))
          else (called, Js.Ok dataUrl)
      end
  end
  end.

(** [exportToPng]: the [try] block, and the [catch] that logs and
    rejects with the message of the error. *)
Definition exportToPng (canvas : option FabricCanvas)
           (backgroundImage : option BackgroundImage.t)
  : list Event * Settled :=
  match exportTry canvas backgroundImage with
  | (events, Js.Ok dataUrl) => (events, Resolved dataUrl)
  | (events, Js.Throw e) =>
      let errorMessage :=
        match e with
        | Js.Error message => message
        | Js.NonError => "Failed to export image"
        end in
      (events ++ [ConsoleError "Export failed:" e], Rejected errorMessage)
  end.

Definition exportFilename (now : Z) : string :=
  ("image-text-composition-" ++ Js.showZ now ++ ".png")%string.

(** [handleExport] of the export button; [now] is the reading of
    [Date.now()] when the file name is built. *)
Definition handleExport (canvas : option FabricCanvas)
           (backgroundImage : option BackgroundImage.t) (now : Z)
  : list Event :=
  match canvas, backgroundImage with
  | Some _, Some _ =>
      let '(events, settled) := exportToPng canvas backgroundImage in
      [SetIsExporting true;
       ShowWarning "Export started"
         "Generating high-resolution PNG... This may take a moment for large images."]
      ++ events
      ++ match settled with
         | Resolved dataUrl =>
             [DownloadPng dataUrl (exportFilename now);
              ShowSuccess "Export successful"
                "Your image has been downloaded successfully!"]
         | Rejected message =>
             [ConsoleError "Error exporting canvas:" (Js.Error message);
              ShowError "Export failed"
                (message ++ " Please try again or try with a smaller image.")%string]
         end
      ++ [SetIsExporting false]
  | _, _ =>
      [ShowError "Cannot export"
         "Please upload a background image and add some text layers before exporting."]
  end.

Definition isCallToDataURL (ev : Event) : bool :=
  match ev with CallToDataURL _ => true | _ => false end.

Definition isDownload (ev : Event) : bool :=
  match ev with DownloadPng _ _ => true | _ => false end.

End ExportPng.

(* ------------------------------------------------------------------ *)
(** ** [pages/index.tsx]: smart spacing and nudging *)

Module Home.

(** [selectedLayerIds.includes(id)]. *)
Definition includes (ids : list string) (id : string) : bool :=
  existsb (String.eqb id) ids.

(** [textLayers.find(l => l.id === layerId)]. *)
Definition findLayer (textLayers : list TextLayerProperties.t)
           (layerId : string) : option TextLayerProperties.t :=
  find (fun l => String.eqb (TextLayerProperties.id l) layerId) textLayers.

(** [selectedLayers.sort((a, b) => a.left - b.left)]: the sort of an
    array is stable, so layers with equal [left] keep their order. *)
Fixpoint insertByLeft (a : TextLayerProperties.t)
         (sorted : list TextLayerProperties.t) : list TextLayerProperties.t :=
  match sorted with
  | [] => [a]
  | b :: rest =>
      if Js.leb (TextLayerProperties.left a - TextLayerProperties.left b) 0
      then a :: b :: rest
      else b :: insertByLeft a rest
  end.

Definition sortByLeft (layers : list TextLayerProperties.t)
  : list TextLayerProperties.t :=
  fold_right insertByLeft [] layers.

(** [selectedLayers.forEach((layer, index) => ...)] of smart spacing,
    from index [index] on. *)
Fixpoint spaceEach (leftmostPos spacing : Js.number) (index : nat)
         (selectedLayers : list TextLayerProperties.t)
         (store : CanvasState.t) : CanvasState.t :=
  match selectedLayers with
  | [] => store
  | layer :: rest =>
      let newLeft := leftmostPos + spacing * Js.ofNat index in
      spaceEach leftmostPos spacing (S index) rest
        (EditorSlice.updateTextLayer (TextLayerProperties.id layer)
           (EditorSlice.mkPatch (Some newLeft) None) store)
  end.

(** The synchronous part of [applySmartSpacing].  [selectedLayerIds]
    and [textLayers] are the values the component read from the
    editor store when it rendered; [store] is the editor store that
    [updateTextLayer] writes.  After the second guard the sorted array
    has a first and a last element, so the last branch of the [match]
    is never taken. *)
Definition applySmartSpacing (selectedLayerIds : list string)
           (textLayers : list TextLayerProperties.t)
           (store : CanvasState.t) : CanvasState.t :=
  if (Z.of_nat (List.length selectedLayerIds) <? 2)%Z then store
  else
    let selectedLayers :=
      sortByLeft
        (filter (fun layer => includes selectedLayerIds
                                       (TextLayerProperties.id layer))
                textLayers) in
    if (Z.of_nat (List.length selectedLayers) <? 2)%Z then store
    else
      match Js.index selectedLayers 0,
            Js.index selectedLayers
                     (Z.of_nat (List.length selectedLayers) - 1) with
      | Some first, Some last =>
          let leftmostPos := TextLayerProperties.left first in
          let rightmostPos := TextLayerProperties.left last in
          let currentSpread := rightmostPos - leftmostPos in
          let minSpread := Js.max 100 currentSpread in
          let spacing :=
            minSpread / (Js.ofNat (List.length selectedLayers) - 1) in
          spaceEach leftmostPos spacing 0 selectedLayers store
      | _, _ => store
      end.

(** The callback that [applySmartSpacing] hands to [setTimeout]. *)
Definition applySmartSpacingTimeout (now : Z) (w : World) : World :=
  mkWorld (editor w)
          (HistorySlice.pushHistory now "Applied smart spacing" (editor w)
                                    (history w)).

(** The [switch (direction)] of [nudgeSelectedLayers]: the pair
    [(newLeft, newTop)] after it. *)
Definition moved (direction : string) (distance : Js.number)
           (layer : TextLayerProperties.t) : Js.number * Js.number :=
  let newLeft := TextLayerProperties.left layer in
  let newTop := TextLayerProperties.top layer in
  if String.eqb direction "ArrowLeft" then (newLeft - distance, newTop)
  else if String.eqb direction "ArrowRight" then (newLeft + distance, newTop)
  else if String.eqb direction "ArrowUp" then (newLeft, newTop - distance)
  else if String.eqb direction "ArrowDown" then (newLeft, newTop + distance)
  else (newLeft, newTop).

(** The condition of the safeguard:
    [deltaX > distance * 2 || deltaY > distance * 2]. *)
Definition safeguard (direction : string) (distance : Js.number)
           (layer : TextLayerProperties.t) : bool :=
  let '(newLeft, newTop) := moved direction distance layer in
  let deltaX := Js.abs (newLeft - TextLayerProperties.left layer) in
  let deltaY := Js.abs (newTop - TextLayerProperties.top layer) in
  Js.gtb deltaX (distance * 2) || Js.gtb deltaY (distance * 2).

(** The position that the safeguard resets to. *)
Definition expected (direction : string) (distance : Js.number)
           (layer : TextLayerProperties.t) : Js.number * Js.number :=
  (TextLayerProperties.left layer
   + (if String.eqb direction "ArrowLeft" then - distance
      else if String.eqb direction "ArrowRight" then distance else 0),
   TextLayerProperties.top layer
   + (if String.eqb direction "ArrowUp" then - distance
      else if String.eqb direction "ArrowDown" then distance else 0)).

(** The position that one layer is given. *)
Definition nudged (direction : string) (distance : Js.number)
           (layer : TextLayerProperties.t) : Js.number * Js.number :=
  if safeguard direction distance layer
  then expected direction distance layer
  else moved direction distance layer.

(** The body of [selectedLayerIds.forEach(layerId => ...)]. *)
Definition nudgeOne (textLayers : list TextLayerProperties.t)
           (direction : string) (distance : Js.number)
           (store : CanvasState.t) (layerId : string) : CanvasState.t :=
  match findLayer textLayers layerId with
  | None => store
  | Some layer =>
      let '(newLeft, newTop) := nudged direction distance layer in
      EditorSlice.updateTextLayer layerId
        (EditorSlice.mkPatch (Some newLeft) (Some newTop)) store
  end.

Definition nudgeEach (selectedLayerIds : list string)
           (textLayers : list TextLayerProperties.t)
           (direction : string) (distance : Js.number)
           (store : CanvasState.t) : CanvasState.t :=
  fold_left (nudgeOne textLayers direction distance) selectedLayerIds store.

(** [nudgeSelectedLayers(direction, distance)]: the loop over the
    selection, then the push of [useEditorStore.getState()]. *)
Definition nudgeSelectedLayers (selectedLayerIds : list string)
           (textLayers : list TextLayerProperties.t)
           (direction : string) (distance : Js.number)
           (now : Z) (w : World) : World :=
  let editor' :=
    nudgeEach selectedLayerIds textLayers direction distance (editor w) in
  mkWorld editor'
    (HistorySlice.pushHistory now
       ("Nudged " ++ Js.showZ (Z.of_nat (List.length selectedLayerIds))
                  ++ " layer(s)")%string
       editor' (history w)).

(** A nudge issued from the closure of a render of the current editor
    store, as the [onClick] of a nudge button is.  The handler of the
    keyboard, whose closure is that of the render at mount, is
    [HomeKeys.handleKeyDown]. *)
Definition nudgeFromRender (direction : string) (distance : Js.number)
           (now : Z) (w : World) : World :=
  nudgeSelectedLayers (CanvasState.selectedLayerIds (editor w))
                      (CanvasState.textLayers (editor w))
                      direction distance now w.

End Home.

(** [TextProperties.tsx]: the function that [debounce] wraps. *)
Module TextProperties.

Definition debouncedPushHistory (now : Z) (message : string) (w : World)
  : World :=
  mkWorld (editor w)
          (HistorySlice.pushHistory now message (editor w) (history w)).

End TextProperties.

(* ------------------------------------------------------------------ *)
(** ** Notions used to state the properties *)

(** The bound that the History Store keeps: [maxHistorySize] is the
    constant of the source, and past and future together leave room for
    the present. *)
Definition bounded (h : HistoryState.t) : Prop :=
  HistoryState.maxHistorySize h = HistorySlice.MAX_HISTORY_SIZE
  /\ (Z.of_nat (List.length (HistoryState.past h))
      + Z.of_nat (List.length (HistoryState.future h)) + 1
      <= HistoryState.maxHistorySize h)%Z.

(** [left] of the layer with a given id in a store, if there is one. *)
Definition leftOfLayer (store : CanvasState.t) (id : string)
  : option Js.number :=
  option_map TextLayerProperties.left
             (Home.findLayer (CanvasState.textLayers store) id).


(** [new] is [old] with, at most, another [left]. *)
Definition movedOnlyLeft (old new : TextLayerProperties.t) : Prop :=
  new = EditorSlice.spread old
          (EditorSlice.mkPatch (Some (TextLayerProperties.left new)) None).

(** Layer ids are unique within a document. *)
Definition uniqueIds (layers : list TextLayerProperties.t) : Prop :=
  NoDup (map TextLayerProperties.id layers).

(* ------------------------------------------------------------------ *)
(** ** [components/History/HistoryPanel.tsx]: clicks on the timeline *)

Module HistoryPanel.

(** [for (let i = 0; i < steps; i++) { body(); }], from the iteration
    that has [count] calls left. *)
Fixpoint callTimes (count : nat) (body : World -> Js.Result World)
         (w : World) : Js.Result World :=
  match count with
  | O => Js.Ok w
  | S rest => w' <- body w ;; callTimes rest body w'
  end.

Definition forLoop (steps : Z) (body : World -> Js.Result World)
           (w : World) : Js.Result World :=
  callTimes (Z.to_nat steps) body w.

(** The [type] argument of [renderHistoryItem]. *)
Inductive ItemType : Type := ItemPast | ItemPresent | ItemFuture.

(** The [onClick] of the item that [renderHistoryItem(action, index,
    type)] draws.  [past] is the array the panel read from the store
    when it rendered; [undo] and [redo] read the store themselves. *)
Definition onClick (past : list HistoryAction.t) (type : ItemType)
           (index : Z) (w : World) : Js.Result World :=
  match type with
  | ItemPast =>
      let stepsToUndo := (Z.of_nat (List.length past) - index)%Z in
      forLoop stepsToUndo HistorySlice.undo w
  | ItemFuture =>
      let stepsToRedo := (index + 1)%Z in
      forLoop stepsToRedo HistorySlice.redo w
  | ItemPresent => Js.Ok w
  end.

(** A click on an item of a panel rendered from the current store. *)
Definition clickFromRender (type : ItemType) (index : Z) (w : World)
  : Js.Result World :=
  onClick (HistoryState.past (history w)) type index w.

End HistoryPanel.

(** The actions of a History Store in the order the panel lists them:
    past, present, future. *)
Definition timeline (h : HistoryState.t) : list HistoryAction.t :=
  HistoryState.past h
  ++ match HistoryState.present h with
     | Some p => [p]
     | None => []
     end
  ++ HistoryState.future h.

(** The last [n] elements of an array. *)
Definition keepLast {A} (n : nat) (arr : list A) : list A :=
  skipn (List.length arr - n) arr.

(* ------------------------------------------------------------------ *)
(** ** [store/editorSlice.ts]: deleting, locking and reordering layers *)

Module JsArray.

(** [arr.findIndex(p)]: the index of the first element that satisfies
    [p], counted from [from]; [-1] when there is none. *)
Fixpoint findIndexFrom {A} (p : A -> bool) (from : Z) (arr : list A) : Z :=
  match arr with
  | [] => (-1)%Z
  | x :: rest => if p x then from else findIndexFrom p (from + 1)%Z rest
  end.

Definition findIndex {A} (p : A -> bool) (arr : list A) : Z :=
  findIndexFrom p 0%Z arr.

(** [arr[i] = v] for an index inside the array.  (An index outside
    would grow the array; the code below writes only where it has just
    read an element.) *)
Fixpoint assignNat {A} (arr : list A) (i : nat) (v : A) : list A :=
  match arr, i with
  | [], _ => []
  | _ :: rest, O => v :: rest
  | x :: rest, S j => x :: assignNat rest j v
  end.

Definition assign {A} (arr : list A) (i : Z) (v : A) : list A :=
  if (i <? 0)%Z then arr else assignNat arr (Z.to_nat i) v.

End JsArray.

Module EditorLayers.

Definition hasId (id : string) (layer : TextLayerProperties.t) : bool :=
  String.eqb (TextLayerProperties.id layer) id.

(** [!layer.locked] of an optional boolean. *)
Definition notLocked (layer : TextLayerProperties.t) : bool :=
  match TextLayerProperties.locked layer with
  | Some true => false
  | _ => true
  end.

(** [{ ...layer, locked: !layer.locked }]. *)
Definition withLockToggled (layer : TextLayerProperties.t)
  : TextLayerProperties.t :=
  TextLayerProperties.mk
    (TextLayerProperties.id layer)
    (TextLayerProperties.text layer)
    (TextLayerProperties.fontFamily layer)
    (TextLayerProperties.fontSize layer)
    (TextLayerProperties.fontWeight layer)
    (TextLayerProperties.color layer)
    (TextLayerProperties.opacity layer)
    (TextLayerProperties.textAlign layer)
    (TextLayerProperties.top layer)
    (TextLayerProperties.left layer)
    (TextLayerProperties.width layer)
    (TextLayerProperties.height layer)
    (TextLayerProperties.angle layer)
    (TextLayerProperties.scaleX layer)
    (TextLayerProperties.scaleY layer)
    (TextLayerProperties.lineHeight layer)
    (TextLayerProperties.charSpacing layer)
    (TextLayerProperties.shadow layer)
    (Some (notLocked layer)).

(** [set({ textLayers: newLayers })]. *)
Definition withLayers (newLayers : list TextLayerProperties.t)
           (state : CanvasState.t) : CanvasState.t :=
  CanvasState.mk (CanvasState.backgroundImage state)
                 newLayers
                 (CanvasState.selectedLayerIds state)
                 (CanvasState.canvasDimensions state).

Definition deleteTextLayer (id : string) (state : CanvasState.t)
  : CanvasState.t :=
  CanvasState.mk
    (CanvasState.backgroundImage state)
    (filter (fun layer => negb (String.eqb (TextLayerProperties.id layer) id))
            (CanvasState.textLayers state))
    (filter (fun layerId => negb (String.eqb layerId id))
            (CanvasState.selectedLayerIds state))
    (CanvasState.canvasDimensions state).

Definition toggleLayerLock (id : string) (state : CanvasState.t)
  : CanvasState.t :=
  withLayers
    (map (fun layer => if hasId id layer then withLockToggled layer else layer)
         (CanvasState.textLayers state))
    state.

Definition deselectAllLayers (state : CanvasState.t) : CanvasState.t :=
  CanvasState.mk (CanvasState.backgroundImage state)
                 (CanvasState.textLayers state)
                 []
                 (CanvasState.canvasDimensions state).

Definition clearBackgroundImage (state : CanvasState.t) : CanvasState.t :=
  CanvasState.mk None
                 (CanvasState.textLayers state)
                 (CanvasState.selectedLayerIds state)
                 (CanvasState.canvasDimensions state).

(** The destructuring swap [[a[i], a[j]] = [a[j], a[i]]]: both elements
    are read, then written.  When either index is outside the array the
    state is returned as it is; the guards of the callers leave both
    inside. *)
Definition swapLayers (i j : Z) (state : CanvasState.t) : CanvasState.t :=
  let newLayers := CanvasState.textLayers state in
  match Js.index newLayers j, Js.index newLayers i with
  | Some atJ, Some atI =>
      withLayers (JsArray.assign (JsArray.assign newLayers i atJ) j atI) state
  | _, _ => state
  end.

Definition moveLayerUp (id : string) (state : CanvasState.t) : CanvasState.t :=
  let layers := CanvasState.textLayers state in
  let index := JsArray.findIndex (hasId id) layers in
  if (index =? -1)%Z || (index =? Z.of_nat (List.length layers) - 1)%Z
  then state
  else swapLayers index (index + 1) state.

Definition moveLayerDown (id : string) (state : CanvasState.t)
  : CanvasState.t :=
  let layers := CanvasState.textLayers state in
  let index := JsArray.findIndex (hasId id) layers in
  if (index <=? 0)%Z then state
  else swapLayers index (index - 1) state.

Definition moveLayerToTop (id : string) (state : CanvasState.t)
  : CanvasState.t :=
  let layers := CanvasState.textLayers state in
  let index := JsArray.findIndex (hasId id) layers in
  if (index =? -1)%Z || (index =? Z.of_nat (List.length layers) - 1)%Z
  then state
  else
    match Js.index layers index with
    | Some layer =>
        withLayers (Js.slice layers 0 index
                    ++ Js.sliceFrom layers (index + 1)
                    ++ [layer]) state
    | None => state
    end.

Definition moveLayerToBottom (id : string) (state : CanvasState.t)
  : CanvasState.t :=
  let layers := CanvasState.textLayers state in
  let index := JsArray.findIndex (hasId id) layers in
  if (index <=? 0)%Z then state
  else
    match Js.index layers index with
    | Some layer =>
        withLayers ([layer]
                    ++ Js.slice layers 0 index
                    ++ Js.sliceFrom layers (index + 1)) state
    | None => state
    end.

Definition resetEditor (state : CanvasState.t) : CanvasState.t :=
  EditorSlice.initialState.

End EditorLayers.

(** The ids of the layers of a document, in paint order. *)
Definition layerIds (state : CanvasState.t) : list string :=
  map TextLayerProperties.id (CanvasState.textLayers state).

(** Whether a layer counts as locked where the code tests
    [layer.locked]. *)
Definition isLocked (layer : TextLayerProperties.t) : bool :=
  negb (EditorLayers.notLocked layer).

(** The documents that the actions of the editor store build from the
    initial one, when every new layer gets an id that is not in use (as
    [nanoid()] is relied on to give) and a selection names layers of the
    document (as the layer panel and the canvas do). *)
Inductive Reachable : CanvasState.t -> Prop :=
| reach_initial : Reachable EditorSlice.initialState
| reach_addTextLayer id layer s :
    Reachable s -> ~ In id (layerIds s) ->
    Reachable (EditorSlice.addTextLayer id layer s)
| reach_updateTextLayer id properties s :
    Reachable s -> Reachable (EditorSlice.updateTextLayer id properties s)
| reach_deleteTextLayer id s :
    Reachable s -> Reachable (EditorLayers.deleteTextLayer id s)
| reach_toggleLayerLock id s :
    Reachable s -> Reachable (EditorLayers.toggleLayerLock id s)
| reach_moveLayerUp id s :
    Reachable s -> Reachable (EditorLayers.moveLayerUp id s)
| reach_moveLayerDown id s :
    Reachable s -> Reachable (EditorLayers.moveLayerDown id s)
| reach_moveLayerToTop id s :
    Reachable s -> Reachable (EditorLayers.moveLayerToTop id s)
| reach_moveLayerToBottom id s :
    Reachable s -> Reachable (EditorLayers.moveLayerToBottom id s)
| reach_selectLayer id s :
    Reachable s -> In id (layerIds s) ->
    Reachable (EditorSlice.selectLayer id s)
| reach_selectMultipleLayers ids s :
    Reachable s -> incl ids (layerIds s) ->
    Reachable (EditorSlice.selectMultipleLayers ids s)
| reach_deselectAllLayers s :
    Reachable s -> Reachable (EditorLayers.deselectAllLayers s)
| reach_setBackgroundImage image s :
    Reachable s -> Reachable (EditorSlice.setBackgroundImage image s)
| reach_clearBackgroundImage s :
    Reachable s -> Reachable (EditorLayers.clearBackgroundImage s)
| reach_setCanvasDimensions width height s :
    Reachable s -> Reachable (EditorSlice.setCanvasDimensions width height s)
| reach_resetEditor s :
    Reachable s -> Reachable (EditorLayers.resetEditor s)
| reach_importState snapshot s :
    Reachable snapshot -> Reachable s ->
    Reachable (EditorSlice.importState (Json.deepClone snapshot) s).

(* ------------------------------------------------------------------ *)
(** ** [components/Editor/ImageUploader.tsx] and the canvas it leads to *)

Module ImageUploader.

(** What [img.onload] shows, in order. *)
Inductive Toast : Type :=
| ShowWarning (title message : string)
| ShowSuccess (title message : string)
| SetIsUploading (b : bool).

(** The [BackgroundImage] that [img.onload] builds for a decoded image
    of [width] by [height] pixels. *)
Definition backgroundOf (src : string) (file : FileValue) (width height : Z)
  : BackgroundImage.t :=
  BackgroundImage.mk src (Some file)
    (ImageDimensions.mk (inject_Z width) (inject_Z height)
                        (inject_Z width / inject_Z height)).

(** The body of [img.onload]: [src] is [img.src], [fileName] is
    [file.name], [width] and [height] are [img.width] and [img.height],
    and [now] is the reading of [Date.now()] in [pushHistory]. *)
Definition onImageLoad (src fileName : string) (width height : Z) (now : Z)
           (w : World) : list Toast * World :=
  let small :=
    if (width <? 50)%Z || (height <? 50)%Z
    then [ShowWarning "Image too small"
            "For best results, use images at least 50x50 pixels."]
    else [] in
  let large :=
    if (4000 <? width)%Z || (4000 <? height)%Z
    then [ShowWarning "Large image detected"
            "Very large images may affect performance. Consider resizing for better experience."]
    else [] in
  let backgroundImage := backgroundOf src (FileObject fileName) width height in
  let editor' :=
    EditorSlice.setBackgroundImage backgroundImage
      (EditorSlice.setCanvasDimensions (inject_Z width) (inject_Z height)
                                       (editor w)) in
  let history' :=
    HistorySlice.pushHistory now "Uploaded background image" editor'
                             (history w) in
  (small ++ large
   ++ [ShowSuccess "Image uploaded successfully"
         (fileName ++ " (" ++ Js.showZ width ++ "x" ++ Js.showZ height ++ ")")%string;
       SetIsUploading false],
   mkWorld editor' history').

End ImageUploader.

Module CanvasComponent.

(** [new fabric.Canvas(element, { width: canvasDimensions.width,
    height: canvasDimensions.height })] of [Canvas.tsx], as far as the
    export reads it; [toDataURL] is the one of the drawing surface. *)
Definition newFabricCanvas (canvasDimensions : Dimensions.t)
           (toDataURL : ExportPng.ToDataURLOptions -> Js.Result string)
  : ExportPng.FabricCanvas :=
  ExportPng.mkCanvas (Dimensions.width canvasDimensions)
                     (Dimensions.height canvasDimensions)
                     toDataURL.

End CanvasComponent.

(** Kinds of events of an export. *)
Definition isShowError (ev : ExportPng.Event) : bool :=
  match ev with ExportPng.ShowError _ _ => true | _ => false end.

Definition isShowSuccess (ev : ExportPng.Event) : bool :=
  match ev with ExportPng.ShowSuccess _ _ => true | _ => false end.

Definition isSetIsExporting (ev : ExportPng.Event) : bool :=
  match ev with ExportPng.SetIsExporting _ => true | _ => false end.

(** The events that [exportToPng] itself can cause. *)
Definition isExportInternal (ev : ExportPng.Event) : bool :=
  match ev with
  | ExportPng.ConsoleWarnLargeExport _ _
  | ExportPng.ConsoleError _ _
  | ExportPng.CallToDataURL _ => true
  | _ => false
  end.

(* ------------------------------------------------------------------ *)
(** ** [components/LayerPanel/LayerPanel.tsx] and the move handler of
    [components/Canvas/Canvas.tsx] *)

Module LayerPanel.

(** The [direction] argument of [handleMoveLayer]. *)
Inductive MoveDirection : Type := MoveUp | MoveDown | MoveTop | MoveBottom.

(** [`${direction}`]. *)
Definition directionName (direction : MoveDirection) : string :=
  match direction with
  | MoveUp => "up"
  | MoveDown => "down"
  | MoveTop => "top"
  | MoveBottom => "bottom"
  end.

(** [pushHistory(description, useEditorStore.getState())]. *)
Definition pushCurrent (now : Z) (description : string) (w : World) : World :=
  mkWorld (editor w)
          (HistorySlice.pushHistory now description (editor w) (history w)).

(** [handleAddLayer]; [id] is the value of [nanoid()].  The [text] the
    handler passes is the default that [addTextLayer] gives. *)
Definition handleAddLayer (id : string) (now : Z) (w : World) : World :=
  pushCurrent now "Added text layer"
    (mkWorld (EditorSlice.addTextLayer id
                (EditorSlice.mkPatch (Some 100) (Some 100)) (editor w))
             (history w)).

Definition handleDeleteLayer (id : string) (now : Z) (w : World) : World :=
  pushCurrent now "Deleted text layer"
    (mkWorld (EditorLayers.deleteTextLayer id (editor w)) (history w)).

Definition handleMoveLayer (id : string) (direction : MoveDirection)
           (now : Z) (w : World) : World :=
  let moved :=
    match direction with
    | MoveUp => EditorLayers.moveLayerUp id (editor w)
    | MoveDown => EditorLayers.moveLayerDown id (editor w)
    | MoveTop => EditorLayers.moveLayerToTop id (editor w)
    | MoveBottom => EditorLayers.moveLayerToBottom id (editor w)
    end in
  pushCurrent now ("Moved layer " ++ directionName direction)%string
    (mkWorld moved (history w)).

Definition handleToggleLock (id : string) (now : Z) (w : World) : World :=
  let toggled := EditorLayers.toggleLayerLock id (editor w) in
  let layer := Home.findLayer (CanvasState.textLayers toggled) id in
  let actionDescription :=
    match layer with
    | Some l => if EditorLayers.notLocked l then "Unlocked text layer"
                else "Locked text layer"
    | None => "Unlocked text layer"
    end in
  pushCurrent now actionDescription (mkWorld toggled (history w)).

End LayerPanel.

Module CanvasEvents.

(** The handler of [object:moved]: [layerId], [left] and [top] are the
    properties of the event target; an object that carries no layer id,
    or an empty one, is ignored. *)
Definition onObjectMoved (layerId : option string) (left top : Js.number)
           (now : Z) (w : World) : World :=
  match layerId with
  | None => w
  | Some id =>
      if String.eqb id EmptyString then w
      else
        LayerPanel.pushCurrent now "Moved text layer"
          (mkWorld (EditorSlice.updateTextLayer id
                      (EditorSlice.mkPatch (Some left) (Some top)) (editor w))
                   (history w))
  end.

End CanvasEvents.

(** The actions of the layer panel and of the canvas that end with a
    push of the current document. *)
Inductive UserAction : Type :=
| AddLayer (id : string)
| DeleteLayer (id : string)
| MoveLayer (id : string) (direction : LayerPanel.MoveDirection)
| ToggleLock (id : string)
| DragLayer (id : string) (x y : Js.number).

Definition perform (action : UserAction) (now : Z) (w : World) : World :=
  match action with
  | AddLayer id => LayerPanel.handleAddLayer id now w
  | DeleteLayer id => LayerPanel.handleDeleteLayer id now w
  | MoveLayer id direction => LayerPanel.handleMoveLayer id direction now w
  | ToggleLock id => LayerPanel.handleToggleLock id now w
  | DragLayer id x y =>
      CanvasEvents.onObjectMoved (Some id) x y now w
  end.

(* ------------------------------------------------------------------ *)
(** ** [pages/index.tsx]: the keyboard handler *)

(** [Home] registers [handleKeyDown] in an effect whose dependencies are
    [canUndo], [canRedo], [undo] and [redo].  These are the functions of
    the History Store, the same at every render, so the effect runs once
    and the registered handler is the one built by the render at mount:
    its [selectedLayerIds], [textLayers], [applySmartSpacing] and
    [nudgeSelectedLayers] are those of that render, while [undo],
    [redo], [updateTextLayer] and [pushHistory] act on the stores as
    they are when the key is pressed. *)
Module HomeKeys.

(** What [handleKeyDown] reads of a [KeyboardEvent]; [targetTagName] is
    [e.target.tagName] when [e.target instanceof HTMLElement]. *)
Record KeyboardEvent : Type := mkKeyboardEvent
  { key : string;
    ctrlKey : bool;
    metaKey : bool;
    shiftKey : bool;
    targetTagName : option string }.

(** What the handler acts on: the two stores, the [showHistory] state of
    the component, the number of callbacks handed to [setTimeout] that
    have not run yet, and whether [e.preventDefault()] was called. *)
Record Page : Type := mkPage
  { stores : World;
    showHistory : bool;
    pendingTimeouts : nat;
    defaultPrevented : bool }.

(** [s.toLowerCase()] on the characters of ASCII; the other characters
    of a key name are kept, and none of them lowers to an ASCII
    letter that [handleKeyDown] compares with. *)
Definition lowerAscii (c : ascii) : ascii :=
  let n := nat_of_ascii c in
  if (65 <=? n)%nat && (n <=? 90)%nat then ascii_of_nat (n + 32) else c.

Fixpoint toLowerCase (s : string) : string :=
  match s with
  | EmptyString => EmptyString
  | String c rest => String (lowerAscii c) (toLowerCase rest)
  end.

(** [['ArrowUp', 'ArrowDown', 'ArrowLeft', 'ArrowRight'].includes(k)]. *)
Definition isArrowKey (k : string) : bool :=
  Home.includes ["ArrowUp"; "ArrowDown"; "ArrowLeft"; "ArrowRight"] k.

(** Whether [applySmartSpacing] gets as far as its [setTimeout]: both
    of its guards let it pass. *)
Definition spacingApplies (selectedLayerIds : list string)
           (textLayers : list TextLayerProperties.t) : bool :=
  negb (Z.of_nat (List.length selectedLayerIds) <? 2)%Z
  && negb (Z.of_nat
             (List.length
                (filter (fun layer => Home.includes selectedLayerIds
                                        (TextLayerProperties.id layer))
                        textLayers)) <? 2)%Z.

(** [handleKeyDown(e)] of the handler built by the render that saw the
    editor store [mounted].  The five [if] statements run one after the
    other. *)
Definition handleKeyDown (mounted : CanvasState.t) (e : KeyboardEvent)
           (now : Z) (page : Page) : Js.Result Page :=
  let selectedLayerIds := CanvasState.selectedLayerIds mounted in
  let textLayers := CanvasState.textLayers mounted in
  let modifier := ctrlKey e || metaKey e in
  page1 <-
    (if modifier && String.eqb (key e) "z" && negb (shiftKey e)
     then
       if HistorySlice.canUndo (history (stores page))
       then w <- HistorySlice.undo (stores page) ;;
            Js.Ok (mkPage w (showHistory page) (pendingTimeouts page) true)
       else Js.Ok (mkPage (stores page) (showHistory page)
                          (pendingTimeouts page) true)
     else Js.Ok page) ;;
  page2 <-
    (if modifier
        && ((String.eqb (key e) "z" && shiftKey e) || String.eqb (key e) "y")
     then
       if HistorySlice.canRedo (history (stores page1))
       then w <- HistorySlice.redo (stores page1) ;;
            Js.Ok (mkPage w (showHistory page1) (pendingTimeouts page1) true)
       else Js.Ok (mkPage (stores page1) (showHistory page1)
                          (pendingTimeouts page1) true)
     else Js.Ok page1) ;;
  let page3 :=
    if modifier && String.eqb (key e) "h"
    then mkPage (stores page2) (negb (showHistory page2))
                (pendingTimeouts page2) true
    else page2 in
  let page4 :=
    if modifier && shiftKey e && String.eqb (toLowerCase (key e)) "s"
       && (1 <? Z.of_nat (List.length selectedLayerIds))%Z
    then mkPage
           (mkWorld (Home.applySmartSpacing selectedLayerIds textLayers
                       (editor (stores page3)))
                    (history (stores page3)))
           (showHistory page3)
           (if spacingApplies selectedLayerIds textLayers
            then S (pendingTimeouts page3) else pendingTimeouts page3)
           true
    else page3 in
  Js.Ok
    (if isArrowKey (key e) && (0 <? Z.of_nat (List.length selectedLayerIds))%Z
     then
       match targetTagName e with
       | Some tagName =>
           if negb (Home.includes ["INPUT"; "TEXTAREA"] tagName)
           then mkPage
                  (Home.nudgeSelectedLayers selectedLayerIds textLayers
                     (key e) (if shiftKey e then 10 else 1) now
                     (stores page4))
                  (showHistory page4) (pendingTimeouts page4) true
           else page4
       | None => page4
       end
     else page4).


End HomeKeys.

(* ------------------------------------------------------------------ *)
(** ** JavaScript numbers as IEEE 754 doubles *)

(** A JavaScript [number] is a binary64 floating-point value.  Rocq's
    primitive floats are these values with the IEEE operations, so the
    arithmetic of the export, where rounding, overflow and [NaN] decide
    what the code does, is embedded over them. *)
Module Double.

Import PrimFloat.

Definition number : Set := float.

(** [x !== x]. *)
Definition isNaN (x : number) : bool := negb (x =? x)%float.

(** [!x]: the numbers [0], [-0] and [NaN] are falsy. *)
Definition isFalsy (x : number) : bool := (x =? 0)%float || isNaN x.

(** [a <= b], [a < b] and [a > b]: false when an operand is [NaN]. *)
Definition leb (a b : number) : bool := (a <=? b)%float.
Definition ltb (a b : number) : bool := (a <? b)%float.
Definition gtb (a b : number) : bool := (b <? a)%float.

(** [Math.max(a, b)]: [NaN] when an argument is [NaN], and [+0] counts
    as larger than [-0]. *)
Definition max (a b : number) : number :=
  if isNaN a || isNaN b then nan
  else if (a <? b)%float then b
  else if (b <? a)%float then a
  else if get_sign a then b else a.

(** [isFinite(x)]: neither [NaN] nor an infinity. *)
Definition isFinite (x : number) : bool := is_finite x.

End Double.

(* ------------------------------------------------------------------ *)
(** ** [utils/export.ts] and [ExportButton.tsx] over doubles *)

Module ExportDouble.

Import PrimFloat.

(** [ImageDimensions] and [BackgroundImage] of [types/canvas.ts]. *)
Record ImageDimensions : Type := mkImageDimensions
  { imageWidth : Double.number;
    imageHeight : Double.number;
    aspectRatio : Double.number }.

Record BackgroundImage : Type := mkBackgroundImage
  { url : string;
    file : option FileValue;
    dimensions : ImageDimensions }.

(** The argument of Fabric's [canvas.toDataURL]. *)
Record ToDataURLOptions : Type := mkOptions
  { format : string;
    quality : Double.number;
    multiplier : Double.number;
    left : Double.number;
    top : Double.number;
    width : Double.number;
    height : Double.number }.

(** The part of a Fabric canvas that the export reads.  [toDataURL]
    belongs to the drawing surface: it is any function, and it may
    throw. *)
Record FabricCanvas : Type := mkCanvas
  { getWidth : Double.number;
    getHeight : Double.number;
    toDataURL : ToDataURLOptions -> Js.Result string }.

(** What the export does to the outside, in order. *)
Inductive Event : Type :=
| ConsoleWarnLargeExport (exportWidth exportHeight : Double.number)
| ConsoleError (label : string) (e : Js.Exn)
| CallToDataURL (options : ToDataURLOptions)
| ShowError (title message : string)
| ShowWarning (title message : string)
| ShowSuccess (title message : string)
| SetIsExporting (b : bool)
| DownloadPng (dataUrl filename : string).

(** How the promise of [exportToPng] settles. *)
Inductive Settled : Type :=
| Resolved (dataUrl : string)
| Rejected (message : string).

(** [!x || !y || x <= 0 || y <= 0]. *)
Definition invalidDimensions (x y : Double.number) : bool :=
  Double.isFalsy x || Double.isFalsy y
  || Double.leb x 0%float || Double.leb y 0%float.

(** [Math.max(imgWidth / canvasWidth, imgHeight / canvasHeight)]. *)
Definition computeMultiplier (canvas : FabricCanvas)
           (backgroundImage : BackgroundImage) : Double.number :=
  let imgWidth := imageWidth (dimensions backgroundImage) in
  let imgHeight := imageHeight (dimensions backgroundImage) in
  Double.max (imgWidth / getWidth canvas)%float
             (imgHeight / getHeight canvas)%float.

(** [!isFinite(multiplier) || multiplier <= 0]. *)
Definition invalidMultiplier (multiplier : Double.number) : bool :=
  negb (Double.isFinite multiplier) || Double.leb multiplier 0%float.

Definition exportWidth (canvas : FabricCanvas)
           (backgroundImage : BackgroundImage) : Double.number :=
  (getWidth canvas * computeMultiplier canvas backgroundImage)%float.

Definition exportHeight (canvas : FabricCanvas)
           (backgroundImage : BackgroundImage) : Double.number :=
  (getHeight canvas * computeMultiplier canvas backgroundImage)%float.

Definition exportOptions (canvas : FabricCanvas)
           (backgroundImage : BackgroundImage) : ToDataURLOptions :=
  mkOptions "png" 1%float (computeMultiplier canvas backgroundImage)
            0%float 0%float (getWidth canvas) (getHeight canvas).

Definition maxDimension : Double.number := 8000%float.

(** The body of the [try] block of [exportToPng].  [dimensions] is a
    required field of [BackgroundImage], so [!backgroundImage.dimensions]
    holds for no value of the type. *)
Definition exportTry (canvas : option FabricCanvas)
           (backgroundImage : option BackgroundImage)
  : list Event * Js.Result string :=
  match canvas with
  | None => ([], Js.Throw (Js.Error "Canvas is required for export"))
  | Some canvas =>
  match backgroundImage with
  | None =>
      ([], Js.Throw
             (Js.Error "Background image with dimensions is required for export"))
  | Some backgroundImage =>
  let imgWidth := imageWidth (dimensions backgroundImage) in
  let imgHeight := imageHeight (dimensions backgroundImage) in
  let canvasWidth := getWidth canvas in
  let canvasHeight := getHeight canvas in
  if invalidDimensions imgWidth imgHeight
  then ([], Js.Throw (Js.Error "Invalid background image dimensions"))
  else if invalidDimensions canvasWidth canvasHeight
  then ([], Js.Throw (Js.Error "Invalid canvas dimensions"))
  else
    let multiplier := computeMultiplier canvas backgroundImage in
    if invalidMultiplier multiplier
    then ([], Js.Throw (Js.Error "Invalid export multiplier calculated"))
    else
      let warn :=
        if Double.gtb (exportWidth canvas backgroundImage) maxDimension
           || Double.gtb (exportHeight canvas backgroundImage) maxDimension
        then [ConsoleWarnLargeExport (exportWidth canvas backgroundImage)
                                     (exportHeight canvas backgroundImage)]
        else [] in
      let options := exportOptions canvas backgroundImage in
      let called := warn ++ [CallToDataURL options] in
      match toDataURL canvas options with
      | Js.Throw e => (called, Js.Throw e)
      | Js.Ok dataUrl =>
          if String.eqb dataUrl EmptyString
             || negb (Js.startsWith dataUrl "data:image/png;base64,")
          then (called,
                Js.Throw (Js.Error "Failed to generate valid PNG data URL"))
          else (called, Js.Ok dataUrl)
      end
  end
  end.

(** [exportToPng]: the [try] block, and the [catch] that logs and
    rejects with the message of the error. *)
Definition exportToPng (canvas : option FabricCanvas)
           (backgroundImage : option BackgroundImage)
  : list Event * Settled :=
  match exportTry canvas backgroundImage with
  | (events, Js.Ok dataUrl) => (events, Resolved dataUrl)
  | (events, Js.Throw e) =>
      let errorMessage :=
        match e with
        | Js.Error message => message
        | Js.NonError => "Failed to export image"
        end in
      (events ++ [ConsoleError "Export failed:" e], Rejected errorMessage)
  end.

Definition exportFilename (now : Z) : string :=
  ("image-text-composition-" ++ Js.showZ now ++ ".png")%string.

(** [handleExport] of the export button; [now] is the reading of
    [Date.now()] when the file name is built. *)
Definition handleExport (canvas : option FabricCanvas)
           (backgroundImage : option BackgroundImage) (now : Z)
  : list Event :=
  match canvas, backgroundImage with
  | Some _, Some _ =>
      let '(events, settled) := exportToPng canvas backgroundImage in
      [SetIsExporting true;
       ShowWarning "Export started"
         "Generating high-resolution PNG... This may take a moment for large images."]
      ++ events
      ++ match settled with
         | Resolved dataUrl =>
             [DownloadPng dataUrl (exportFilename now);
              ShowSuccess "Export successful"
                "Your image has been downloaded successfully!"]
         | Rejected message =>
             [ConsoleError "Error exporting canvas:" (Js.Error message);
              ShowError "Export failed"
                (message ++ " Please try again or try with a smaller image.")%string]
         end
      ++ [SetIsExporting false]
  | _, _ =>
      [ShowError "Cannot export"
         "Please upload a background image and add some text layers before exporting."]
  end.

Definition isCallToDataURL (ev : Event) : bool :=
  match ev with CallToDataURL _ => true | _ => false end.

Definition isDownload (ev : Event) : bool :=
  match ev with DownloadPng _ _ => true | _ => false end.

Definition isShowError (ev : Event) : bool :=
  match ev with ShowError _ _ => true | _ => false end.

End ExportDouble.

(* ================================================================== *)
(** * Properties *)

(** ** Arrays *)

Section Arrays.

Context {A : Type}.
Implicit Types (arr : list A) (x : A).

Lemma sliceFrom_negative arr (start : Z) :
  (start < 0)%Z ->
  Js.sliceFrom arr start
  = skipn (List.length arr - Z.to_nat (- start)) arr.
Proof.
  intros Hneg. unfold Js.sliceFrom, Js.relIndex.
  destruct (Z.ltb_spec start 0) as [_ | Hge]; [ | lia ].
  f_equal. lia.
Qed.

Lemma sliceFrom_one x arr : Js.sliceFrom (x :: arr) 1 = arr.
Proof.
  unfold Js.sliceFrom, Js.relIndex.
  destruct (Z.ltb_spec 1 0) as [Hlt | _]; [ lia | ].
  replace (Z.to_nat (Z.min 1 (Z.of_nat (List.length (x :: arr))))) with 1%nat
    by (cbn [List.length]; lia).
  reflexivity.
Qed.

Lemma index_last arr x :
  Js.index (arr ++ [x]) (Z.of_nat (List.length (arr ++ [x])) - 1) = Some x.
Proof.
  unfold Js.index. rewrite length_app. cbn [List.length].
  destruct (Z.ltb_spec (Z.of_nat (List.length arr + 1) - 1) 0) as [Hlt | _];
    [ lia | ].
  replace (Z.to_nat (Z.of_nat (List.length arr + 1) - 1))
    with (List.length arr) by lia.
  rewrite nth_error_app2 by lia.
  rewrite Nat.sub_diag. reflexivity.
Qed.

Lemma slice_init arr x :
  Js.slice (arr ++ [x]) 0 (Z.of_nat (List.length (arr ++ [x])) - 1) = arr.
Proof.
  unfold Js.slice, Js.relIndex. rewrite length_app. cbn [List.length].
  set (n := List.length arr).
  destruct (Z.ltb_spec 0 0) as [Hlt | _]; [ lia | ].
  destruct (Z.ltb_spec (Z.of_nat (n + 1) - 1) 0) as [Hlt | _]; [ lia | ].
  replace (Z.to_nat (Z.min 0 (Z.of_nat (n + 1)))) with 0%nat by lia.
  replace (Z.to_nat
             (Z.max (Z.min (Z.of_nat (n + 1) - 1) (Z.of_nat (n + 1))
                     - Z.min 0 (Z.of_nat (n + 1))) 0))
    with n by lia.
  cbn [skipn]. subst n. rewrite firstn_app, Nat.sub_diag, firstn_all.
  cbn [firstn]. apply app_nil_r.
Qed.

Lemma nonempty_snoc arr :
  arr <> [] -> exists init x, arr = init ++ [x].
Proof.
  intros Hne. destruct (exists_last Hne) as (init & x & ->). eauto.
Qed.

Lemma last_cons_default arr : forall x d, last (x :: arr) d = last arr x.
Proof.
  induction arr as [ | y arr IH ]; intros x d; [ reflexivity | ].
  change (last (x :: y :: arr) d) with (last (y :: arr) d).
  rewrite (IH y d), (IH y x). reflexivity.
Qed.

End Arrays.

Section ArrayMaps.

Context {A B : Type} (f : A -> B).

Lemma map_removelast (arr : list A) :
  map f (removelast arr) = removelast (map f arr).
Proof.
  induction arr as [ | a [ | b l ] IH ]; [ reflexivity .. | ].
  cbn [removelast map] in *. now rewrite IH.
Qed.

Lemma map_last (arr : list A) (d : A) :
  f (last arr d) = last (map f arr) (f d).
Proof.
  induction arr as [ | a l IH ]; [ reflexivity | ].
  destruct l as [ | b l' ]; [ reflexivity | ].
  change (last (a :: b :: l') d) with (last (b :: l') d).
  cbn [map] in *.
  change (last (f a :: f b :: map f l') (f d))
    with (last (f b :: map f l') (f d)).
  exact IH.
Qed.

End ArrayMaps.

(** ** The History Store, equation by equation *)

Section HistoryEquations.

Implicit Types (w : World) (h : HistoryState.t) (p q : HistoryAction.t).

Lemma importState_eq (imported e : CanvasState.t) :
  EditorSlice.importState imported e = imported.
Proof. destruct imported; reflexivity. Qed.

(** [undo] past a non-empty past. *)
Lemma undo_snoc e ps q p fs m :
  HistorySlice.undo (mkWorld e (HistoryState.mk (ps ++ [q]) (Some p) fs m))
  = Js.Ok (mkWorld (HistoryAction.state q)
             (HistoryState.mk ps (Some q) (p :: fs) m)).
Proof.
  unfold HistorySlice.undo. cbn [history editor HistoryState.past
    HistoryState.present HistoryState.future HistoryState.maxHistorySize].
  destruct (Z.eqb_spec (Z.of_nat (List.length (ps ++ [q]))) 0) as [Hz | _].
  - rewrite length_app in Hz. cbn [List.length] in Hz. lia.
  - rewrite index_last, slice_init. cbn [Js.deref Js.bind].
    rewrite importState_eq. reflexivity.
Qed.

Lemma undo_empty_past e present fs m :
  HistorySlice.undo (mkWorld e (HistoryState.mk [] present fs m))
  = Js.Ok (mkWorld e (HistoryState.mk [] present fs m)).
Proof. reflexivity. Qed.

Lemma undo_null_present e ps fs m :
  HistorySlice.undo (mkWorld e (HistoryState.mk ps None fs m))
  = Js.Ok (mkWorld e (HistoryState.mk ps None fs m)).
Proof.
  unfold HistorySlice.undo. cbn [history HistoryState.past HistoryState.present].
  destruct (Z.of_nat (List.length ps) =? 0)%Z; reflexivity.
Qed.

(** [redo] with a non-empty future. *)
Lemma redo_cons e ps present f fs m :
  HistorySlice.redo (mkWorld e (HistoryState.mk ps present (f :: fs) m))
  = Js.Ok (mkWorld (HistoryAction.state f)
             (HistoryState.mk
                (match present with Some p => ps ++ [p] | None => ps end)
                (Some f) fs m)).
Proof.
  unfold HistorySlice.redo. cbn [history editor HistoryState.past
    HistoryState.present HistoryState.future HistoryState.maxHistorySize].
  destruct (Z.eqb_spec (Z.of_nat (List.length (f :: fs))) 0) as [Hz | _].
  - cbn [List.length] in Hz. lia.
  - rewrite sliceFrom_one. change (Js.index (f :: fs) 0) with (Some f).
    cbn [Js.deref Js.bind]. rewrite importState_eq. reflexivity.
Qed.

Lemma redo_empty_future e ps present m :
  HistorySlice.redo (mkWorld e (HistoryState.mk ps present [] m))
  = Js.Ok (mkWorld e (HistoryState.mk ps present [] m)).
Proof. reflexivity. Qed.

(** The new past of a push over a present action: the old past and
    the old present, cut to its last [maxHistorySize - 1] entries. *)
Lemma pushHistory_present now d s ps p fs m :
  (2 <= m)%Z ->
  HistorySlice.pushHistory now d s (HistoryState.mk ps (Some p) fs m)
  = HistoryState.mk
      (skipn (List.length (ps ++ [p]) - Z.to_nat (m - 1)) (ps ++ [p]))
      (Some (HistoryAction.mk now d (Json.deepClone s))) [] m.
Proof.
  intros Hm. unfold HistorySlice.pushHistory.
  cbn [HistoryState.past HistoryState.present HistoryState.maxHistorySize].
  rewrite sliceFrom_negative by lia.
  replace (- (- m + 1))%Z with (m - 1)%Z by lia. reflexivity.
Qed.

Lemma pushHistory_null now d s ps fs m :
  HistorySlice.pushHistory now d s (HistoryState.mk ps None fs m)
  = HistoryState.mk ps (Some (HistoryAction.mk now d (Json.deepClone s))) [] m.
Proof. reflexivity. Qed.

End HistoryEquations.

(** ** The length invariant of the History Store *)

Section HistoryInvariant.

Lemma bounded_initial : bounded HistorySlice.initialState.
Proof. split; [ reflexivity | cbn; unfold HistorySlice.MAX_HISTORY_SIZE; lia ]. Qed.

Lemma pushHistory_bounded now d s h :
  bounded h -> bounded (HistorySlice.pushHistory now d s h).
Proof.
  destruct h as [ps [p | ] fs m]; intros [Hm Hlen];
    cbn [HistoryState.past HistoryState.future HistoryState.maxHistorySize] in *;
    unfold HistorySlice.MAX_HISTORY_SIZE in *.
  - rewrite pushHistory_present by lia. split; [ exact Hm | ].
    cbn [HistoryState.past HistoryState.future HistoryState.maxHistorySize
         List.length].
    rewrite length_skipn, length_app. cbn [List.length]. lia.
  - rewrite pushHistory_null. split; [ exact Hm | ].
    cbn [HistoryState.past HistoryState.future HistoryState.maxHistorySize
         List.length]. lia.
Qed.

Lemma undo_bounded w :
  bounded (history w) ->
  exists w', HistorySlice.undo w = Js.Ok w' /\ bounded (history w').
Proof.
  destruct w as [e [ps pr fs m]]. cbn [history]. intros Hb.
  destruct ps as [ | a ps'].
  - exists (mkWorld e (HistoryState.mk [] pr fs m)).
    split; [ apply undo_empty_past | exact Hb ].
  - destruct pr as [p | ].
    + destruct (@nonempty_snoc _ (a :: ps')) as (init & q & Heq);
        [ discriminate | ].
      rewrite Heq in *. rewrite undo_snoc. eexists; split; [ reflexivity | ].
      destruct Hb as [Hm Hlen]. split; [ exact Hm | ].
      cbn [history HistoryState.past HistoryState.future
           HistoryState.maxHistorySize List.length] in *.
      rewrite length_app in Hlen. cbn [List.length] in Hlen. lia.
    + rewrite undo_null_present. eexists; split; [ reflexivity | exact Hb ].
Qed.

Lemma redo_bounded w :
  bounded (history w) ->
  exists w', HistorySlice.redo w = Js.Ok w' /\ bounded (history w').
Proof.
  destruct w as [e [ps pr fs m]]. cbn [history]. intros [Hm Hlen].
  cbn [HistoryState.past HistoryState.future HistoryState.maxHistorySize] in *.
  destruct fs as [ | f fs'].
  - rewrite redo_empty_future. eexists; split; [ reflexivity | ].
    split; [ exact Hm | exact Hlen ].
  - rewrite redo_cons. eexists; split; [ reflexivity | ].
    split; [ exact Hm | ].
    cbn [history HistoryState.past HistoryState.future
         HistoryState.maxHistorySize List.length] in *.
    destruct pr as [p | ]; [ rewrite length_app; cbn [List.length] | ]; lia.
Qed.

Lemma step_bounded op w :
  bounded (history w) ->
  exists w', step op w = Js.Ok w' /\ bounded (history w').
Proof.
  intros Hb. destruct op as [now d s | | | ]; cbn [step].
  - eexists; split; [ reflexivity | ]. cbn [history].
    apply pushHistory_bounded, Hb.
  - apply undo_bounded, Hb.
  - apply redo_bounded, Hb.
  - eexists; split; [ reflexivity | apply bounded_initial ].
Qed.

Lemma run_bounded ops : forall w,
  bounded (history w) ->
  exists w', run ops w = Js.Ok w' /\ bounded (history w').
Proof.
  induction ops as [ | op ops IH ]; intros w Hb; cbn [run].
  - eauto.
  - destruct (@step_bounded op w Hb) as (w1 & -> & Hb1). cbn [Js.bind].
    apply IH, Hb1.
Qed.

(** What a push does to the past of a bounded store. *)
Lemma pushHistory_past_bounded now d s h :
  bounded h ->
  HistoryState.past (HistorySlice.pushHistory now d s h)
  = match HistoryState.present h with
    | None => HistoryState.past h
    | Some p =>
        if (Z.of_nat (List.length (HistoryState.past h)) + 1
            <? HistoryState.maxHistorySize h)%Z
        then HistoryState.past h ++ [p]
        else tl (HistoryState.past h ++ [p])
    end.
Proof.
  destruct h as [ps [p | ] fs m]; intros [Hm Hlen];
    cbn [HistoryState.past HistoryState.present HistoryState.future
         HistoryState.maxHistorySize] in *;
    unfold HistorySlice.MAX_HISTORY_SIZE in *; [ | reflexivity ].
  rewrite pushHistory_present by lia. cbn [HistoryState.past].
  rewrite length_app. cbn [List.length]. subst m.
  destruct (Z.ltb_spec (Z.of_nat (List.length ps) + 1) 20) as [Hlt | Hge].
  - replace (List.length ps + 1 - Z.to_nat (20 - 1))%nat with 0%nat by lia.
    reflexivity.
  - replace (List.length ps + 1 - Z.to_nat (20 - 1))%nat with 1%nat by lia.
    destruct (ps ++ [p]); reflexivity.
Qed.

(** Pushes fill the past up to [maxHistorySize - 1] and no further. *)
Lemma run_pushes_length (pushes : list PushArgs) :
  forall w,
    bounded (history w) ->
    HistoryState.present (history w) <> None ->
    exists w',
      run (map opOfPush pushes) w = Js.Ok w'
      /\ HistoryState.present (history w') <> None
      /\ List.length (HistoryState.past (history w'))
         = Nat.min (List.length (HistoryState.past (history w))
                    + List.length pushes) 19.
Proof.
  induction pushes as [ | a pushes IH ]; intros w Hb Hpresent.
  - exists w. split; [ reflexivity | ]. split; [ exact Hpresent | ].
    destruct Hb as [Hm Hlen]. unfold HistorySlice.MAX_HISTORY_SIZE in Hm.
    cbn [List.length]. lia.
  - cbn [map run step opOfPush Js.bind].
    set (w1 := mkWorld (editor w)
                 (HistorySlice.pushHistory (arg_now a) (arg_description a)
                    (arg_state a) (history w))).
    assert (Hb1 : bounded (history w1)) by (apply pushHistory_bounded, Hb).
    assert (Hp1 : HistoryState.present (history w1) <> None) by discriminate.
    destruct (IH w1 Hb1 Hp1) as (w' & Hrun & Hp' & Hlen').
    exists w'. split; [ exact Hrun | ]. split; [ exact Hp' | ].
    rewrite Hlen'. subst w1. cbn [history].
    rewrite (@pushHistory_past_bounded _ _ _ _ Hb).
    destruct (HistoryState.present (history w)) as [p | ]; [ | contradiction ].
    destruct Hb as [Hm Hlen]. unfold HistorySlice.MAX_HISTORY_SIZE in Hm.
    rewrite Hm.
    destruct (Z.ltb_spec
                (Z.of_nat (List.length (HistoryState.past (history w))) + 1) 20)
      as [Hlt | Hge].
    + rewrite length_app. cbn [List.length]. lia.
    + destruct (HistoryState.past (history w)) as [ | q ps ];
        cbn [List.length] in *; [ lia | ].
      cbn [app tl]. rewrite length_app. cbn [List.length]. lia.
Qed.

(** After [maxHistorySize + k] pushes from the initial store the past
    holds exactly [maxHistorySize - 1] actions. *)
Lemma past_full_after_max_pushes (first : PushArgs) (rest : list PushArgs) :
  (19 <= List.length rest)%nat ->
  exists w,
    run (map opOfPush (first :: rest)) initialWorld = Js.Ok w
    /\ (Z.of_nat (List.length (HistoryState.past (history w))) + 1
        = HistoryState.maxHistorySize (history w))%Z.
Proof.
  intros Hmany. cbn [map run].
  set (w1 := mkWorld EditorSlice.initialState
               (HistorySlice.pushHistory (arg_now first) (arg_description first)
                  (arg_state first) HistorySlice.initialState)).
  assert (Hb1 : bounded (history w1))
    by (apply pushHistory_bounded, bounded_initial).
  assert (Hp1 : HistoryState.present (history w1) <> None) by discriminate.
  destruct (@run_pushes_length rest w1 Hb1 Hp1) as (w & Hrun & _ & Hlen).
  exists w. split; [ exact Hrun | ].
  destruct (@run_bounded (map opOfPush rest) w1 Hb1) as (w2 & Hrun2 & Hm & _).
  assert (w2 = w) as -> by congruence.
  rewrite Hm, Hlen. unfold HistorySlice.MAX_HISTORY_SIZE.
  subst w1. cbn [history HistorySlice.pushHistory HistorySlice.initialState
                 HistoryState.present HistoryState.past List.length]. lia.
Qed.

End HistoryInvariant.

(** C3.  Whatever sequence of [pushHistory], [undo], [redo] and
    [clearHistory] calls is made from the initial empty History Store,
    every call returns and [past.length + 1 <= maxHistorySize] holds
    afterwards; a further push keeps the old past and the old present,
    and drops the oldest entry exactly when the past is full.  A push
    does so in every state that satisfies the bound, where it also makes
    the pushed action the present and empties the future; and the full
    past is reached: after [maxHistorySize + k] pushes the past holds
    [maxHistorySize - 1] actions and a present is set, so that every
    further push drops the oldest past entry. *)
Theorem history_length_invariant :
  (forall (ops : list HistoryOp) (e : CanvasState.t),
    exists w,
      run ops (mkWorld e HistorySlice.initialState) = Js.Ok w
      /\ (Z.of_nat (List.length (HistoryState.past (history w))) + 1
          <= HistoryState.maxHistorySize (history w))%Z
      /\ forall now d s,
          HistoryState.past (HistorySlice.pushHistory now d s (history w))
          = match HistoryState.present (history w) with
            | None => HistoryState.past (history w)
            | Some p =>
                if (Z.of_nat (List.length (HistoryState.past (history w))) + 1
                    <? HistoryState.maxHistorySize (history w))%Z
                then HistoryState.past (history w) ++ [p]
                else tl (HistoryState.past (history w) ++ [p])
            end)
  /\ (forall (now : Z) (d : string) (s : CanvasState.t) (h : HistoryState.t),
        bounded h ->
        let h' := HistorySlice.pushHistory now d s h in
        bounded h'
        /\ HistoryState.present h'
           = Some (HistoryAction.mk now d (Json.deepClone s))
        /\ HistoryState.future h' = []
        /\ HistoryState.past h'
           = match HistoryState.present h with
             | None => HistoryState.past h
             | Some p =>
                 if (Z.of_nat (List.length (HistoryState.past h)) + 1
                     <? HistoryState.maxHistorySize h)%Z
                 then HistoryState.past h ++ [p]
                 else tl (HistoryState.past h ++ [p])
             end)
  /\ (forall (first : PushArgs) (rest : list PushArgs),
        (19 <= List.length rest)%nat ->
        exists w,
          run (map opOfPush (first :: rest)) initialWorld = Js.Ok w
          /\ (Z.of_nat (List.length (HistoryState.past (history w))) + 1
              = HistoryState.maxHistorySize (history w))%Z
          /\ exists p,
              HistoryState.present (history w) = Some p
              /\ forall now d s,
                  HistoryState.past
                    (HistorySlice.pushHistory now d s (history w))
                  = tl (HistoryState.past (history w)) ++ [p]).
Proof.
  split; [ | split ].
  - intros ops e.
    destruct (@run_bounded ops (mkWorld e HistorySlice.initialState)
                bounded_initial) as (w & Hrun & Hb).
    exists w. split; [ exact Hrun | ]. split.
    + destruct Hb as [_ Hlen]. lia.
    + intros now d s. apply pushHistory_past_bounded, Hb.
  - intros now d s h Hb. cbv zeta.
    split; [ apply pushHistory_bounded, Hb | ].
    split; [ reflexivity | ]. split; [ reflexivity | ].
    apply pushHistory_past_bounded, Hb.
  - intros first rest Hmany.
    destruct (@past_full_after_max_pushes first rest Hmany)
      as (w & Hrun & Hfull).
    exists w. split; [ exact Hrun | ]. split; [ exact Hfull | ].
    assert (Hb : bounded (history w)).
    { destruct (@run_bounded (map opOfPush (first :: rest)) initialWorld
                  bounded_initial) as (w' & Hrun' & Hb').
      congruence. }
    assert (Hpresent : HistoryState.present (history w) <> None).
    { cbn [map run step opOfPush Js.bind] in Hrun.
      destruct (@run_pushes_length rest
                  (mkWorld (editor initialWorld)
                     (HistorySlice.pushHistory (arg_now first)
                        (arg_description first) (arg_state first)
                        (history initialWorld))))
        as (w' & Hrun' & Hp' & _).
      - apply pushHistory_bounded, bounded_initial.
      - discriminate.
      - congruence. }
    destruct (HistoryState.present (history w)) as [p | ] eqn:Hp;
      [ | contradiction ].
    exists p. split; [ reflexivity | ]. intros now d s.
    rewrite (@pushHistory_past_bounded now d s (history w) Hb), Hp.
    replace (Z.of_nat (List.length (HistoryState.past (history w))) + 1
             <? HistoryState.maxHistorySize (history w))%Z with false
      by (symmetry; apply Z.ltb_ge; lia).
    destruct Hb as [Hm _]. unfold HistorySlice.MAX_HISTORY_SIZE in Hm.
    destruct (HistoryState.past (history w)) as [ | q ps ];
      [ cbn [List.length] in Hfull; lia | reflexivity ].
Qed.

Lemma history_length_witness :
  exists w,
    run (map opOfPush
           (repeat (mkPush 0 "Added text layer" EditorSlice.initialState) 21))
        initialWorld = Js.Ok w
    /\ (Z.of_nat (List.length (HistoryState.past (history w))) + 1
        = HistoryState.maxHistorySize (history w))%Z
    /\ exists p,
        HistoryState.present (history w) = Some p
        /\ forall now d s,
            HistoryState.past (HistorySlice.pushHistory now d s (history w))
            = tl (HistoryState.past (history w)) ++ [p].
Proof.
  apply (proj2 (proj2 history_length_invariant)
           (mkPush 0 "Added text layer" EditorSlice.initialState)
           (repeat (mkPush 0 "Added text layer" EditorSlice.initialState) 20)).
  rewrite repeat_length. repeat constructor.
Defined.

(** C4.  A push leaves the future empty in every state of the History
    Store, so that no redo is available: [canRedo] is false and [redo]
    changes nothing. *)
Theorem push_clears_future :
  forall (now : Z) (d : string) (s e : CanvasState.t) (h : HistoryState.t),
    let h' := HistorySlice.pushHistory now d s h in
    HistoryState.future h' = []
    /\ HistorySlice.canRedo h' = false
    /\ HistorySlice.redo (mkWorld e h') = Js.Ok (mkWorld e h').
Proof.
  intros now d s e h. cbv zeta. repeat split.
Qed.

(** C5.  [undo] with an empty past or a null present, and [redo] with
    an empty future, return normally and leave both the History Store
    and the Document Store as they were; in every state [undo], [redo]
    and every run of history operations return without throwing. *)
Theorem boundary_noops_and_totality :
  forall w : World,
    (HistoryState.past (history w) = []
     \/ HistoryState.present (history w) = None ->
     HistorySlice.undo w = Js.Ok w)
    /\ (HistoryState.future (history w) = [] -> HistorySlice.redo w = Js.Ok w)
    /\ (exists w', HistorySlice.undo w = Js.Ok w')
    /\ (exists w', HistorySlice.redo w = Js.Ok w')
    /\ (forall ops, exists w', run ops w = Js.Ok w').
Proof.
  assert (Hundo : forall w, exists w', HistorySlice.undo w = Js.Ok w').
  { intros [e [ps pr fs m]]. destruct ps as [ | a ps'].
    - eexists; apply undo_empty_past.
    - destruct pr as [p | ].
      + destruct (@nonempty_snoc _ (a :: ps')) as (init & q & ->);
          [ discriminate | ].
        eexists; apply undo_snoc.
      + eexists; apply undo_null_present. }
  assert (Hredo : forall w, exists w', HistorySlice.redo w = Js.Ok w').
  { intros [e [ps pr fs m]]. destruct fs as [ | f fs'].
    - eexists; apply redo_empty_future.
    - eexists; apply redo_cons. }
  intros w. repeat split.
  - destruct w as [e [ps pr fs m]]. cbn [history HistoryState.past
      HistoryState.present]. intros [-> | ->].
    + apply undo_empty_past.
    + apply undo_null_present.
  - destruct w as [e [ps pr fs m]]. cbn [history HistoryState.future].
    intros ->. apply redo_empty_future.
  - apply Hundo.
  - apply Hredo.
  - intros ops. revert w. induction ops as [ | op ops IH ]; intros w; cbn [run].
    + eauto.
    + assert (Hstep : exists w1, step op w = Js.Ok w1).
      { destruct op; cbn [step]; eauto. }
      destruct Hstep as (w1 & ->). cbn [Js.bind]. apply IH.
Qed.

Lemma boundary_noops_witness :
  HistorySlice.undo initialWorld = Js.Ok initialWorld
  /\ HistorySlice.redo initialWorld = Js.Ok initialWorld.
Proof.
  destruct (boundary_noops_and_totality initialWorld) as (Hu & Hr & _).
  split; [ apply Hu; left; reflexivity | apply Hr; reflexivity ].
Defined.


(** ** Pushes followed by undos *)

Section PushesThenUndos.

Let MAX := HistorySlice.MAX_HISTORY_SIZE.

(** Pushes that fit below the bound pile up in the past. *)
Lemma run_pushes_below_bound (pushes : list PushArgs) :
  forall e ps p,
    (Z.of_nat (List.length ps) + Z.of_nat (List.length pushes) + 1 <= MAX)%Z ->
    run (map opOfPush pushes) (mkWorld e (HistoryState.mk ps (Some p) [] MAX))
    = Js.Ok (mkWorld e
               (HistoryState.mk
                  (removelast (ps ++ p :: map actionOfPush pushes))
                  (Some (last (map actionOfPush pushes) p)) [] MAX)).
Proof.
  subst MAX. unfold HistorySlice.MAX_HISTORY_SIZE.
  induction pushes as [ | a pushes IH ]; intros e ps p Hlen.
  - cbn [map run last]. rewrite removelast_last. reflexivity.
  - cbn [map run step opOfPush history editor Js.bind].
    rewrite pushHistory_present by lia.
    rewrite length_app. cbn [List.length] in *.
    replace (List.length ps + 1 - Z.to_nat (20 - 1))%nat with 0%nat by lia.
    cbn [skipn]. fold (actionOfPush a).
    change (OpPush (arg_now a) (arg_description a) (arg_state a))
      with (opOfPush a).
    rewrite IH by (rewrite length_app; cbn [List.length]; lia).
    rewrite <- app_assoc. cbn [app].
    rewrite (last_cons_default (map actionOfPush pushes) (actionOfPush a) p).
    reflexivity.
Qed.

(** As many undos as the past is long empty it. *)
Lemma run_undos_to_oldest (ps : list HistoryAction.t) :
  forall e q p fs m,
    run (repeat OpUndo (S (List.length ps)))
        (mkWorld e (HistoryState.mk (q :: ps) (Some p) fs m))
    = Js.Ok (mkWorld (HistoryAction.state q)
               (HistoryState.mk [] (Some q) (ps ++ p :: fs) m)).
Proof.
  induction ps as [ | r ps IH ] using rev_ind; intros e q p fs m.
  - cbn [List.length repeat run step Js.bind].
    pose proof (@undo_snoc e [] q p fs m) as Hundo. cbn [app] in Hundo.
    rewrite Hundo. reflexivity.
  - rewrite length_app. cbn [List.length].
    replace (S (List.length ps + 1)) with (S (S (List.length ps))) by lia.
    change (repeat OpUndo (S (S (List.length ps))))
      with (OpUndo :: repeat OpUndo (S (List.length ps))).
    cbn [run step].
    pose proof (@undo_snoc e (q :: ps) r p fs m) as Hundo.
    cbn [app] in Hundo. rewrite Hundo. cbn [Js.bind].
    rewrite IH. rewrite <- app_assoc. reflexivity.
Qed.

End PushesThenUndos.

(** C1, as the code has it.  After [N] pushes from the initial empty
    store, with [1 <= N < maxHistorySize], the last pushed action is the
    present and the [N - 1] earlier ones are the past, so [canUndo()] is
    true exactly when [N >= 2].  [N - 1] calls of [undo] empty the past,
    make the first pushed action the present, with its snapshot in the
    Document Store, and put the later actions in the future; one more
    [undo] changes nothing, and the present is not null again. *)
Theorem pushes_then_undos :
  forall (first : PushArgs) (rest : list PushArgs),
    let pushes := first :: rest in
    (Z.of_nat (List.length pushes) < HistorySlice.MAX_HISTORY_SIZE)%Z ->
    exists w w',
      run (map opOfPush pushes) initialWorld = Js.Ok w
      /\ HistoryState.past (history w) = map actionOfPush (removelast pushes)
      /\ HistoryState.present (history w) = Some (actionOfPush (last rest first))
      /\ HistorySlice.canUndo (history w) = (2 <=? List.length pushes)%nat
      /\ run (repeat OpUndo (List.length pushes - 1)) w = Js.Ok w'
      /\ history w'
         = HistoryState.mk [] (Some (actionOfPush first))
                           (map actionOfPush rest)
                           HistorySlice.MAX_HISTORY_SIZE
      /\ (rest <> [] -> editor w' = Json.deepClone (arg_state first))
      /\ HistorySlice.undo w' = Js.Ok w'.
Proof.
  intros first rest pushes Hlen. subst pushes.
  cbn [List.length] in Hlen.
  assert (Hrun :
    run (map opOfPush (first :: rest)) initialWorld
    = Js.Ok (mkWorld EditorSlice.initialState
               (HistoryState.mk
                  (removelast (actionOfPush first :: map actionOfPush rest))
                  (Some (last (map actionOfPush rest) (actionOfPush first)))
                  [] HistorySlice.MAX_HISTORY_SIZE))).
  { cbn [map run]. unfold initialWorld at 1.
    cbn [step opOfPush history editor Js.bind].
    unfold HistorySlice.initialState. rewrite pushHistory_null.
    fold (actionOfPush first).
    rewrite (@run_pushes_below_bound rest EditorSlice.initialState []
               (actionOfPush first))
      by (cbn [List.length]; lia).
    reflexivity. }
  rewrite Hrun. clear Hrun.
  destruct rest as [ | second rest'].
  - (* one push: nothing to undo *)
    do 2 eexists. split; [ reflexivity | ].
    cbn [map removelast last List.length Nat.sub repeat run history editor
         HistoryState.past HistoryState.present].
    repeat split. intros Hne. destruct Hne. reflexivity.
  - set (rest := second :: rest') in *.
    assert (Hrest : map actionOfPush rest <> []) by discriminate.
    destruct (nonempty_snoc Hrest) as (init & lastAct & Hsnoc).
    assert (Hlast : last (map actionOfPush rest) (actionOfPush first) = lastAct).
    { rewrite Hsnoc. apply last_last. }
    assert (Hpast : removelast (actionOfPush first :: map actionOfPush rest)
                    = actionOfPush first :: init).
    { rewrite Hsnoc.
      change (actionOfPush first :: init ++ [lastAct])
        with ((actionOfPush first :: init) ++ [lastAct]).
      apply removelast_last. }
    assert (Hcount : List.length rest = S (List.length init)).
    { rewrite <- (length_map actionOfPush rest), Hsnoc, length_app.
      cbn [List.length]. lia. }
    do 2 eexists. split; [ reflexivity | ].
    cbn [history editor HistoryState.past HistoryState.present].
    split.
    { rewrite (map_removelast actionOfPush). reflexivity. }
    split.
    { rewrite (map_last actionOfPush). reflexivity. }
    split.
    { unfold HistorySlice.canUndo. rewrite Hpast. reflexivity. }
    split.
    { rewrite Hlast, Hpast. cbn [List.length Nat.sub]. rewrite ?Nat.sub_0_r, Hcount.
      apply run_undos_to_oldest. }
    cbn [history editor]. rewrite <- Hsnoc. repeat split.
Qed.

Lemma pushes_then_undos_witness :
  exists w w',
    run [OpPush 1 "Uploaded background image" EditorSlice.initialState;
         OpPush 2 "Moved text layer"
                (EditorSlice.selectLayer "t" EditorSlice.initialState)]
        initialWorld = Js.Ok w
    /\ HistorySlice.canUndo (history w) = true
    /\ run [OpUndo] w = Js.Ok w'
    /\ HistoryState.present (history w')
       = Some (HistoryAction.mk 1 "Uploaded background image"
                                EditorSlice.initialState)
    /\ HistorySlice.undo w' = Js.Ok w'.
Proof.
  destruct (@pushes_then_undos
              (mkPush 1 "Uploaded background image" EditorSlice.initialState)
              [mkPush 2 "Moved text layer"
                      (EditorSlice.selectLayer "t" EditorSlice.initialState)])
    as (w & w' & Hrun & _ & _ & Hcan & Hundos & Hhist & _ & Hnoop).
  - vm_compute. reflexivity.
  - exists w, w'. split; [ exact Hrun | ]. split; [ exact Hcan | ].
    split; [ exact Hundos | ]. split; [ | exact Hnoop ].
    rewrite Hhist. reflexivity.
Defined.

(** C1 as stated fails on the code: after one push [canUndo()] is
    false, and after two pushes two undos leave the first pushed action
    as the present, not the null present of the initial store. *)
Lemma pushes_then_undos_counterexample :
  (exists w,
      run [OpPush 1 "first" EditorSlice.initialState] initialWorld = Js.Ok w
      /\ HistorySlice.canUndo (history w) = false)
  /\ (exists w,
         run [OpPush 1 "first" EditorSlice.initialState;
              OpPush 2 "second" EditorSlice.initialState;
              OpUndo; OpUndo] initialWorld = Js.Ok w
         /\ HistoryState.present (history w) <> None
         /\ history w <> HistorySlice.initialState).
Proof.
  split; eexists; (split; [ vm_compute; reflexivity | ]).
  - reflexivity.
  - split; discriminate.
Qed.

(** ** What a history snapshot holds *)

Section Snapshots.

Lemma updateTextLayer_selectedLayerIds id patch store :
  CanvasState.selectedLayerIds (EditorSlice.updateTextLayer id patch store)
  = CanvasState.selectedLayerIds store.
Proof. reflexivity. Qed.

Lemma nudgeOne_selectedLayerIds textLayers direction distance store layerId :
  CanvasState.selectedLayerIds
    (Home.nudgeOne textLayers direction distance store layerId)
  = CanvasState.selectedLayerIds store.
Proof.
  unfold Home.nudgeOne.
  destruct (Home.findLayer textLayers layerId) as [layer | ]; [ | reflexivity ].
  destruct (Home.nudged direction distance layer). reflexivity.
Qed.

Lemma nudgeEach_selectedLayerIds ids textLayers direction distance :
  forall store,
    CanvasState.selectedLayerIds
      (Home.nudgeEach ids textLayers direction distance store)
    = CanvasState.selectedLayerIds store.
Proof.
  unfold Home.nudgeEach.
  induction ids as [ | layerId ids IH ]; intros store; cbn [fold_left].
  - reflexivity.
  - rewrite IH. apply nudgeOne_selectedLayerIds.
Qed.

End Snapshots.

(** C2, as the code has it.  The snapshot that [pushHistory] stores is
    the JSON copy of the whole [CanvasState] it is given: the background
    image, the ordered text layers, the canvas dimensions and also
    [selectedLayerIds].  The debounced push of the text controls and the
    push that ends a nudge pass [useEditorStore.getState()], so the
    selection current at the call is in the stored snapshot. *)
Theorem snapshot_holds_selection :
  forall (now : Z) (d : string) (s : CanvasState.t) (h : HistoryState.t),
    (exists a,
        HistoryState.present (HistorySlice.pushHistory now d s h) = Some a
        /\ HistoryAction.state a = Json.deepClone s
        /\ CanvasState.backgroundImage (HistoryAction.state a)
           = option_map Json.cloneBackground (CanvasState.backgroundImage s)
        /\ CanvasState.textLayers (HistoryAction.state a)
           = CanvasState.textLayers s
        /\ CanvasState.canvasDimensions (HistoryAction.state a)
           = CanvasState.canvasDimensions s
        /\ CanvasState.selectedLayerIds (HistoryAction.state a)
           = CanvasState.selectedLayerIds s)
    /\ (forall w,
           option_map (fun a => CanvasState.selectedLayerIds (HistoryAction.state a))
             (HistoryState.present
                (history (TextProperties.debouncedPushHistory now d w)))
           = Some (CanvasState.selectedLayerIds (editor w)))
    /\ (forall w direction distance,
           option_map (fun a => CanvasState.selectedLayerIds (HistoryAction.state a))
             (HistoryState.present
                (history (Home.nudgeFromRender direction distance now w)))
           = Some (CanvasState.selectedLayerIds (editor w))).
Proof.
  intros now d s h. split; [ | split ].
  - eexists. split; [ reflexivity | ]. repeat split.
  - intros w. reflexivity.
  - intros w direction distance.
    unfold Home.nudgeFromRender, Home.nudgeSelectedLayers.
    cbn [history HistorySlice.pushHistory HistoryState.present option_map
         HistoryAction.state Json.deepClone CanvasState.selectedLayerIds].
    rewrite nudgeEach_selectedLayerIds. reflexivity.
Qed.

(** C2 as stated fails on the code: a nudge made while layer ["a"] is
    selected stores a snapshot whose [selectedLayerIds] is [["a"]], and
    two states that differ in the selection alone are stored as
    different snapshots. *)
Lemma snapshot_selection_counterexample :
  let e := EditorSlice.selectLayer "a" EditorSlice.initialState in
  option_map (fun a => CanvasState.selectedLayerIds (HistoryAction.state a))
    (HistoryState.present
       (history (Home.nudgeFromRender "ArrowUp" 1 7
                   (mkWorld e HistorySlice.initialState))))
  = Some ["a"]
  /\ CanvasState.backgroundImage e
     = CanvasState.backgroundImage EditorSlice.initialState
  /\ CanvasState.textLayers e
     = CanvasState.textLayers EditorSlice.initialState
  /\ CanvasState.canvasDimensions e
     = CanvasState.canvasDimensions EditorSlice.initialState
  /\ HistoryState.present
       (HistorySlice.pushHistory 7 "Updated color" e HistorySlice.initialState)
     <> HistoryState.present
          (HistorySlice.pushHistory 7 "Updated color" EditorSlice.initialState
                                    HistorySlice.initialState).
Proof.
  cbv zeta. repeat split. vm_compute. discriminate.
Qed.

(** ** Export *)

Section ExportFacts.

Import ExportPng.

Lemma exportTry_missing canvas backgroundImage :
  canvas = None \/ backgroundImage = None ->
  exists message,
    exportTry canvas backgroundImage = ([], Js.Throw (Js.Error message)).
Proof.
  intros [-> | ->].
  - eexists; reflexivity.
  - destruct canvas; eexists; reflexivity.
Qed.

End ExportFacts.

(** C8.  When the canvas or the background image is missing,
    [handleExport] checks it first and only shows the error
    notification: [toDataURL] is not called and no download is
    triggered; [exportToPng] itself, called so, calls nothing of the
    canvas and rejects with the message of the precondition. *)
Theorem export_precondition_reported :
  forall (canvas : option ExportPng.FabricCanvas)
         (backgroundImage : option BackgroundImage.t) (now : Z),
    canvas = None \/ backgroundImage = None ->
    (exists title message,
        ExportPng.handleExport canvas backgroundImage now
        = [ExportPng.ShowError title message])
    /\ existsb ExportPng.isCallToDataURL
         (ExportPng.handleExport canvas backgroundImage now) = false
    /\ existsb ExportPng.isDownload
         (ExportPng.handleExport canvas backgroundImage now) = false
    /\ (exists message,
           ExportPng.exportToPng canvas backgroundImage
           = ([ExportPng.ConsoleError "Export failed:" (Js.Error message)],
              ExportPng.Rejected message)).
Proof.
  intros canvas backgroundImage now Hmissing.
  assert (Hhandle :
    ExportPng.handleExport canvas backgroundImage now
    = [ExportPng.ShowError "Cannot export"
         "Please upload a background image and add some text layers before exporting."]).
  { destruct Hmissing as [-> | ->]; [ reflexivity | ].
    destruct canvas; reflexivity. }
  rewrite Hhandle. split; [ eauto | ]. split; [ reflexivity | ].
  split; [ reflexivity | ].
  destruct (@exportTry_missing canvas backgroundImage Hmissing) as (message & Htry).
  exists message. unfold ExportPng.exportToPng. rewrite Htry. reflexivity.
Qed.

Lemma export_precondition_witness :
  existsb ExportPng.isDownload
    (ExportPng.handleExport None
       (Some (BackgroundImage.mk "blob:bg" (Some (FileObject "bg.png"))
                                 (ImageDimensions.mk 400 300 (4 # 3))))
       1700000000000)
  = false.
Proof.
  apply (@export_precondition_reported None
           (Some (BackgroundImage.mk "blob:bg" (Some (FileObject "bg.png"))
                                     (ImageDimensions.mk 400 300 (4 # 3))))
           1700000000000).
  left. reflexivity.
Defined.

Section Numbers.

Implicit Types (x y a b : Js.number).


Lemma max_cases a b : Js.max a b = a \/ Js.max a b = b.
Proof. unfold Js.max. destruct (Qle_bool a b); auto. Qed.

Lemma max_same a b : (a == b)%Q -> (Js.max a b == a)%Q /\ (Js.max a b == b)%Q.
Proof.
  intros E. destruct (max_cases a b) as [-> | ->]; split;
    try reflexivity; try exact E; symmetry; exact E.
Qed.

Lemma mult_div_cancel a b : (0 < b)%Q -> (b * (a / b) == a)%Q.
Proof.
  intros Hb. apply Qmult_div_r. intros E. rewrite E in Hb.
  exact (Qlt_irrefl _ Hb).
Qed.

End Numbers.

Section ExportSize.

Import ExportPng.

Variables (canvas : FabricCanvas) (backgroundImage : BackgroundImage.t).

Let imgWidth :=
  ImageDimensions.width (BackgroundImage.dimensions backgroundImage).
Let imgHeight :=
  ImageDimensions.height (BackgroundImage.dimensions backgroundImage).
Let canvasWidth := getWidth canvas.
Let canvasHeight := getHeight canvas.

Hypothesis imgWidth_pos : (0 < imgWidth)%Q.
Hypothesis imgHeight_pos : (0 < imgHeight)%Q.
Hypothesis canvasWidth_pos : (0 < canvasWidth)%Q.
Hypothesis canvasHeight_pos : (0 < canvasHeight)%Q.

Lemma export_matches_same_ratio :
  (imgWidth * canvasHeight == imgHeight * canvasWidth)%Q ->
  (exportWidth canvas backgroundImage == imgWidth)%Q
  /\ (exportHeight canvas backgroundImage == imgHeight)%Q.
Proof.
  intros Hratio.
  assert (Hcw : ~ (canvasWidth == 0)%Q).
  { intros E. rewrite E in canvasWidth_pos. exact (Qlt_irrefl _ canvasWidth_pos). }
  assert (Hch : ~ (canvasHeight == 0)%Q).
  { intros E. rewrite E in canvasHeight_pos. exact (Qlt_irrefl _ canvasHeight_pos). }
  assert (Hdiv : (imgWidth / canvasWidth == imgHeight / canvasHeight)%Q).
  { apply Qmult_inj_r with canvasWidth; [ exact Hcw | ].
    apply Qmult_inj_r with canvasHeight; [ exact Hch | ].
    transitivity (imgWidth * canvasHeight)%Q; [ field; exact Hcw | ].
    rewrite Hratio. field. exact Hch. }
  destruct (max_same Hdiv) as [Hl Hr].
  unfold exportWidth, exportHeight, computeMultiplier.
  fold imgWidth imgHeight canvasWidth canvasHeight. split.
  - rewrite Hl. apply mult_div_cancel, canvasWidth_pos.
  - rewrite Hr. apply mult_div_cancel, canvasHeight_pos.
Qed.

End ExportSize.



(** ** Layers and their ids *)

Unset Implicit Arguments.

Section Layers.

Implicit Types (layer l : TextLayerProperties.t)
         (layers : list TextLayerProperties.t) (ids : list string).

Lemma includes_single x id : Home.includes [x] id = String.eqb id x.
Proof. unfold Home.includes. cbn [existsb]. apply orb_false_r. Qed.

Lemma uniqueIds_inj layers l1 l2 :
  uniqueIds layers -> In l1 layers -> In l2 layers ->
  TextLayerProperties.id l1 = TextLayerProperties.id l2 -> l1 = l2.
Proof.
  unfold uniqueIds. induction layers as [ | a layers IH ]; [ contradiction | ].
  cbn [map]. intros Hnd [-> | Hin1] [-> | Hin2] Hid.
  - reflexivity.
  - apply NoDup_cons_iff in Hnd as [Hnotin _]. exfalso. apply Hnotin.
    rewrite Hid. apply in_map, Hin2.
  - apply NoDup_cons_iff in Hnd as [Hnotin _]. exfalso. apply Hnotin.
    rewrite <- Hid. apply in_map, Hin1.
  - apply NoDup_cons_iff in Hnd as [_ Hnd]. now apply IH.
Qed.

Lemma findLayer_some layers id layer :
  Home.findLayer layers id = Some layer ->
  In layer layers /\ TextLayerProperties.id layer = id.
Proof.
  intros Hfind. apply find_some in Hfind as [Hin Heq].
  split; [ exact Hin | apply String.eqb_eq, Heq ].
Qed.

Lemma findLayer_none layers id layer :
  Home.findLayer layers id = None -> In layer layers ->
  String.eqb (TextLayerProperties.id layer) id = false.
Proof. intros Hfind Hin. exact (find_none _ _ Hfind _ Hin). Qed.

Lemma findLayer_in layers layer :
  uniqueIds layers -> In layer layers ->
  Home.findLayer layers (TextLayerProperties.id layer) = Some layer.
Proof.
  intros Huniq Hin.
  destruct (Home.findLayer layers (TextLayerProperties.id layer))
    as [found | ] eqn:Hfind.
  - apply findLayer_some in Hfind as [Hin' Hid].
    f_equal. exact (uniqueIds_inj _ _ _ Huniq Hin' Hin Hid).
  - pose proof (findLayer_none _ _ _ Hfind Hin) as Hne.
    rewrite String.eqb_refl in Hne. discriminate.
Qed.

(** A map that keeps ids commutes with the search by id. *)
Lemma findLayer_map (g : TextLayerProperties.t -> TextLayerProperties.t)
      layers id :
  (forall l, TextLayerProperties.id (g l) = TextLayerProperties.id l) ->
  Home.findLayer (map g layers) id = option_map g (Home.findLayer layers id).
Proof.
  intros Hid. unfold Home.findLayer.
  induction layers as [ | a layers IH ]; [ reflexivity | ].
  cbn [map find]. rewrite Hid.
  destruct (String.eqb (TextLayerProperties.id a) id); [ reflexivity | exact IH ].
Qed.

Lemma Forall2_map_right {A B} (P : A -> B -> Prop) (f : A -> B) (xs : list A) :
  (forall x, In x xs -> P x (f x)) -> Forall2 P xs (map f xs).
Proof.
  induction xs as [ | x xs IH ]; intros HP; cbn [map]; constructor.
  - apply HP. left. reflexivity.
  - apply IH. intros y Hy. apply HP. right. exact Hy.
Qed.

End Layers.

(** ** One nudged layer *)

Section NudgeOneLayer.

Variables (direction : string) (distance : Js.number)
          (layer : TextLayerProperties.t).


End NudgeOneLayer.

(** ** Smart spacing *)

Section SmartSpacing.

Lemma permutation_of_three {A} (a b c : A) (l : list A) :
  Permutation l [a; b; c] ->
  l = [a; b; c] \/ l = [a; c; b] \/ l = [b; a; c]
  \/ l = [b; c; a] \/ l = [c; a; b] \/ l = [c; b; a].
Proof.
  intros Hperm.
  destruct (Permutation_vs_cons_inv Hperm) as (l1 & l2 & ->).
  apply Permutation_sym, Permutation_cons_app_inv,
    Permutation_length_2_inv in Hperm.
  destruct l1 as [ | x [ | y [ | z l1 ] ] ]; cbn [app] in *;
    destruct Hperm as [Heq | Heq]; inversion Heq; subst; auto 7.
Qed.

Lemma updateTextLayer_layers id patch store :
  CanvasState.textLayers (EditorSlice.updateTextLayer id patch store)
  = map (fun layer =>
           if String.eqb (TextLayerProperties.id layer) id
           then EditorSlice.spread layer patch
           else layer)
        (CanvasState.textLayers store).
Proof. reflexivity. Qed.

Lemma findLayer_update id patch store other :
  Home.findLayer
    (CanvasState.textLayers (EditorSlice.updateTextLayer id patch store))
    other
  = option_map
      (fun layer =>
         if String.eqb (TextLayerProperties.id layer) id
         then EditorSlice.spread layer patch
         else layer)
      (Home.findLayer (CanvasState.textLayers store) other).
Proof.
  rewrite updateTextLayer_layers. apply findLayer_map.
  intros l. destruct (String.eqb (TextLayerProperties.id l) id); reflexivity.
Qed.

(** Writing [left] of layer [id] sets it. *)
Lemma leftOfLayer_update_same id newLeft store x :
  leftOfLayer store id = Some x ->
  leftOfLayer
    (EditorSlice.updateTextLayer id (EditorSlice.mkPatch (Some newLeft) None)
                                 store) id
  = Some newLeft.
Proof.
  unfold leftOfLayer. rewrite findLayer_update.
  destruct (Home.findLayer (CanvasState.textLayers store) id)
    as [layer | ] eqn:Hfind; [ | discriminate ].
  intros _. apply findLayer_some in Hfind as [_ Hid].
  cbn [option_map]. rewrite Hid, String.eqb_refl. reflexivity.
Qed.

(** Writing layer [id] leaves [left] of the other layers. *)
Lemma leftOfLayer_update_other id patch store other :
  other <> id ->
  leftOfLayer (EditorSlice.updateTextLayer id patch store) other
  = leftOfLayer store other.
Proof.
  intros Hne. unfold leftOfLayer. rewrite findLayer_update.
  destruct (Home.findLayer (CanvasState.textLayers store) other)
    as [layer | ] eqn:Hfind; [ | reflexivity ].
  apply findLayer_some in Hfind as [_ Hid]. cbn [option_map].
  apply String.eqb_neq in Hne. rewrite Hid, Hne. reflexivity.
Qed.

Variables la lb lc : TextLayerProperties.t.

Hypothesis left_la : TextLayerProperties.left la = 10%Q.
Hypothesis left_lb : TextLayerProperties.left lb = 50%Q.
Hypothesis left_lc : TextLayerProperties.left lc = 200%Q.

Ltac sort_step :=
  cbn [fold_right Home.insertByLeft];
  rewrite ?left_la, ?left_lb, ?left_lc;
  repeat match goal with
    | |- context [ Js.leb ?x ?y ] =>
        let v := eval vm_compute in (Js.leb x y) in
        change (Js.leb x y) with v
    end;
  cbv iota.

(** However the three layers are ordered in the document, sorting
    them by [left] gives [la], [lb], [lc]. *)
Lemma sortByLeft_three (selectedLayers : list TextLayerProperties.t) :
  Permutation selectedLayers [la; lb; lc] ->
  Home.sortByLeft selectedLayers = [la; lb; lc].
Proof.
  intros Hperm. unfold Home.sortByLeft.
  destruct (permutation_of_three _ _ _ _ Hperm)
    as [-> | [-> | [-> | [-> | [-> | ->]]]]];
    do 4 sort_step; reflexivity.
Qed.

Lemma applySmartSpacing_three selectedLayerIds textLayers store :
  (Z.of_nat (List.length selectedLayerIds) <? 2)%Z = false ->
  Permutation
    (filter (fun layer => Home.includes selectedLayerIds
                                        (TextLayerProperties.id layer))
            textLayers)
    [la; lb; lc] ->
  Home.applySmartSpacing selectedLayerIds textLayers store
  = let spacing := (Js.max 100 (200 - 10) / (Js.ofNat 3 - 1))%Q in
    EditorSlice.updateTextLayer (TextLayerProperties.id lc)
      (EditorSlice.mkPatch (Some (10 + spacing * Js.ofNat 2)%Q) None)
      (EditorSlice.updateTextLayer (TextLayerProperties.id lb)
         (EditorSlice.mkPatch (Some (10 + spacing * Js.ofNat 1)%Q) None)
         (EditorSlice.updateTextLayer (TextLayerProperties.id la)
            (EditorSlice.mkPatch (Some (10 + spacing * Js.ofNat 0)%Q) None)
            store)).
Proof.
  intros Hguard Hperm. unfold Home.applySmartSpacing.
  rewrite Hguard, (sortByLeft_three _ Hperm).
  change (Z.of_nat (List.length [la; lb; lc]) <? 2)%Z with false.
  change (Js.index [la; lb; lc] 0) with (Some la).
  change (Js.index [la; lb; lc] (Z.of_nat (List.length [la; lb; lc]) - 1))
    with (Some lc).
  cbv iota beta zeta. cbn [Home.spaceEach List.length].
  rewrite left_la, left_lc. reflexivity.
Qed.

End SmartSpacing.

(** C9.  When exactly three layers are selected and their [left]
    positions are 10, 50 and 200, in whatever order they lie in the
    document, smart spacing moves them to 10, 105 and 200: an arithmetic
    progression that starts at 10, the [left] of the leftmost layer,
    which stays where it was, and spans [max(100, 190)] in two equal
    steps. *)
Theorem smart_spacing_three_layers :
  forall (e : CanvasState.t) (la lb lc : TextLayerProperties.t),
    uniqueIds (CanvasState.textLayers e) ->
    Permutation
      (filter (fun layer => Home.includes (CanvasState.selectedLayerIds e)
                                          (TextLayerProperties.id layer))
              (CanvasState.textLayers e))
      [la; lb; lc] ->
    TextLayerProperties.left la = 10%Q ->
    TextLayerProperties.left lb = 50%Q ->
    TextLayerProperties.left lc = 200%Q ->
    let e' :=
      Home.applySmartSpacing (CanvasState.selectedLayerIds e)
                             (CanvasState.textLayers e) e in
    exists xa xb xc,
      leftOfLayer e' (TextLayerProperties.id la) = Some xa
      /\ leftOfLayer e' (TextLayerProperties.id lb) = Some xb
      /\ leftOfLayer e' (TextLayerProperties.id lc) = Some xc
      /\ (xa == 10)%Q /\ (xb == 105)%Q /\ (xc == 200)%Q
      /\ (xa == TextLayerProperties.left la)%Q
      /\ (xb - xa == xc - xb)%Q
      /\ (xc - xa == Js.max 100 190)%Q.
Proof.
  intros e la lb lc Hunique Hperm Hla Hlb Hlc e'.
  set (selected := fun layer =>
         Home.includes (CanvasState.selectedLayerIds e)
                       (TextLayerProperties.id layer)) in *.
  (* the three layers are in the document and selected *)
  assert (Hin : forall l, In l [la; lb; lc] ->
                  In l (CanvasState.textLayers e) /\ selected l = true).
  { intros l Hl. apply filter_In.
    exact (Permutation_in _ (Permutation_sym Hperm) Hl). }
  destruct (Hin la) as [Ha Hsela]; [ cbn; auto | ].
  destruct (Hin lb) as [Hb Hselb]; [ cbn; auto | ].
  destruct (Hin lc) as [Hc Hselc]; [ cbn; auto | ].
  (* their ids differ *)
  assert (Hab : TextLayerProperties.id la <> TextLayerProperties.id lb).
  { intros E. apply (uniqueIds_inj _ _ _ Hunique Ha Hb) in E.
    rewrite E, Hlb in Hla. discriminate. }
  assert (Hac : TextLayerProperties.id la <> TextLayerProperties.id lc).
  { intros E. apply (uniqueIds_inj _ _ _ Hunique Ha Hc) in E.
    rewrite E, Hlc in Hla. discriminate. }
  assert (Hbc : TextLayerProperties.id lb <> TextLayerProperties.id lc).
  { intros E. apply (uniqueIds_inj _ _ _ Hunique Hb Hc) in E.
    rewrite E, Hlc in Hlb. discriminate. }
  (* so at least two ids are selected *)
  assert (Hguard :
    (Z.of_nat (List.length (CanvasState.selectedLayerIds e)) <? 2)%Z = false).
  { subst selected. cbv beta in Hsela, Hselb.
    destruct (CanvasState.selectedLayerIds e) as [ | x [ | y ids ] ].
    - discriminate Hsela.
    - rewrite includes_single in Hsela, Hselb.
      apply String.eqb_eq in Hsela, Hselb. congruence.
    - apply Z.ltb_ge. cbn [List.length]. lia. }
  subst e'.
  rewrite (applySmartSpacing_three la lb lc Hla Hlb Hlc _ _ e Hguard Hperm).
  cbv zeta.
  assert (Hfa : leftOfLayer e (TextLayerProperties.id la) = Some 10%Q).
  { unfold leftOfLayer. rewrite (findLayer_in _ _ Hunique Ha).
    cbn [option_map]. now rewrite Hla. }
  assert (Hfb : leftOfLayer e (TextLayerProperties.id lb) = Some 50%Q).
  { unfold leftOfLayer. rewrite (findLayer_in _ _ Hunique Hb).
    cbn [option_map]. now rewrite Hlb. }
  assert (Hfc : leftOfLayer e (TextLayerProperties.id lc) = Some 200%Q).
  { unfold leftOfLayer. rewrite (findLayer_in _ _ Hunique Hc).
    cbn [option_map]. now rewrite Hlc. }
  do 3 eexists.
  split.
  { rewrite leftOfLayer_update_other by exact Hac.
    rewrite leftOfLayer_update_other by exact Hab.
    apply (leftOfLayer_update_same _ _ _ _ Hfa). }
  split.
  { rewrite leftOfLayer_update_other by exact Hbc.
    apply leftOfLayer_update_same with 50%Q.
    rewrite leftOfLayer_update_other by (intros E; apply Hab; symmetry; exact E).
    exact Hfb. }
  split.
  { apply leftOfLayer_update_same with 200%Q.
    rewrite leftOfLayer_update_other by (intros E; apply Hbc; symmetry; exact E).
    rewrite leftOfLayer_update_other by (intros E; apply Hac; symmetry; exact E).
    exact Hfc. }
  rewrite Hla. repeat split; vm_compute; reflexivity.
Qed.

Lemma smart_spacing_witness :
  let e :=
    EditorSlice.selectMultipleLayers ["c"; "a"; "b"]
      (EditorSlice.addTextLayer "c" (EditorSlice.mkPatch (Some 10) None)
         (EditorSlice.addTextLayer "b" (EditorSlice.mkPatch (Some 50) None)
            (EditorSlice.addTextLayer "a" (EditorSlice.mkPatch (Some 200) None)
               EditorSlice.initialState))) in
  let e' :=
    Home.applySmartSpacing (CanvasState.selectedLayerIds e)
                           (CanvasState.textLayers e) e in
  exists xa xb xc,
    leftOfLayer e' "c" = Some xa
    /\ leftOfLayer e' "b" = Some xb
    /\ leftOfLayer e' "a" = Some xc
    /\ (xa == 10)%Q /\ (xb == 105)%Q /\ (xc == 200)%Q
    /\ (xa == 10)%Q
    /\ (xb - xa == xc - xb)%Q
    /\ (xc - xa == Js.max 100 190)%Q.
Proof.
  cbv zeta.
  apply (smart_spacing_three_layers
           (EditorSlice.selectMultipleLayers ["c"; "a"; "b"]
              (EditorSlice.addTextLayer "c" (EditorSlice.mkPatch (Some 10) None)
                 (EditorSlice.addTextLayer "b"
                    (EditorSlice.mkPatch (Some 50) None)
                    (EditorSlice.addTextLayer "a"
                       (EditorSlice.mkPatch (Some 200) None)
                       EditorSlice.initialState))))
           (EditorSlice.spread (EditorSlice.newTextLayer "c")
                               (EditorSlice.mkPatch (Some 10) None))
           (EditorSlice.spread (EditorSlice.newTextLayer "b")
                               (EditorSlice.mkPatch (Some 50) None))
           (EditorSlice.spread (EditorSlice.newTextLayer "a")
                               (EditorSlice.mkPatch (Some 200) None))).
  - vm_compute. repeat constructor; cbn [In]; intuition discriminate.
  - vm_compute. apply Permutation_rev with (l := [_; _; _]).
  - reflexivity.
  - reflexivity.
  - reflexivity.
Defined.

(* ================================================================== *)
(** * Further properties of the History Store *)

Section HistoryComposition.

Lemma run_concat ops1 : forall ops2 w,
  run (ops1 ++ ops2) w = (w' <- run ops1 w ;; run ops2 w').
Proof.
  induction ops1 as [ | op ops1 IH ]; intros ops2 w; cbn [run app Js.bind].
  - reflexivity.
  - destruct (step op w) as [w1 | err]; cbn [Js.bind]; [ apply IH | reflexivity ].
Qed.

Lemma callTimes_undo_run count : forall w,
  HistoryPanel.callTimes count HistorySlice.undo w
  = run (repeat OpUndo count) w.
Proof.
  induction count as [ | n IH ]; intros w; [ reflexivity | ].
  cbn [HistoryPanel.callTimes repeat run step].
  destruct (HistorySlice.undo w) as [w1 | err]; cbn [Js.bind];
    [ apply IH | reflexivity ].
Qed.

Lemma callTimes_redo_run count : forall w,
  HistoryPanel.callTimes count HistorySlice.redo w
  = run (repeat OpRedo count) w.
Proof.
  induction count as [ | n IH ]; intros w; [ reflexivity | ].
  cbn [HistoryPanel.callTimes repeat run step].
  destruct (HistorySlice.redo w) as [w1 | err]; cbn [Js.bind];
    [ apply IH | reflexivity ].
Qed.

(** One more undo than [ps2] is long goes back to the action before
    [ps2]. *)
Lemma run_undos_back_to (ps2 : list HistoryAction.t) :
  forall e ps1 q p fs m,
    run (repeat OpUndo (S (List.length ps2)))
        (mkWorld e (HistoryState.mk (ps1 ++ q :: ps2) (Some p) fs m))
    = Js.Ok (mkWorld (HistoryAction.state q)
               (HistoryState.mk ps1 (Some q) (ps2 ++ p :: fs) m)).
Proof.
  induction ps2 as [ | r ps2 IH ] using rev_ind; intros e ps1 q p fs m.
  - cbn [List.length repeat run step Js.bind].
    rewrite (@undo_snoc e ps1 q p fs m). reflexivity.
  - rewrite length_app. cbn [List.length].
    replace (S (List.length ps2 + 1)) with (S (S (List.length ps2))) by lia.
    change (repeat OpUndo (S (S (List.length ps2))))
      with (OpUndo :: repeat OpUndo (S (List.length ps2))).
    cbn [run step].
    replace (ps1 ++ q :: ps2 ++ [r]) with ((ps1 ++ q :: ps2) ++ [r])
      by (rewrite <- app_assoc; reflexivity).
    rewrite (@undo_snoc e (ps1 ++ q :: ps2) r p fs m). cbn [Js.bind].
    rewrite IH. rewrite <- app_assoc. reflexivity.
Qed.

(** One more redo than [fs1] is long goes forward to the action after
    [fs1]. *)
Lemma run_redos_forward_to (fs1 : list HistoryAction.t) :
  forall e ps p f fs2 m,
    run (repeat OpRedo (S (List.length fs1)))
        (mkWorld e (HistoryState.mk ps (Some p) (fs1 ++ f :: fs2) m))
    = Js.Ok (mkWorld (HistoryAction.state f)
               (HistoryState.mk (ps ++ p :: fs1) (Some f) fs2 m)).
Proof.
  induction fs1 as [ | g fs1 IH ]; intros e ps p f fs2 m.
  - cbn [List.length repeat run step Js.bind app].
    rewrite redo_cons. reflexivity.
  - cbn [List.length app].
    change (repeat OpRedo (S (S (List.length fs1))))
      with (OpRedo :: repeat OpRedo (S (List.length fs1))).
    cbn [run step]. rewrite redo_cons. cbn [Js.bind].
    rewrite IH. rewrite <- app_assoc. reflexivity.
Qed.

Lemma split_at_index {A} (arr : list A) (index : nat) (x : A) :
  nth_error arr index = Some x ->
  arr = firstn index arr ++ x :: skipn (S index) arr
  /\ List.length (firstn index arr) = index
  /\ List.length (skipn (S index) arr) = (List.length arr - S index)%nat.
Proof.
  revert index. induction arr as [ | a arr IH ]; intros [ | index ] Hnth;
    try discriminate.
  - injection Hnth as ->. cbn. repeat split. lia.
  - destruct (IH index Hnth) as (Heq & Hlen1 & Hlen2).
    cbn [firstn skipn app List.length] in *. repeat split.
    + f_equal. exact Heq.
    + now rewrite Hlen1.
    + exact Hlen2.
Qed.

End HistoryComposition.

Section KeepLast.

Context {A : Type}.

Lemma keepLast_length (n : nat) (arr : list A) :
  List.length (keepLast n arr) = Nat.min n (List.length arr).
Proof. unfold keepLast. rewrite length_skipn. lia. Qed.

Lemma keepLast_all (n : nat) (arr : list A) :
  (List.length arr <= n)%nat -> keepLast n arr = arr.
Proof.
  intros Hle. unfold keepLast.
  replace (List.length arr - n)%nat with 0%nat by lia. reflexivity.
Qed.

(** Of an array with one more element, the last [S n] are the last
    [n] of the array and the new element. *)
Lemma keepLast_snoc (n : nat) (arr : list A) (x : A) :
  keepLast (S n) (arr ++ [x]) = keepLast n arr ++ [x].
Proof.
  unfold keepLast. rewrite length_app. cbn [List.length].
  rewrite skipn_app.
  replace (List.length arr + 1 - S n)%nat with (List.length arr - n)%nat by lia.
  replace (List.length arr - n - List.length arr)%nat with 0%nat by lia.
  reflexivity.
Qed.

Lemma keepLast_keepLast (n : nat) (arr : list A) :
  keepLast n (keepLast n arr) = keepLast n arr.
Proof. apply keepLast_all. rewrite keepLast_length. lia. Qed.

Lemma keepLast_snoc_keepLast (n : nat) (arr : list A) (x : A) :
  keepLast (S n) (keepLast (S n) arr ++ [x]) = keepLast (S n) (arr ++ [x]).
Proof.
  rewrite !keepLast_snoc. f_equal.
  unfold keepLast. rewrite length_skipn, skipn_skipn. f_equal. lia.
Qed.

End KeepLast.

Section PushThenUndo.

(** What a push makes of a past with a present: its last
    [maxHistorySize - 2] entries and the old present. *)
Lemma pushHistory_past_keepLast now d s ps p fs m :
  (2 <= m)%Z ->
  HistoryState.past
    (HistorySlice.pushHistory now d s (HistoryState.mk ps (Some p) fs m))
  = keepLast (Z.to_nat (m - 2)) ps ++ [p].
Proof.
  intros Hm. rewrite pushHistory_present by exact Hm.
  cbn [HistoryState.past].
  replace (Z.to_nat (m - 1)) with (S (Z.to_nat (m - 2))) by lia.
  apply (keepLast_snoc (Z.to_nat (m - 2)) ps p).
Qed.

End PushThenUndo.

(** X1.  A push can be undone: on a store whose present is [p] (and
    whose bound is at least 2), pushing a snapshot and calling [undo]
    once puts [p] back as the present and its snapshot into the Document
    Store, leaves the pushed action as the only future entry, and gives
    back the old past, up to the oldest entry that the push evicted when
    the past was full; [redo] then brings the pushed snapshot back. *)
Theorem push_then_undo_restores_present :
  forall (w : World) (p : HistoryAction.t) (now : Z) (d : string)
         (s e' : CanvasState.t),
    HistoryState.present (history w) = Some p ->
    (2 <= HistoryState.maxHistorySize (history w))%Z ->
    let pushed :=
      HistorySlice.pushHistory now d s (history w) in
    let action := HistoryAction.mk now d (Json.deepClone s) in
    exists w1,
      HistorySlice.undo (mkWorld e' pushed) = Js.Ok w1
      /\ editor w1 = HistoryAction.state p
      /\ HistoryState.present (history w1) = Some p
      /\ HistoryState.future (history w1) = [action]
      /\ HistoryState.past (history w1)
         = keepLast (Z.to_nat (HistoryState.maxHistorySize (history w) - 2))
                    (HistoryState.past (history w))
      /\ ((Z.of_nat (List.length (HistoryState.past (history w))) + 2
           <= HistoryState.maxHistorySize (history w))%Z ->
          HistoryState.past (history w1) = HistoryState.past (history w))
      /\ HistorySlice.redo w1
         = Js.Ok (mkWorld (Json.deepClone s) pushed).
Proof.
  intros [e [ps pr fs m]] p now d s e'.
  cbn [history HistoryState.present HistoryState.maxHistorySize
       HistoryState.past].
  intros -> Hm. cbv zeta.
  set (action := HistoryAction.mk now d (Json.deepClone s)).
  assert (Hpushed :
    HistorySlice.pushHistory now d s (HistoryState.mk ps (Some p) fs m)
    = HistoryState.mk (keepLast (Z.to_nat (m - 2)) ps ++ [p])
                      (Some action) [] m).
  { pose proof (pushHistory_past_keepLast now d s ps p fs m Hm) as Hpast.
    unfold HistorySlice.pushHistory in *.
    cbn [HistoryState.past HistoryState.present HistoryState.maxHistorySize]
      in *.
    rewrite Hpast. reflexivity. }
  rewrite Hpushed. rewrite undo_snoc. eexists. split; [ reflexivity | ].
  cbn [editor history HistoryState.present HistoryState.future
       HistoryState.past].
  repeat split.
  intros Hroom. apply keepLast_all. lia.
Qed.

Lemma push_then_undo_witness :
  let p := HistoryAction.mk 1 "Added text layer"
             (EditorSlice.addTextLayer "a" (EditorSlice.mkPatch None None)
                                       EditorSlice.initialState) in
  let moved :=
    EditorSlice.updateTextLayer "a" (EditorSlice.mkPatch (Some 150) (Some 120))
      (HistoryAction.state p) in
  exists w1,
    HistorySlice.undo
      (mkWorld moved
         (HistorySlice.pushHistory 2 "Moved text layer" moved
            (HistoryState.mk [] (Some p) [] HistorySlice.MAX_HISTORY_SIZE)))
    = Js.Ok w1
    /\ editor w1 = HistoryAction.state p.
Proof.
  cbv zeta.
  destruct (push_then_undo_restores_present
              (mkWorld EditorSlice.initialState
                 (HistoryState.mk []
                    (Some (HistoryAction.mk 1 "Added text layer"
                             (EditorSlice.addTextLayer "a"
                                (EditorSlice.mkPatch None None)
                                EditorSlice.initialState)))
                    [] HistorySlice.MAX_HISTORY_SIZE))
              (HistoryAction.mk 1 "Added text layer"
                 (EditorSlice.addTextLayer "a" (EditorSlice.mkPatch None None)
                                           EditorSlice.initialState))
              2 "Moved text layer"
              (EditorSlice.updateTextLayer "a"
                 (EditorSlice.mkPatch (Some 150) (Some 120))
                 (EditorSlice.addTextLayer "a" (EditorSlice.mkPatch None None)
                                           EditorSlice.initialState))
              (EditorSlice.updateTextLayer "a"
                 (EditorSlice.mkPatch (Some 150) (Some 120))
                 (EditorSlice.addTextLayer "a" (EditorSlice.mkPatch None None)
                                           EditorSlice.initialState))
              eq_refl)
    as (w1 & Hundo & Heditor & _).
  - vm_compute. discriminate.
  - exists w1. split; [ exact Hundo | exact Heditor ].
Defined.

(** X2.  With a non-null present, [k] undos followed by [k] redos,
    for any [k] that the past is long enough for, give back the same
    past, present, future and bound; if [k] is not zero the Document
    Store then holds the snapshot of the present action. *)
Theorem undos_then_redos_roundtrip :
  forall (w : World) (p : HistoryAction.t) (k : nat),
    HistoryState.present (history w) = Some p ->
    (k <= List.length (HistoryState.past (history w)))%nat ->
    exists w',
      run (repeat OpUndo k ++ repeat OpRedo k) w = Js.Ok w'
      /\ history w' = history w
      /\ editor w' = match k with
                     | O => editor w
                     | S _ => HistoryAction.state p
                     end.
Proof.
  intros [e [ps pr fs m]] p k.
  cbn [history editor HistoryState.present HistoryState.past].
  intros -> Hk. destruct k as [ | k ].
  - exists (mkWorld e (HistoryState.mk ps (Some p) fs m)). repeat split.
  - set (index := (List.length ps - S k)%nat).
    destruct (nth_error ps index) as [q | ] eqn:Hnth.
    + destruct (split_at_index ps index q Hnth) as (Hsplit & Hlen1 & Hlen2).
      set (ps1 := firstn index ps) in *. set (ps2 := skipn (S index) ps) in *.
      assert (Hk2 : k = List.length ps2) by (subst index; lia).
      rewrite Hsplit, run_concat, Hk2, run_undos_back_to. cbn [Js.bind].
      rewrite run_redos_forward_to.
      eexists. split; [ reflexivity | ]. cbn [history editor].
      split; reflexivity.
    + apply nth_error_None in Hnth. subst index. lia.
Qed.

Lemma undos_then_redos_witness :
  let a1 := HistoryAction.mk 1 "Uploaded background image"
                             EditorSlice.initialState in
  let a2 := HistoryAction.mk 2 "Added text layer"
              (EditorSlice.addTextLayer "a" (EditorSlice.mkPatch None None)
                                        EditorSlice.initialState) in
  let a3 := HistoryAction.mk 3 "Moved text layer"
              (EditorSlice.updateTextLayer "a"
                 (EditorSlice.mkPatch (Some 150) (Some 120))
                 (HistoryAction.state a2)) in
  let w := mkWorld (HistoryAction.state a3)
             (HistoryState.mk [a1; a2] (Some a3) []
                              HistorySlice.MAX_HISTORY_SIZE) in
  exists w',
    run (repeat OpUndo 2 ++ repeat OpRedo 2) w = Js.Ok w'
    /\ history w' = history w
    /\ editor w' = HistoryAction.state a3.
Proof.
  cbv zeta.
  apply (undos_then_redos_roundtrip
           (mkWorld
              (EditorSlice.updateTextLayer "a"
                 (EditorSlice.mkPatch (Some 150) (Some 120))
                 (EditorSlice.addTextLayer "a" (EditorSlice.mkPatch None None)
                                           EditorSlice.initialState))
              (HistoryState.mk
                 [HistoryAction.mk 1 "Uploaded background image"
                                   EditorSlice.initialState;
                  HistoryAction.mk 2 "Added text layer"
                    (EditorSlice.addTextLayer "a"
                       (EditorSlice.mkPatch None None)
                       EditorSlice.initialState)]
                 (Some (HistoryAction.mk 3 "Moved text layer"
                          (EditorSlice.updateTextLayer "a"
                             (EditorSlice.mkPatch (Some 150) (Some 120))
                             (EditorSlice.addTextLayer "a"
                                (EditorSlice.mkPatch None None)
                                EditorSlice.initialState))))
                 [] HistorySlice.MAX_HISTORY_SIZE))
           (HistoryAction.mk 3 "Moved text layer"
              (EditorSlice.updateTextLayer "a"
                 (EditorSlice.mkPatch (Some 150) (Some 120))
                 (EditorSlice.addTextLayer "a" (EditorSlice.mkPatch None None)
                                           EditorSlice.initialState)))
           2%nat).
  - reflexivity.
  - cbn [history HistoryState.past List.length]. lia.
Defined.

(** X3.  With a non-null present [p] and a non-empty future, [redo]
    followed by [undo] gives back the same past, present, future and
    bound, and leaves the Document Store holding the snapshot of [p]. *)
Theorem redo_then_undo_roundtrip :
  forall (w : World) (p : HistoryAction.t),
    HistoryState.present (history w) = Some p ->
    (0 < List.length (HistoryState.future (history w)))%nat ->
    exists w1 w2,
      HistorySlice.redo w = Js.Ok w1
      /\ HistorySlice.undo w1 = Js.Ok w2
      /\ history w2 = history w
      /\ editor w2 = HistoryAction.state p.
Proof.
  intros [e [ps pr fs m]] p.
  cbn [history editor HistoryState.present HistoryState.future].
  intros -> Hfuture. destruct fs as [ | f fs ]; [ cbn in Hfuture; lia | ].
  do 2 eexists. split; [ apply redo_cons | ].
  split; [ apply undo_snoc | ]. split; reflexivity.
Qed.

Lemma redo_then_undo_witness :
  let a1 := HistoryAction.mk 1 "Uploaded background image"
                             EditorSlice.initialState in
  let a2 := HistoryAction.mk 2 "Added text layer"
              (EditorSlice.addTextLayer "a" (EditorSlice.mkPatch None None)
                                        EditorSlice.initialState) in
  let w := mkWorld EditorSlice.initialState
             (HistoryState.mk [] (Some a1) [a2]
                              HistorySlice.MAX_HISTORY_SIZE) in
  exists w1 w2,
    HistorySlice.redo w = Js.Ok w1
    /\ HistorySlice.undo w1 = Js.Ok w2
    /\ history w2 = history w
    /\ editor w2 = HistoryAction.state a1.
Proof.
  cbv zeta.
  apply (redo_then_undo_roundtrip
           (mkWorld EditorSlice.initialState
              (HistoryState.mk []
                 (Some (HistoryAction.mk 1 "Uploaded background image"
                                         EditorSlice.initialState))
                 [HistoryAction.mk 2 "Added text layer"
                    (EditorSlice.addTextLayer "a"
                       (EditorSlice.mkPatch None None)
                       EditorSlice.initialState)]
                 HistorySlice.MAX_HISTORY_SIZE))
           (HistoryAction.mk 1 "Uploaded background image"
                             EditorSlice.initialState)).
  - reflexivity.
  - cbn [history HistoryState.future List.length]. lia.
Defined.

(** X4.  A click on the item of the past at [index], in a panel
    rendered from a store with a non-null present [p], makes that action
    the present and puts its snapshot into the Document Store; the
    actions before it stay in the past, and the actions after it, then
    [p], go in front of the future. *)
Theorem click_past_item_lands_on_it :
  forall (w : World) (p q : HistoryAction.t) (index : nat),
    HistoryState.present (history w) = Some p ->
    nth_error (HistoryState.past (history w)) index = Some q ->
    HistoryPanel.clickFromRender HistoryPanel.ItemPast (Z.of_nat index) w
    = Js.Ok (mkWorld (HistoryAction.state q)
               (HistoryState.mk
                  (firstn index (HistoryState.past (history w)))
                  (Some q)
                  (skipn (S index) (HistoryState.past (history w))
                   ++ p :: HistoryState.future (history w))
                  (HistoryState.maxHistorySize (history w)))).
Proof.
  intros [e [ps pr fs m]] p q index.
  cbn [history editor HistoryState.present HistoryState.past
       HistoryState.future HistoryState.maxHistorySize].
  intros -> Hnth.
  unfold HistoryPanel.clickFromRender, HistoryPanel.onClick,
    HistoryPanel.forLoop.
  cbn [history HistoryState.past].
  destruct (split_at_index ps index q Hnth) as (Hsplit & Hlen1 & Hlen2).
  replace (Z.to_nat (Z.of_nat (List.length ps) - Z.of_nat index))
    with (S (List.length (skipn (S index) ps))).
  - rewrite callTimes_undo_run. rewrite Hsplit at 2.
    apply run_undos_back_to.
  - rewrite Hlen2.
    assert (index < List.length ps)%nat
      by (apply nth_error_Some; congruence).
    lia.
Qed.

Lemma click_past_item_witness :
  let a1 := HistoryAction.mk 1 "Uploaded background image"
                             EditorSlice.initialState in
  let a2 := HistoryAction.mk 2 "Added text layer"
              (EditorSlice.addTextLayer "a" (EditorSlice.mkPatch None None)
                                        EditorSlice.initialState) in
  let a3 := HistoryAction.mk 3 "Moved layer up" (HistoryAction.state a2) in
  HistoryPanel.clickFromRender HistoryPanel.ItemPast 0
    (mkWorld (HistoryAction.state a3)
       (HistoryState.mk [a1; a2] (Some a3) [] HistorySlice.MAX_HISTORY_SIZE))
  = Js.Ok (mkWorld (HistoryAction.state a1)
             (HistoryState.mk [] (Some a1) [a2; a3]
                              HistorySlice.MAX_HISTORY_SIZE)).
Proof.
  cbv zeta.
  apply (click_past_item_lands_on_it
           (mkWorld
              (EditorSlice.addTextLayer "a" (EditorSlice.mkPatch None None)
                                        EditorSlice.initialState)
              (HistoryState.mk
                 [HistoryAction.mk 1 "Uploaded background image"
                                   EditorSlice.initialState;
                  HistoryAction.mk 2 "Added text layer"
                    (EditorSlice.addTextLayer "a"
                       (EditorSlice.mkPatch None None)
                       EditorSlice.initialState)]
                 (Some (HistoryAction.mk 3 "Moved layer up"
                          (EditorSlice.addTextLayer "a"
                             (EditorSlice.mkPatch None None)
                             EditorSlice.initialState)))
                 [] HistorySlice.MAX_HISTORY_SIZE))
           (HistoryAction.mk 3 "Moved layer up"
              (EditorSlice.addTextLayer "a" (EditorSlice.mkPatch None None)
                                        EditorSlice.initialState))
           (HistoryAction.mk 1 "Uploaded background image"
                             EditorSlice.initialState)
           0%nat).
  - reflexivity.
  - reflexivity.
Defined.

(** X5.  A click on the item of the future at [index], with a
    non-null present [p], makes that action the present and puts its
    snapshot into the Document Store; [p] and the future actions before
    it are appended to the past, and the actions after it stay in the
    future. *)
Theorem click_future_item_lands_on_it :
  forall (w : World) (p f : HistoryAction.t) (index : nat),
    HistoryState.present (history w) = Some p ->
    nth_error (HistoryState.future (history w)) index = Some f ->
    HistoryPanel.clickFromRender HistoryPanel.ItemFuture (Z.of_nat index) w
    = Js.Ok (mkWorld (HistoryAction.state f)
               (HistoryState.mk
                  (HistoryState.past (history w)
                   ++ p :: firstn index (HistoryState.future (history w)))
                  (Some f)
                  (skipn (S index) (HistoryState.future (history w)))
                  (HistoryState.maxHistorySize (history w)))).
Proof.
  intros [e [ps pr fs m]] p f index.
  cbn [history editor HistoryState.present HistoryState.past
       HistoryState.future HistoryState.maxHistorySize].
  intros -> Hnth.
  unfold HistoryPanel.clickFromRender, HistoryPanel.onClick,
    HistoryPanel.forLoop.
  destruct (split_at_index fs index f Hnth) as (Hsplit & Hlen1 & Hlen2).
  replace (Z.to_nat (Z.of_nat index + 1))
    with (S (List.length (firstn index fs))) by lia.
  rewrite callTimes_redo_run. rewrite Hsplit at 2.
  apply run_redos_forward_to.
Qed.

Lemma click_future_item_witness :
  let a1 := HistoryAction.mk 1 "Uploaded background image"
                             EditorSlice.initialState in
  let a2 := HistoryAction.mk 2 "Added text layer"
              (EditorSlice.addTextLayer "a" (EditorSlice.mkPatch None None)
                                        EditorSlice.initialState) in
  let a3 := HistoryAction.mk 3 "Moved layer up" (HistoryAction.state a2) in
  HistoryPanel.clickFromRender HistoryPanel.ItemFuture 1
    (mkWorld (HistoryAction.state a1)
       (HistoryState.mk [] (Some a1) [a2; a3] HistorySlice.MAX_HISTORY_SIZE))
  = Js.Ok (mkWorld (HistoryAction.state a3)
             (HistoryState.mk [a1; a2] (Some a3) []
                              HistorySlice.MAX_HISTORY_SIZE)).
Proof.
  cbv zeta.
  apply (click_future_item_lands_on_it
           (mkWorld EditorSlice.initialState
              (HistoryState.mk []
                 (Some (HistoryAction.mk 1 "Uploaded background image"
                                         EditorSlice.initialState))
                 [HistoryAction.mk 2 "Added text layer"
                    (EditorSlice.addTextLayer "a"
                       (EditorSlice.mkPatch None None)
                       EditorSlice.initialState);
                  HistoryAction.mk 3 "Moved layer up"
                    (EditorSlice.addTextLayer "a"
                       (EditorSlice.mkPatch None None)
                       EditorSlice.initialState)]
                 HistorySlice.MAX_HISTORY_SIZE))
           (HistoryAction.mk 1 "Uploaded background image"
                             EditorSlice.initialState)
           (HistoryAction.mk 3 "Moved layer up"
              (EditorSlice.addTextLayer "a" (EditorSlice.mkPatch None None)
                                        EditorSlice.initialState))
           1%nat).
  - reflexivity.
  - reflexivity.
Defined.

Section Timeline.

Lemma undo_timeline w :
  exists w',
    HistorySlice.undo w = Js.Ok w'
    /\ timeline (history w') = timeline (history w)
    /\ HistoryState.maxHistorySize (history w')
       = HistoryState.maxHistorySize (history w).
Proof.
  destruct w as [e [ps pr fs m]]. destruct ps as [ | a ps' ].
  - rewrite undo_empty_past. eexists. repeat split.
  - destruct pr as [p | ].
    + destruct (@nonempty_snoc _ (a :: ps')) as (init & q & ->);
        [ discriminate | ].
      rewrite undo_snoc. eexists. split; [ reflexivity | ].
      split; [ | reflexivity ].
      unfold timeline.
      cbn [history HistoryState.past HistoryState.present HistoryState.future].
      rewrite <- app_assoc. reflexivity.
    + rewrite undo_null_present. eexists. repeat split.
Qed.

Lemma redo_timeline w :
  exists w',
    HistorySlice.redo w = Js.Ok w'
    /\ timeline (history w') = timeline (history w)
    /\ HistoryState.maxHistorySize (history w')
       = HistoryState.maxHistorySize (history w).
Proof.
  destruct w as [e [ps pr fs m]]. destruct fs as [ | f fs' ].
  - rewrite redo_empty_future. eexists. repeat split.
  - rewrite redo_cons. eexists. split; [ reflexivity | ].
    split; [ | reflexivity ].
    unfold timeline.
    cbn [history HistoryState.past HistoryState.present HistoryState.future].
    destruct pr as [p | ]; [ rewrite <- app_assoc | ]; reflexivity.
Qed.

End Timeline.

(** X6.  [undo] and [redo] only move the present along the timeline:
    after any sequence of [undo] and [redo] calls, in any state, the
    actions of past, present and future, read in that order, are the
    same list as before, and [maxHistorySize] is the same. *)
Theorem undo_redo_preserve_timeline :
  forall (ops : list HistoryOp) (w : World),
    forallb (fun op =>
               match op with
               | OpUndo | OpRedo => true
               | _ => false
               end) ops = true ->
    exists w',
      run ops w = Js.Ok w'
      /\ timeline (history w') = timeline (history w)
      /\ HistoryState.maxHistorySize (history w')
         = HistoryState.maxHistorySize (history w).
Proof.
  induction ops as [ | op ops IH ]; intros w Hops.
  - exists w. repeat split.
  - cbn [forallb] in Hops. apply andb_true_iff in Hops as [Hop Hrest].
    assert (Hstep : exists w1,
               step op w = Js.Ok w1
               /\ timeline (history w1) = timeline (history w)
               /\ HistoryState.maxHistorySize (history w1)
                  = HistoryState.maxHistorySize (history w)).
    { destruct op; try discriminate Hop; cbn [step];
        [ apply undo_timeline | apply redo_timeline ]. }
    destruct Hstep as (w1 & Hstep & Htl & Hmax).
    destruct (IH w1 Hrest) as (w' & Hrun & Htl' & Hmax').
    exists w'. cbn [run]. rewrite Hstep. cbn [Js.bind].
    split; [ exact Hrun | ]. split; congruence.
Qed.

Lemma undo_redo_timeline_witness :
  let a1 := HistoryAction.mk 1 "Uploaded background image"
                             EditorSlice.initialState in
  let a2 := HistoryAction.mk 2 "Added text layer"
              (EditorSlice.addTextLayer "a" (EditorSlice.mkPatch None None)
                                        EditorSlice.initialState) in
  let w := mkWorld (HistoryAction.state a2)
             (HistoryState.mk [a1] (Some a2) []
                              HistorySlice.MAX_HISTORY_SIZE) in
  exists w',
    run [OpUndo; OpUndo; OpRedo; OpUndo] w = Js.Ok w'
    /\ timeline (history w') = [a1; a2]
    /\ HistoryState.maxHistorySize (history w')
       = HistorySlice.MAX_HISTORY_SIZE.
Proof.
  cbv zeta.
  apply (undo_redo_preserve_timeline
           [OpUndo; OpUndo; OpRedo; OpUndo]
           (mkWorld
              (EditorSlice.addTextLayer "a" (EditorSlice.mkPatch None None)
                                        EditorSlice.initialState)
              (HistoryState.mk
                 [HistoryAction.mk 1 "Uploaded background image"
                                   EditorSlice.initialState]
                 (Some (HistoryAction.mk 2 "Added text layer"
                          (EditorSlice.addTextLayer "a"
                             (EditorSlice.mkPatch None None)
                             EditorSlice.initialState)))
                 [] HistorySlice.MAX_HISTORY_SIZE))).
  reflexivity.
Defined.

Section Reachable.

(** The present is null only in the empty store. *)
Let emptyIfNull (h : HistoryState.t) : Prop :=
  HistoryState.present h = None ->
  HistoryState.past h = [] /\ HistoryState.future h = [].

Lemma step_emptyIfNull op w :
  emptyIfNull (history w) ->
  exists w', step op w = Js.Ok w' /\ emptyIfNull (history w').
Proof.
  unfold emptyIfNull. intros Hinv.
  destruct op as [now d s | | | ]; cbn [step].
  - eexists. split; [ reflexivity | ]. cbn [history]. discriminate.
  - destruct w as [e [ps pr fs m]]. cbn [history] in *.
    destruct ps as [ | a ps' ].
    + rewrite undo_empty_past. eexists. split; [ reflexivity | exact Hinv ].
    + destruct pr as [p | ].
      * destruct (@nonempty_snoc _ (a :: ps')) as (init & q & ->);
          [ discriminate | ].
        rewrite undo_snoc. eexists. split; [ reflexivity | ].
        cbn [history HistoryState.present]. discriminate.
      * rewrite undo_null_present. eexists. split; [ reflexivity | exact Hinv ].
  - destruct w as [e [ps pr fs m]]. cbn [history] in *.
    destruct fs as [ | f fs' ].
    + rewrite redo_empty_future. eexists. split; [ reflexivity | exact Hinv ].
    + rewrite redo_cons. eexists. split; [ reflexivity | ].
      cbn [history HistoryState.present]. discriminate.
  - eexists. split; [ reflexivity | ]. cbn [history]. intros _. split; reflexivity.
Qed.

Lemma run_emptyIfNull ops : forall w,
  emptyIfNull (history w) ->
  exists w', run ops w = Js.Ok w' /\ emptyIfNull (history w').
Proof.
  induction ops as [ | op ops IH ]; intros w Hinv; cbn [run].
  - eauto.
  - destruct (step_emptyIfNull op w Hinv) as (w1 & -> & Hinv1).
    cbn [Js.bind]. apply IH, Hinv1.
Qed.

(** In a store where the present is null only when the store is empty,
    [canUndo] and [canRedo] say whether [undo] and [redo] move. *)
Lemma buttons_reflect_moves w :
  emptyIfNull (history w) ->
  (if HistorySlice.canUndo (history w)
   then exists w1,
          HistorySlice.undo w = Js.Ok w1
          /\ S (List.length (HistoryState.past (history w1)))
             = List.length (HistoryState.past (history w))
          /\ List.length (HistoryState.future (history w1))
             = S (List.length (HistoryState.future (history w)))
   else HistorySlice.undo w = Js.Ok w)
  /\ (if HistorySlice.canRedo (history w)
      then exists w1,
             HistorySlice.redo w = Js.Ok w1
             /\ List.length (HistoryState.past (history w1))
                = S (List.length (HistoryState.past (history w)))
             /\ S (List.length (HistoryState.future (history w1)))
                = List.length (HistoryState.future (history w))
      else HistorySlice.redo w = Js.Ok w).
Proof.
  unfold emptyIfNull. destruct w as [e [ps pr fs m]]. cbn [history].
  cbn [HistoryState.past HistoryState.present HistoryState.future].
  intros Hinv. split.
  - unfold HistorySlice.canUndo. cbn [HistoryState.past].
    destruct ps as [ | a ps' ]; [ reflexivity | ].
    change (0 <? Z.of_nat (List.length (a :: ps')))%Z with true. cbv iota.
    destruct pr as [p | ].
    + destruct (@nonempty_snoc _ (a :: ps')) as (init & q & ->);
        [ discriminate | ].
      rewrite undo_snoc. eexists. split; [ reflexivity | ].
      cbn [history HistoryState.past HistoryState.future List.length].
      rewrite length_app. cbn [List.length]. split; lia.
    + destruct (Hinv eq_refl) as [Hps _]. discriminate Hps.
  - unfold HistorySlice.canRedo. cbn [HistoryState.future].
    destruct fs as [ | f fs' ]; [ reflexivity | ].
    change (0 <? Z.of_nat (List.length (f :: fs')))%Z with true. cbv iota.
    rewrite redo_cons. eexists. split; [ reflexivity | ].
    cbn [history HistoryState.past HistoryState.future List.length].
    destruct pr as [p | ].
    + rewrite length_app. cbn [List.length]. split; lia.
    + destruct (Hinv eq_refl) as [_ Hfs]. discriminate Hfs.
Qed.

Lemma initial_emptyIfNull : emptyIfNull HistorySlice.initialState.
Proof. intros _. split; reflexivity. Qed.

End Reachable.

(** X7.  In every state reached from the initial store by [pushHistory],
    [undo], [redo] and [clearHistory] calls, the present is null only
    when past and future are empty, and [canUndo()] and [canRedo()] tell
    exactly whether [undo] and [redo] do something: when true, the call
    moves one action between past and future; when false, it leaves
    both stores as they are. *)
Theorem buttons_reflect_history :
  forall (ops : list HistoryOp) (e : CanvasState.t),
  exists w,
    run ops (mkWorld e HistorySlice.initialState) = Js.Ok w
    /\ (HistoryState.present (history w) = None ->
        HistoryState.past (history w) = []
        /\ HistoryState.future (history w) = [])
    /\ (if HistorySlice.canUndo (history w)
        then exists w1,
               HistorySlice.undo w = Js.Ok w1
               /\ S (List.length (HistoryState.past (history w1)))
                  = List.length (HistoryState.past (history w))
               /\ List.length (HistoryState.future (history w1))
                  = S (List.length (HistoryState.future (history w)))
        else HistorySlice.undo w = Js.Ok w)
    /\ (if HistorySlice.canRedo (history w)
        then exists w1,
               HistorySlice.redo w = Js.Ok w1
               /\ List.length (HistoryState.past (history w1))
                  = S (List.length (HistoryState.past (history w)))
               /\ S (List.length (HistoryState.future (history w1)))
                  = List.length (HistoryState.future (history w))
        else HistorySlice.redo w = Js.Ok w).
Proof.
  intros ops e.
  destruct (run_emptyIfNull ops (mkWorld e HistorySlice.initialState)
              initial_emptyIfNull) as (w & Hrun & Hinv).
  exists w. split; [ exact Hrun | ]. split; [ exact Hinv | ].
  apply buttons_reflect_moves, Hinv.
Qed.

Section MostRecent.

Lemma run_pushes_most_recent (rest : list PushArgs) :
  forall first,
    run (map opOfPush (first :: rest)) initialWorld
    = Js.Ok (mkWorld EditorSlice.initialState
               (HistoryState.mk
                  (keepLast 19 (map actionOfPush (removelast (first :: rest))))
                  (Some (actionOfPush (last rest first)))
                  [] HistorySlice.MAX_HISTORY_SIZE)).
Proof.
  induction rest as [ | a rest IH ] using rev_ind; intros first.
  - reflexivity.
  - change (first :: rest ++ [a]) with ((first :: rest) ++ [a]).
    rewrite map_app, run_concat, IH. cbn [Js.bind map run step opOfPush
      history editor].
    unfold HistorySlice.MAX_HISTORY_SIZE.
    rewrite pushHistory_present by lia.
    rewrite removelast_last, last_last.
    change (Z.to_nat (20 - 1)) with 19%nat.
    fold (@keepLast HistoryAction.t 19
            (keepLast 19 (map actionOfPush (removelast (first :: rest)))
             ++ [actionOfPush (last rest first)])).
    rewrite (keepLast_snoc_keepLast 18).
    replace (map actionOfPush (removelast (first :: rest))
             ++ [actionOfPush (last rest first)])
      with (map actionOfPush (first :: rest)).
    + reflexivity.
    + rewrite (map_removelast actionOfPush).
      rewrite (map_last actionOfPush).
      rewrite <- last_cons_default with (d := actionOfPush first).
      change (actionOfPush first :: map actionOfPush rest)
        with (map actionOfPush (first :: rest)).
      apply app_removelast_last. discriminate.
Qed.

End MostRecent.

(** X8.  After any number of pushes from the initial store, however
    many, the present is the last pushed action, the future is empty,
    and the past is the run of the (at most) 19 most recent earlier
    pushes, oldest first: eviction removes the oldest actions and
    nothing else. *)
Theorem pushes_keep_most_recent :
  forall (first : PushArgs) (rest : list PushArgs),
  exists w,
    run (map opOfPush (first :: rest)) initialWorld = Js.Ok w
    /\ HistoryState.present (history w) = Some (actionOfPush (last rest first))
    /\ HistoryState.future (history w) = []
    /\ HistoryState.past (history w)
       = keepLast 19 (map actionOfPush (removelast (first :: rest)))
    /\ List.length (HistoryState.past (history w))
       = Nat.min 19 (List.length rest).
Proof.
  intros first rest. rewrite run_pushes_most_recent.
  eexists. split; [ reflexivity | ].
  cbn [history HistoryState.present HistoryState.future HistoryState.past].
  repeat split.
  rewrite keepLast_length, length_map.
  change (first :: rest) with ([first] ++ rest).
  destruct rest as [ | a rest' ]; [ reflexivity | ].
  destruct (@nonempty_snoc _ (a :: rest')) as (init & z & Heq);
    [ discriminate | ].
  rewrite Heq, app_assoc, removelast_last, !length_app. cbn [List.length].
  lia.
Qed.

(* ================================================================== *)
(** * Further properties of the Document Store *)

Section ArrayIndexing.

Context {A : Type}.
Implicit Types (arr : list A) (x v : A) (p : A -> bool).

Lemma findIndexFrom_cases p arr : forall from,
  (JsArray.findIndexFrom p from arr = (-1)%Z
   /\ forall y, In y arr -> p y = false)
  \/ (exists l1 x l2,
         arr = l1 ++ x :: l2
         /\ (forall y, In y l1 -> p y = false)
         /\ p x = true
         /\ JsArray.findIndexFrom p from arr
            = (from + Z.of_nat (List.length l1))%Z).
Proof.
  induction arr as [ | a arr IH ]; intros from; cbn [JsArray.findIndexFrom].
  - left. split; [ reflexivity | intros y [] ].
  - destruct (p a) eqn:Hpa.
    + right. exists [], a, arr. cbn [app List.length]. repeat split.
      * intros y [].
      * exact Hpa.
      * lia.
    + destruct (IH (from + 1)%Z) as [[Hnone Hall] | (l1 & x & l2 & -> & Hl1 & Hx & Hidx)].
      * left. split; [ exact Hnone | ].
        intros y [<- | Hy]; [ exact Hpa | apply Hall, Hy ].
      * right. exists (a :: l1), x, l2. cbn [app List.length]. repeat split.
        -- intros y [<- | Hy]; [ exact Hpa | apply Hl1, Hy ].
        -- exact Hx.
        -- rewrite Hidx. lia.
Qed.

Lemma findIndex_cases p arr :
  (JsArray.findIndex p arr = (-1)%Z /\ forall y, In y arr -> p y = false)
  \/ (exists l1 x l2,
         arr = l1 ++ x :: l2
         /\ (forall y, In y l1 -> p y = false)
         /\ p x = true
         /\ JsArray.findIndex p arr = Z.of_nat (List.length l1)).
Proof.
  unfold JsArray.findIndex.
  destruct (findIndexFrom_cases p arr 0) as [H | (l1 & x & l2 & H1 & H2 & H3 & H4)].
  - left. exact H.
  - right. exists l1, x, l2. repeat split; try assumption;
      rewrite H4; lia.
Qed.

Lemma findIndex_first p (l1 : list A) x (l2 : list A) :
  (forall y, In y l1 -> p y = false) -> p x = true ->
  JsArray.findIndex p (l1 ++ x :: l2) = Z.of_nat (List.length l1).
Proof.
  intros Hl1 Hx. unfold JsArray.findIndex.
  assert (Hgen : forall from,
             JsArray.findIndexFrom p from (l1 ++ x :: l2)
             = (from + Z.of_nat (List.length l1))%Z).
  { induction l1 as [ | a l1 IH ]; intros from;
      cbn [app JsArray.findIndexFrom List.length].
    - rewrite Hx. lia.
    - rewrite (Hl1 a) by (left; reflexivity).
      rewrite IH by (intros y Hy; apply Hl1; right; exact Hy). lia. }
  rewrite Hgen. lia.
Qed.

Lemma findIndex_none p arr :
  (forall y, In y arr -> p y = false) -> JsArray.findIndex p arr = (-1)%Z.
Proof.
  intros Hall.
  destruct (findIndex_cases p arr) as [[H _] | (l1 & x & l2 & -> & _ & Hx & _)];
    [ exact H | ].
  rewrite Hall in Hx by (apply in_elt). discriminate.
Qed.

Lemma index_middle (l1 : list A) x (l2 : list A) :
  Js.index (l1 ++ x :: l2) (Z.of_nat (List.length l1)) = Some x.
Proof.
  unfold Js.index.
  destruct (Z.ltb_spec (Z.of_nat (List.length l1)) 0) as [Hlt | _]; [ lia | ].
  rewrite Nat2Z.id, nth_error_app2, Nat.sub_diag by lia. reflexivity.
Qed.

Lemma assignNat_middle (l1 : list A) x (l2 : list A) v :
  JsArray.assignNat (l1 ++ x :: l2) (List.length l1) v = l1 ++ v :: l2.
Proof.
  induction l1 as [ | a l1 IH ]; cbn [app List.length JsArray.assignNat];
    [ reflexivity | now rewrite IH ].
Qed.

Lemma assign_middle (l1 : list A) x (l2 : list A) v :
  JsArray.assign (l1 ++ x :: l2) (Z.of_nat (List.length l1)) v = l1 ++ v :: l2.
Proof.
  unfold JsArray.assign.
  destruct (Z.ltb_spec (Z.of_nat (List.length l1)) 0) as [Hlt | _]; [ lia | ].
  rewrite Nat2Z.id. apply assignNat_middle.
Qed.

Lemma slice_prefix (l1 l2 : list A) :
  Js.slice (l1 ++ l2) 0 (Z.of_nat (List.length l1)) = l1.
Proof.
  unfold Js.slice, Js.relIndex. rewrite length_app.
  destruct (Z.ltb_spec 0 0) as [Hlt | _]; [ lia | ].
  destruct (Z.ltb_spec (Z.of_nat (List.length l1)) 0) as [Hlt | _]; [ lia | ].
  replace (Z.to_nat (Z.min 0 (Z.of_nat (List.length l1 + List.length l2))))
    with 0%nat by lia.
  replace (Z.to_nat
             (Z.max
                (Z.min (Z.of_nat (List.length l1))
                       (Z.of_nat (List.length l1 + List.length l2))
                 - Z.min 0 (Z.of_nat (List.length l1 + List.length l2))) 0))
    with (List.length l1) by lia.
  cbn [skipn]. rewrite firstn_app, Nat.sub_diag, firstn_all.
  cbn [firstn]. apply app_nil_r.
Qed.

Lemma sliceFrom_suffix (l1 l2 : list A) (start : Z) :
  start = Z.of_nat (List.length l1) ->
  Js.sliceFrom (l1 ++ l2) start = l2.
Proof.
  intros ->. unfold Js.sliceFrom, Js.relIndex. rewrite length_app.
  destruct (Z.ltb_spec (Z.of_nat (List.length l1)) 0) as [Hlt | _]; [ lia | ].
  replace (Z.to_nat
             (Z.min (Z.of_nat (List.length l1))
                    (Z.of_nat (List.length l1 + List.length l2))))
    with (List.length l1) by lia.
  rewrite skipn_app, skipn_all, Nat.sub_diag. reflexivity.
Qed.

End ArrayIndexing.

Section LayerOrder.

Import EditorLayers.

Implicit Types (s : CanvasState.t) (x y : TextLayerProperties.t)
         (id : string).

Lemma withLayers_same s : withLayers (CanvasState.textLayers s) s = s.
Proof. destruct s; reflexivity. Qed.

Lemma withLayers_twice layers1 layers2 s :
  withLayers layers2 (withLayers layers1 s) = withLayers layers2 s.
Proof. reflexivity. Qed.

Lemma index_next (l1 : list TextLayerProperties.t) x y l2 :
  Js.index (l1 ++ x :: y :: l2) (Z.of_nat (List.length l1) + 1) = Some y.
Proof.
  replace (l1 ++ x :: y :: l2) with ((l1 ++ [x]) ++ y :: l2)
    by (rewrite <- app_assoc; reflexivity).
  replace (Z.of_nat (List.length l1) + 1)%Z
    with (Z.of_nat (List.length (l1 ++ [x])))
    by (rewrite length_app; cbn [List.length]; lia).
  apply index_middle.
Qed.

Lemma assign_next (l1 : list TextLayerProperties.t) x y l2 v :
  JsArray.assign (l1 ++ x :: y :: l2) (Z.of_nat (List.length l1) + 1) v
  = l1 ++ x :: v :: l2.
Proof.
  replace (l1 ++ x :: y :: l2) with ((l1 ++ [x]) ++ y :: l2)
    by (rewrite <- app_assoc; reflexivity).
  replace (Z.of_nat (List.length l1) + 1)%Z
    with (Z.of_nat (List.length (l1 ++ [x])))
    by (rewrite length_app; cbn [List.length]; lia).
  rewrite assign_middle, <- app_assoc. reflexivity.
Qed.

(** Swapping the layers at [n] and [n + 1], read and written in either
    order. *)
Lemma swapLayers_adjacent s (l1 : list TextLayerProperties.t) x y l2 :
  CanvasState.textLayers s = l1 ++ x :: y :: l2 ->
  swapLayers (Z.of_nat (List.length l1)) (Z.of_nat (List.length l1) + 1) s
  = withLayers (l1 ++ y :: x :: l2) s
  /\ swapLayers (Z.of_nat (List.length l1) + 1) (Z.of_nat (List.length l1)) s
     = withLayers (l1 ++ y :: x :: l2) s.
Proof.
  intros Hlayers. unfold swapLayers. rewrite Hlayers.
  rewrite index_next, index_middle. split.
  - rewrite assign_middle, assign_next. reflexivity.
  - rewrite assign_next, assign_middle. reflexivity.
Qed.

Lemma moveLayerUp_swap id s (l1 : list TextLayerProperties.t) x y l2 :
  CanvasState.textLayers s = l1 ++ x :: y :: l2 ->
  (forall z, In z l1 -> hasId id z = false) -> hasId id x = true ->
  moveLayerUp id s = withLayers (l1 ++ y :: x :: l2) s.
Proof.
  intros Hlayers Hl1 Hx. unfold moveLayerUp. rewrite Hlayers.
  rewrite (findIndex_first _ l1 x (y :: l2) Hl1 Hx).
  rewrite length_app. cbn [List.length].
  destruct (Z.eqb_spec (Z.of_nat (List.length l1)) (-1)) as [E | _]; [ lia | ].
  destruct (Z.eqb_spec (Z.of_nat (List.length l1))
              (Z.of_nat (List.length l1 + S (S (List.length l2))) - 1))
    as [E | _]; [ lia | ].
  cbn [orb]. apply (swapLayers_adjacent s l1 x y l2 Hlayers).
Qed.

Lemma moveLayerUp_last id s (l1 : list TextLayerProperties.t) x :
  CanvasState.textLayers s = l1 ++ [x] ->
  (forall z, In z l1 -> hasId id z = false) -> hasId id x = true ->
  moveLayerUp id s = s.
Proof.
  intros Hlayers Hl1 Hx. unfold moveLayerUp. rewrite Hlayers.
  rewrite (findIndex_first _ l1 x [] Hl1 Hx).
  rewrite length_app. cbn [List.length].
  replace (Z.of_nat (List.length l1 + 1) - 1)%Z
    with (Z.of_nat (List.length l1)) by lia.
  rewrite Z.eqb_refl, orb_true_r. reflexivity.
Qed.

Lemma moveLayerDown_swap id s (l1 : list TextLayerProperties.t) y x l2 :
  CanvasState.textLayers s = l1 ++ y :: x :: l2 ->
  (forall z, In z l1 -> hasId id z = false) ->
  hasId id y = false -> hasId id x = true ->
  moveLayerDown id s = withLayers (l1 ++ x :: y :: l2) s.
Proof.
  intros Hlayers Hl1 Hy Hx. unfold moveLayerDown. rewrite Hlayers.
  replace (l1 ++ y :: x :: l2) with ((l1 ++ [y]) ++ x :: l2)
    by (rewrite <- app_assoc; reflexivity).
  rewrite (findIndex_first _ (l1 ++ [y]) x l2).
  - rewrite length_app. cbn [List.length].
    destruct (Z.leb_spec (Z.of_nat (List.length l1 + 1)) 0) as [E | _]; [ lia | ].
    replace (Z.of_nat (List.length l1 + 1)) with (Z.of_nat (List.length l1) + 1)%Z
      by lia.
    replace (Z.of_nat (List.length l1) + 1 - 1)%Z
      with (Z.of_nat (List.length l1)) by lia.
    apply (swapLayers_adjacent s l1 y x l2 Hlayers).
  - intros z Hz. apply in_app_or in Hz as [Hz | [<- | []]];
      [ apply Hl1, Hz | exact Hy ].
  - exact Hx.
Qed.

Lemma moveLayerDown_first id s x l2 :
  CanvasState.textLayers s = x :: l2 -> hasId id x = true ->
  moveLayerDown id s = s.
Proof.
  intros Hlayers Hx. unfold moveLayerDown. rewrite Hlayers.
  pose proof (findIndex_first (hasId id) [] x l2
                (fun z (H : In z []) => match H with end) Hx) as Hindex.
  cbn [app List.length] in Hindex. rewrite Hindex. reflexivity.
Qed.

Lemma moveLayerToTop_found id s (l1 : list TextLayerProperties.t) x l2 :
  CanvasState.textLayers s = l1 ++ x :: l2 ->
  (forall z, In z l1 -> hasId id z = false) -> hasId id x = true ->
  moveLayerToTop id s = withLayers (l1 ++ l2 ++ [x]) s.
Proof.
  intros Hlayers Hl1 Hx. unfold moveLayerToTop. rewrite Hlayers.
  rewrite (findIndex_first _ l1 x l2 Hl1 Hx).
  destruct (Z.eqb_spec (Z.of_nat (List.length l1)) (-1)) as [E | _]; [ lia | ].
  cbn [orb].
  destruct (Z.eqb_spec (Z.of_nat (List.length l1))
              (Z.of_nat (List.length (l1 ++ x :: l2)) - 1)) as [E | _].
  - rewrite length_app in E. cbn [List.length] in E.
    destruct l2 as [ | z l2 ]; [ | cbn [List.length] in E; lia ].
    cbn [app]. rewrite <- Hlayers. symmetry. apply withLayers_same.
  - rewrite index_middle, slice_prefix.
    replace (l1 ++ x :: l2) with ((l1 ++ [x]) ++ l2)
      by (rewrite <- app_assoc; reflexivity).
    rewrite (sliceFrom_suffix (l1 ++ [x]) l2)
      by (rewrite length_app; cbn [List.length]; lia).
    reflexivity.
Qed.

Lemma moveLayerToBottom_found id s (l1 : list TextLayerProperties.t) x l2 :
  CanvasState.textLayers s = l1 ++ x :: l2 ->
  (forall z, In z l1 -> hasId id z = false) -> hasId id x = true ->
  moveLayerToBottom id s = withLayers (x :: l1 ++ l2) s.
Proof.
  intros Hlayers Hl1 Hx. unfold moveLayerToBottom. rewrite Hlayers.
  rewrite (findIndex_first _ l1 x l2 Hl1 Hx).
  destruct (Z.leb_spec (Z.of_nat (List.length l1)) 0) as [E | Hpos].
  - destruct l1 as [ | z l1 ]; [ | cbn [List.length] in E; lia ].
    cbn [app] in *. rewrite <- Hlayers. symmetry. apply withLayers_same.
  - rewrite index_middle, slice_prefix.
    replace (l1 ++ x :: l2) with ((l1 ++ [x]) ++ l2)
      by (rewrite <- app_assoc; reflexivity).
    rewrite (sliceFrom_suffix (l1 ++ [x]) l2)
      by (rewrite length_app; cbn [List.length]; lia).
    reflexivity.
Qed.

(** With an id that no layer has, the four moves return the state. *)
Lemma moves_absent id s :
  (forall z, In z (CanvasState.textLayers s) -> hasId id z = false) ->
  moveLayerUp id s = s /\ moveLayerDown id s = s
  /\ moveLayerToTop id s = s /\ moveLayerToBottom id s = s.
Proof.
  intros Habsent.
  unfold moveLayerUp, moveLayerDown, moveLayerToTop, moveLayerToBottom.
  rewrite (findIndex_none _ _ Habsent). repeat split.
Qed.

Lemma hasId_false_iff id x :
  hasId id x = false <-> TextLayerProperties.id x <> id.
Proof. unfold hasId. apply String.eqb_neq. Qed.

Lemma hasId_true_iff id x :
  hasId id x = true <-> TextLayerProperties.id x = id.
Proof. unfold hasId. apply String.eqb_eq. Qed.

Lemma absent_hasId id s :
  ~ In id (layerIds s) ->
  forall z, In z (CanvasState.textLayers s) -> hasId id z = false.
Proof.
  intros Hnot z Hz. apply hasId_false_iff. intros E. apply Hnot.
  unfold layerIds. rewrite <- E. apply in_map, Hz.
Qed.

End LayerOrder.

Section LayerFacts.

Import EditorLayers.

Implicit Types (s : CanvasState.t) (id : string).

Lemma layerIds_delete id s :
  layerIds (deleteTextLayer id s)
  = filter (fun i => negb (String.eqb i id)) (layerIds s).
Proof.
  unfold layerIds, deleteTextLayer. cbn [CanvasState.textLayers].
  induction (CanvasState.textLayers s) as [ | l layers IH ]; [ reflexivity | ].
  cbn [filter map].
  destruct (String.eqb (TextLayerProperties.id l) id); cbn [negb map];
    now rewrite IH.
Qed.

Lemma filter_out_length (id : string) (ids : list string) :
  NoDup ids -> In id ids ->
  S (List.length (filter (fun i => negb (String.eqb i id)) ids))
  = List.length ids.
Proof.
  induction ids as [ | a ids IH ]; intros Hnd Hin; [ contradiction | ].
  apply NoDup_cons_iff in Hnd as [Hnotin Hnd]. cbn [filter List.length].
  destruct (String.eqb_spec a id) as [-> | Hne]; cbn [negb List.length].
  - f_equal. clear IH Hin Hnd.
    induction ids as [ | b ids IH ]; [ reflexivity | ].
    cbn [filter]. destruct (String.eqb_spec b id) as [-> | Hb].
    + exfalso. apply Hnotin. left. reflexivity.
    + cbn [negb List.length]. f_equal. apply IH.
      intros Hin. apply Hnotin. right. exact Hin.
  - f_equal. apply IH; [ exact Hnd | ].
    destruct Hin as [E | Hin]; [ contradiction | exact Hin ].
Qed.

Lemma map_if_absent (g : TextLayerProperties.t -> TextLayerProperties.t)
      id (layers : list TextLayerProperties.t) :
  (forall z, In z layers -> hasId id z = false) ->
  map (fun l => if hasId id l then g l else l) layers = layers.
Proof.
  intros Habsent. rewrite <- (map_id layers) at 2.
  apply map_ext_in. intros l Hl. now rewrite (Habsent l Hl).
Qed.

Lemma layerIds_map_keeping (g : TextLayerProperties.t -> TextLayerProperties.t)
      (layers : list TextLayerProperties.t) :
  (forall l, TextLayerProperties.id (g l) = TextLayerProperties.id l) ->
  map TextLayerProperties.id (map g layers)
  = map TextLayerProperties.id layers.
Proof. intros Hid. rewrite map_map. apply map_ext. exact Hid. Qed.

Lemma layerIds_toggle id s :
  layerIds (toggleLayerLock id s) = layerIds s.
Proof.
  unfold layerIds, toggleLayerLock, withLayers. cbn [CanvasState.textLayers].
  apply layerIds_map_keeping. intros l. destruct (hasId id l); reflexivity.
Qed.

Lemma layerIds_update id properties s :
  layerIds (EditorSlice.updateTextLayer id properties s) = layerIds s.
Proof.
  unfold layerIds, EditorSlice.updateTextLayer. cbn [CanvasState.textLayers].
  apply layerIds_map_keeping. intros l.
  destruct (String.eqb (TextLayerProperties.id l) id); reflexivity.
Qed.

(** Every move gives a permutation of the layers. *)
Lemma moves_permute id s :
  Permutation (CanvasState.textLayers s)
              (CanvasState.textLayers (moveLayerUp id s))
  /\ Permutation (CanvasState.textLayers s)
                 (CanvasState.textLayers (moveLayerDown id s))
  /\ Permutation (CanvasState.textLayers s)
                 (CanvasState.textLayers (moveLayerToTop id s))
  /\ Permutation (CanvasState.textLayers s)
                 (CanvasState.textLayers (moveLayerToBottom id s)).
Proof.
  destruct (findIndex_cases (hasId id) (CanvasState.textLayers s))
    as [[_ Habsent] | (l1 & x & l2 & Hlayers & Hl1 & Hx & _)].
  - destruct (moves_absent id s Habsent) as (-> & -> & -> & ->).
    repeat split; apply Permutation_refl.
  - repeat split.
    + destruct l2 as [ | y l2 ].
      * rewrite (moveLayerUp_last id s l1 x Hlayers Hl1 Hx).
        apply Permutation_refl.
      * rewrite (moveLayerUp_swap id s l1 x y l2 Hlayers Hl1 Hx).
        cbn [withLayers CanvasState.textLayers]. rewrite Hlayers.
        apply Permutation_app_head, perm_swap.
    + destruct l1 as [ | a l1 ] using rev_ind.
      * rewrite (moveLayerDown_first id s x l2 Hlayers Hx).
        apply Permutation_refl.
      * clear IHl1. rewrite <- app_assoc in Hlayers. cbn [app] in Hlayers.
        rewrite (moveLayerDown_swap id s l1 a x l2 Hlayers).
        -- cbn [withLayers CanvasState.textLayers]. rewrite Hlayers.
           apply Permutation_app_head, perm_swap.
        -- intros z Hz. apply Hl1, in_or_app. left. exact Hz.
        -- apply Hl1, in_or_app. right. left. reflexivity.
        -- exact Hx.
    + rewrite (moveLayerToTop_found id s l1 x l2 Hlayers Hl1 Hx).
      cbn [withLayers CanvasState.textLayers]. rewrite Hlayers.
      apply Permutation_app_head.
      change (x :: l2) with ([x] ++ l2). apply Permutation_app_comm.
    + rewrite (moveLayerToBottom_found id s l1 x l2 Hlayers Hl1 Hx).
      cbn [withLayers CanvasState.textLayers]. rewrite Hlayers.
      apply Permutation_sym, Permutation_middle.
Qed.

Lemma moves_keep_rest id s :
  forall move,
    In move [moveLayerUp; moveLayerDown; moveLayerToTop; moveLayerToBottom] ->
    CanvasState.selectedLayerIds (move id s) = CanvasState.selectedLayerIds s
    /\ CanvasState.backgroundImage (move id s) = CanvasState.backgroundImage s
    /\ CanvasState.canvasDimensions (move id s)
       = CanvasState.canvasDimensions s.
Proof.
  intros move [<- | [<- | [<- | [<- | []]]]].
  - unfold moveLayerUp, swapLayers.
    destruct (_ || _); [ repeat split | ].
    destruct (Js.index _ _); [ | repeat split ].
    destruct (Js.index _ _); repeat split.
  - unfold moveLayerDown, swapLayers.
    destruct (_ <=? _)%Z; [ repeat split | ].
    destruct (Js.index _ _); [ | repeat split ].
    destruct (Js.index _ _); repeat split.
  - unfold moveLayerToTop.
    destruct (_ || _); [ repeat split | ].
    destruct (Js.index _ _); repeat split.
  - unfold moveLayerToBottom.
    destruct (_ <=? _)%Z; [ repeat split | ].
    destruct (Js.index _ _); repeat split.
Qed.

Lemma filter_out_unique id (l1 : list TextLayerProperties.t) x l2 :
  (forall z, In z l1 -> hasId id z = false) ->
  (forall z, In z l2 -> hasId id z = false) ->
  hasId id x = true ->
  filter (fun layer => negb (String.eqb (TextLayerProperties.id layer) id))
         (l1 ++ x :: l2)
  = l1 ++ l2.
Proof.
  intros Hl1 Hl2 Hx.
  assert (Hkeep : forall l : list TextLayerProperties.t,
             (forall z, In z l -> hasId id z = false) ->
             filter (fun layer =>
                       negb (String.eqb (TextLayerProperties.id layer) id)) l
             = l).
  { induction l as [ | a l IH ]; intros Hl; [ reflexivity | ].
    cbn [filter]. pose proof (Hl a (or_introl eq_refl)) as Ha.
    unfold hasId in Ha. rewrite Ha. cbn [negb]. f_equal.
    apply IH. intros z Hz. apply Hl. right. exact Hz. }
  rewrite filter_app. cbn [filter]. unfold hasId in Hx. rewrite Hx.
  cbn [negb]. now rewrite (Hkeep l1 Hl1), (Hkeep l2 Hl2).
Qed.

(** In a document with unique ids, the layers around the layer with a
    given id do not have that id. *)
Lemma unique_split id (l1 : list TextLayerProperties.t) x l2 :
  uniqueIds (l1 ++ x :: l2) -> TextLayerProperties.id x = id ->
  (forall z, In z l1 -> hasId id z = false)
  /\ (forall z, In z l2 -> hasId id z = false)
  /\ hasId id x = true.
Proof.
  unfold uniqueIds. rewrite map_app. cbn [map]. intros Hnd <-.
  apply NoDup_remove_2 in Hnd. repeat split.
  - intros z Hz. apply hasId_false_iff. intros E. apply Hnd, in_or_app.
    left. rewrite <- E. apply in_map, Hz.
  - intros z Hz. apply hasId_false_iff. intros E. apply Hnd, in_or_app.
    right. rewrite <- E. apply in_map, Hz.
  - apply String.eqb_refl.
Qed.

End LayerFacts.

(** X9.  [deleteTextLayer(id)] removes every layer with that id and
    prunes the id from the selection: afterwards no layer and no
    selected id is [id], the other layers and selected ids are kept in
    their order, and background and canvas dimensions are untouched.
    Unique ids stay unique, a selection that named only layers of the
    document still does, and with unique ids a present layer makes the
    document exactly one layer shorter. *)
Theorem deleteTextLayer_removes_and_prunes :
  forall (id : string) (s : CanvasState.t),
    let s' := EditorLayers.deleteTextLayer id s in
    ~ In id (layerIds s')
    /\ ~ In id (CanvasState.selectedLayerIds s')
    /\ layerIds s' = filter (fun i => negb (String.eqb i id)) (layerIds s)
    /\ (forall l, In l (CanvasState.textLayers s')
                  <-> In l (CanvasState.textLayers s)
                      /\ TextLayerProperties.id l <> id)
    /\ (forall i, In i (CanvasState.selectedLayerIds s')
                  <-> In i (CanvasState.selectedLayerIds s) /\ i <> id)
    /\ CanvasState.backgroundImage s' = CanvasState.backgroundImage s
    /\ CanvasState.canvasDimensions s' = CanvasState.canvasDimensions s
    /\ (uniqueIds (CanvasState.textLayers s) ->
        uniqueIds (CanvasState.textLayers s'))
    /\ (incl (CanvasState.selectedLayerIds s) (layerIds s) ->
        incl (CanvasState.selectedLayerIds s') (layerIds s'))
    /\ (uniqueIds (CanvasState.textLayers s) -> In id (layerIds s) ->
        S (List.length (CanvasState.textLayers s'))
        = List.length (CanvasState.textLayers s)).
Proof.
  intros id s s'.
  assert (Hkeep : forall i, negb (String.eqb i id) = true <-> i <> id).
  { intros i. rewrite negb_true_iff. apply String.eqb_neq. }
  assert (Hids : layerIds s'
                 = filter (fun i => negb (String.eqb i id)) (layerIds s))
    by apply layerIds_delete.
  assert (Hsel : forall i, In i (CanvasState.selectedLayerIds s')
                           <-> In i (CanvasState.selectedLayerIds s) /\ i <> id).
  { intros i. subst s'. unfold EditorLayers.deleteTextLayer.
    cbn [CanvasState.selectedLayerIds]. rewrite filter_In, Hkeep. reflexivity. }
  split.
  { rewrite Hids, filter_In, Hkeep. intros [_ Hne]. apply Hne. reflexivity. }
  split.
  { rewrite Hsel. intros [_ Hne]. apply Hne. reflexivity. }
  split; [ exact Hids | ].
  split.
  { intros l. subst s'. unfold EditorLayers.deleteTextLayer.
    cbn [CanvasState.textLayers]. rewrite filter_In, Hkeep. reflexivity. }
  split; [ exact Hsel | ].
  split; [ reflexivity | ]. split; [ reflexivity | ].
  split.
  { unfold uniqueIds. fold (layerIds s) (layerIds s'). rewrite Hids.
    apply NoDup_filter. }
  split.
  { intros Hincl i Hi. apply Hsel in Hi as [Hi Hne].
    rewrite Hids, filter_In, Hkeep. split; [ apply Hincl, Hi | exact Hne ]. }
  intros Hunique Hin.
  rewrite <- (length_map TextLayerProperties.id (CanvasState.textLayers s')).
  rewrite <- (length_map TextLayerProperties.id (CanvasState.textLayers s)).
  fold (layerIds s) (layerIds s'). rewrite Hids.
  apply filter_out_length; assumption.
Qed.

(** X10.  The four reordering actions only reorder: the layers after
    [moveLayerUp], [moveLayerDown], [moveLayerToTop] or
    [moveLayerToBottom] are a permutation of the layers before, for
    every id and every document, and selection, background and canvas
    dimensions are the same. *)
Theorem moves_only_reorder :
  forall (id : string) (s : CanvasState.t) move,
    In move [EditorLayers.moveLayerUp; EditorLayers.moveLayerDown;
             EditorLayers.moveLayerToTop; EditorLayers.moveLayerToBottom] ->
    Permutation (CanvasState.textLayers s) (CanvasState.textLayers (move id s))
    /\ List.length (CanvasState.textLayers (move id s))
       = List.length (CanvasState.textLayers s)
    /\ (uniqueIds (CanvasState.textLayers s) ->
        uniqueIds (CanvasState.textLayers (move id s)))
    /\ CanvasState.selectedLayerIds (move id s)
       = CanvasState.selectedLayerIds s
    /\ CanvasState.backgroundImage (move id s) = CanvasState.backgroundImage s
    /\ CanvasState.canvasDimensions (move id s)
       = CanvasState.canvasDimensions s.
Proof.
  intros id s move Hmove.
  assert (Hperm : Permutation (CanvasState.textLayers s)
                              (CanvasState.textLayers (move id s))).
  { destruct (moves_permute id s) as (Hup & Hdown & Htop & Hbottom).
    destruct Hmove as [<- | [<- | [<- | [<- | []]]]]; assumption. }
  split; [ exact Hperm | ]. split.
  { symmetry. apply Permutation_length, Hperm. }
  split.
  { unfold uniqueIds. intros Hunique.
    apply (Permutation_NoDup (Permutation_map TextLayerProperties.id Hperm)),
      Hunique. }
  apply moves_keep_rest, Hmove.
Qed.

Lemma moves_only_reorder_witness :
  let s :=
    EditorSlice.addTextLayer "b" (EditorSlice.mkPatch (Some 50) None)
      (EditorSlice.addTextLayer "a" (EditorSlice.mkPatch (Some 10) None)
         EditorSlice.initialState) in
  Permutation (CanvasState.textLayers s)
              (CanvasState.textLayers (EditorLayers.moveLayerUp "a" s)).
Proof.
  cbv zeta.
  apply (moves_only_reorder "a"
           (EditorSlice.addTextLayer "b" (EditorSlice.mkPatch (Some 50) None)
              (EditorSlice.addTextLayer "a" (EditorSlice.mkPatch (Some 10) None)
                 EditorSlice.initialState))
           EditorLayers.moveLayerUp).
  left. reflexivity.
Defined.

(** X11.  In a document with unique ids, [moveLayerToTop(id)] takes
    the layer with that id out and puts it last, on top of the paint
    order, and [moveLayerToBottom(id)] puts it first: the other layers
    keep their order, as after [deleteTextLayer(id)]. *)
Theorem moveLayerToTop_and_Bottom_place :
  forall (id : string) (s : CanvasState.t) (layer : TextLayerProperties.t),
    uniqueIds (CanvasState.textLayers s) ->
    In layer (CanvasState.textLayers s) ->
    TextLayerProperties.id layer = id ->
    CanvasState.textLayers (EditorLayers.moveLayerToTop id s)
    = CanvasState.textLayers (EditorLayers.deleteTextLayer id s) ++ [layer]
    /\ CanvasState.textLayers (EditorLayers.moveLayerToBottom id s)
       = layer :: CanvasState.textLayers (EditorLayers.deleteTextLayer id s).
Proof.
  intros id s layer Hunique Hin Hid.
  destruct (in_split _ _ Hin) as (l1 & l2 & Hlayers).
  rewrite Hlayers in Hunique.
  destruct (unique_split id l1 layer l2 Hunique Hid) as (Hl1 & Hl2 & Hx).
  rewrite (moveLayerToTop_found id s l1 layer l2 Hlayers Hl1 Hx).
  rewrite (moveLayerToBottom_found id s l1 layer l2 Hlayers Hl1 Hx).
  unfold EditorLayers.deleteTextLayer, EditorLayers.withLayers.
  cbn [CanvasState.textLayers]. rewrite Hlayers.
  rewrite (filter_out_unique id l1 layer l2 Hl1 Hl2 Hx).
  split; [ apply app_assoc | reflexivity ].
Qed.

Lemma moveLayerToTop_witness :
  let s :=
    EditorSlice.addTextLayer "c" (EditorSlice.mkPatch None None)
      (EditorSlice.addTextLayer "b" (EditorSlice.mkPatch None None)
         (EditorSlice.addTextLayer "a" (EditorSlice.mkPatch None None)
            EditorSlice.initialState)) in
  CanvasState.textLayers (EditorLayers.moveLayerToTop "a" s)
  = CanvasState.textLayers (EditorLayers.deleteTextLayer "a" s)
    ++ [EditorSlice.newTextLayer "a"]
  /\ CanvasState.textLayers (EditorLayers.moveLayerToBottom "a" s)
     = EditorSlice.newTextLayer "a"
       :: CanvasState.textLayers (EditorLayers.deleteTextLayer "a" s).
Proof.
  cbv zeta.
  apply (moveLayerToTop_and_Bottom_place "a"
           (EditorSlice.addTextLayer "c" (EditorSlice.mkPatch None None)
              (EditorSlice.addTextLayer "b" (EditorSlice.mkPatch None None)
                 (EditorSlice.addTextLayer "a" (EditorSlice.mkPatch None None)
                    EditorSlice.initialState)))
           (EditorSlice.newTextLayer "a")).
  - vm_compute. repeat constructor; cbn [In]; intuition discriminate.
  - left. reflexivity.
  - reflexivity.
Defined.

(** X12.  In a document with unique ids whose layer at [index] has id
    [id]: if it is not the top layer, [moveLayerUp(id)] takes it to
    [index + 1] and [moveLayerDown(id)] after that gives the document
    back; if it is not the bottom layer, [moveLayerDown(id)] takes it to
    [index - 1] and [moveLayerUp(id)] after that gives the document
    back. *)
Theorem moveLayerUp_Down_roundtrip :
  forall (id : string) (s : CanvasState.t) (index : nat),
    uniqueIds (CanvasState.textLayers s) ->
    nth_error (layerIds s) index = Some id ->
    ((S index < List.length (CanvasState.textLayers s))%nat ->
     nth_error (layerIds (EditorLayers.moveLayerUp id s)) (S index) = Some id
     /\ EditorLayers.moveLayerDown id (EditorLayers.moveLayerUp id s) = s)
    /\ ((0 < index)%nat ->
        nth_error (layerIds (EditorLayers.moveLayerDown id s)) (index - 1)
        = Some id
        /\ EditorLayers.moveLayerUp id (EditorLayers.moveLayerDown id s) = s).
Proof.
  intros id s index Hunique Hnth.
  unfold layerIds in Hnth. rewrite nth_error_map in Hnth.
  destruct (nth_error (CanvasState.textLayers s) index) as [x | ] eqn:Hx;
    [ | discriminate ].
  cbn [option_map] in Hnth. injection Hnth as Hid.
  destruct (split_at_index _ _ _ Hx) as (Hlayers & Hlen1 & Hlen2).
  remember (firstn index (CanvasState.textLayers s)) as l1 eqn:El1.
  remember (skipn (S index) (CanvasState.textLayers s)) as l2 eqn:El2.
  clear El1 El2.
  pose proof Hunique as Hunique'. rewrite Hlayers in Hunique'.
  destruct (unique_split id l1 x l2 Hunique' Hid) as (Hl1 & Hl2 & Hhas).
  split.
  - intros Hnottop.
    destruct l2 as [ | y l2' ]; [ cbn [List.length] in Hlen2; lia | ].
    rewrite (moveLayerUp_swap id s l1 x y l2' Hlayers Hl1 Hhas).
    split.
    + unfold layerIds, EditorLayers.withLayers. cbn [CanvasState.textLayers].
      rewrite nth_error_map.
      replace (l1 ++ y :: x :: l2') with ((l1 ++ [y]) ++ x :: l2')
        by (rewrite <- app_assoc; reflexivity).
      rewrite nth_error_app2 by (rewrite length_app; cbn [List.length]; lia).
      rewrite length_app. cbn [List.length].
      replace (S index - (List.length l1 + 1))%nat with 0%nat by lia.
      cbn [nth_error option_map]. now rewrite Hid.
    + rewrite (moveLayerDown_swap id _ l1 y x l2').
      * rewrite withLayers_twice, <- Hlayers. apply withLayers_same.
      * reflexivity.
      * exact Hl1.
      * apply Hl2. left. reflexivity.
      * exact Hhas.
  - intros Hnotbottom.
    destruct l1 as [ | y l1' _ ] using rev_ind;
      [ cbn [List.length] in Hlen1; lia | ].
    rewrite <- app_assoc in Hlayers. cbn [app] in Hlayers.
    rewrite length_app in Hlen1. cbn [List.length] in Hlen1.
    assert (Hl1' : forall z, In z l1' -> EditorLayers.hasId id z = false).
    { intros z Hz. apply Hl1, in_or_app. left. exact Hz. }
    assert (Hy : EditorLayers.hasId id y = false).
    { apply Hl1, in_or_app. right. left. reflexivity. }
    rewrite (moveLayerDown_swap id s l1' y x l2 Hlayers Hl1' Hy Hhas).
    split.
    + unfold layerIds, EditorLayers.withLayers. cbn [CanvasState.textLayers].
      rewrite nth_error_map, nth_error_app2 by lia.
      replace (index - 1 - List.length l1')%nat with 0%nat by lia.
      cbn [nth_error option_map]. now rewrite Hid.
    + rewrite (moveLayerUp_swap id _ l1' x y l2).
      * rewrite withLayers_twice, <- Hlayers. apply withLayers_same.
      * reflexivity.
      * exact Hl1'.
      * exact Hhas.
Qed.

Lemma moveLayerUp_Down_witness :
  let s :=
    EditorSlice.addTextLayer "b" (EditorSlice.mkPatch (Some 50) None)
      (EditorSlice.addTextLayer "a" (EditorSlice.mkPatch (Some 10) None)
         EditorSlice.initialState) in
  nth_error (layerIds (EditorLayers.moveLayerUp "a" s)) 1 = Some "a"
  /\ EditorLayers.moveLayerDown "a" (EditorLayers.moveLayerUp "a" s) = s.
Proof.
  cbv zeta.
  apply (moveLayerUp_Down_roundtrip "a"
           (EditorSlice.addTextLayer "b" (EditorSlice.mkPatch (Some 50) None)
              (EditorSlice.addTextLayer "a" (EditorSlice.mkPatch (Some 10) None)
                 EditorSlice.initialState))
           0%nat).
  - vm_compute. repeat constructor; cbn [In]; intuition discriminate.
  - reflexivity.
  - vm_compute. lia.
Defined.

(** X13.  An id that no layer of the document has is ignored:
    [updateTextLayer], [toggleLayerLock] and the four moves return the
    store as it was, and [deleteTextLayer] leaves every layer in
    place. *)
Theorem absent_id_is_ignored :
  forall (id : string) (s : CanvasState.t) (properties : EditorSlice.LayerPatch),
    ~ In id (layerIds s) ->
    EditorSlice.updateTextLayer id properties s = s
    /\ EditorLayers.toggleLayerLock id s = s
    /\ EditorLayers.moveLayerUp id s = s
    /\ EditorLayers.moveLayerDown id s = s
    /\ EditorLayers.moveLayerToTop id s = s
    /\ EditorLayers.moveLayerToBottom id s = s
    /\ CanvasState.textLayers (EditorLayers.deleteTextLayer id s)
       = CanvasState.textLayers s.
Proof.
  intros id s properties Habsent.
  pose proof (absent_hasId id s Habsent) as Hnone.
  split.
  { unfold EditorSlice.updateTextLayer.
    replace (map (fun layer =>
                    if String.eqb (TextLayerProperties.id layer) id
                    then EditorSlice.spread layer properties
                    else layer)
                 (CanvasState.textLayers s))
      with (CanvasState.textLayers s).
    - destruct s; reflexivity.
    - symmetry.
      apply (map_if_absent (fun l => EditorSlice.spread l properties) id _ Hnone). }
  split.
  { unfold EditorLayers.toggleLayerLock.
    rewrite (map_if_absent EditorLayers.withLockToggled id _ Hnone).
    apply withLayers_same. }
  destruct (moves_absent id s Hnone) as (Hup & Hdown & Htop & Hbottom).
  repeat split; try assumption.
  unfold EditorLayers.deleteTextLayer. cbn [CanvasState.textLayers].
  induction (CanvasState.textLayers s) as [ | l layers IH ]; [ reflexivity | ].
  cbn [filter]. pose proof (Hnone l (or_introl eq_refl)) as Hl.
  unfold EditorLayers.hasId in Hl. rewrite Hl. cbn [negb]. f_equal.
  apply IH. intros z Hz. apply Hnone. right. exact Hz.
Qed.

Lemma absent_id_witness :
  let s :=
    EditorSlice.addTextLayer "a" (EditorSlice.mkPatch (Some 10) None)
                             EditorSlice.initialState in
  EditorSlice.updateTextLayer "zz" (EditorSlice.mkPatch (Some 1) (Some 2)) s = s
  /\ EditorLayers.toggleLayerLock "zz" s = s
  /\ EditorLayers.moveLayerUp "zz" s = s
  /\ EditorLayers.moveLayerDown "zz" s = s
  /\ EditorLayers.moveLayerToTop "zz" s = s
  /\ EditorLayers.moveLayerToBottom "zz" s = s
  /\ CanvasState.textLayers (EditorLayers.deleteTextLayer "zz" s)
     = CanvasState.textLayers s.
Proof.
  cbv zeta.
  apply (absent_id_is_ignored "zz"
           (EditorSlice.addTextLayer "a" (EditorSlice.mkPatch (Some 10) None)
                                     EditorSlice.initialState)
           (EditorSlice.mkPatch (Some 1) (Some 2))).
  vm_compute. intuition discriminate.
Defined.

(** X14.  [toggleLayerLock(id)] flips whether the layers with that id
    count as locked and changes nothing else: ids and order, the lock of
    the other layers, selection, background and canvas dimensions are
    the same.  Two toggles give every layer the lock state it had, and a
    third toggle undoes a second exactly. *)
Theorem toggleLayerLock_flips :
  forall (id : string) (s : CanvasState.t),
    let once := EditorLayers.toggleLayerLock id s in
    let twice := EditorLayers.toggleLayerLock id once in
    layerIds once = layerIds s
    /\ map isLocked (CanvasState.textLayers once)
       = map (fun l => if EditorLayers.hasId id l
                       then negb (isLocked l) else isLocked l)
             (CanvasState.textLayers s)
    /\ Forall2 (fun old new =>
                  if EditorLayers.hasId id old
                  then new = EditorLayers.withLockToggled old
                  else new = old)
               (CanvasState.textLayers s) (CanvasState.textLayers once)
    /\ map isLocked (CanvasState.textLayers twice)
       = map isLocked (CanvasState.textLayers s)
    /\ EditorLayers.toggleLayerLock id twice = once
    /\ CanvasState.selectedLayerIds once = CanvasState.selectedLayerIds s
    /\ CanvasState.backgroundImage once = CanvasState.backgroundImage s
    /\ CanvasState.canvasDimensions once = CanvasState.canvasDimensions s.
Proof.
  intros id s once twice.
  assert (Hflip : forall l,
             isLocked (EditorLayers.withLockToggled l) = negb (isLocked l)).
  { intros l. unfold isLocked.
    change (EditorLayers.notLocked (EditorLayers.withLockToggled l))
      with (if EditorLayers.notLocked l then false else true).
    destruct (EditorLayers.notLocked l); reflexivity. }
  assert (Hthrice : forall l,
             EditorLayers.withLockToggled
               (EditorLayers.withLockToggled (EditorLayers.withLockToggled l))
             = EditorLayers.withLockToggled l).
  { intros l. destruct l as [? ? ? ? ? ? ? ? ? ? ? ? ? ? ? ? ? ? [[ | ] | ]];
      reflexivity. }
  assert (Hkeep : forall l,
             EditorLayers.hasId id (EditorLayers.withLockToggled l)
             = EditorLayers.hasId id l) by reflexivity.
  split; [ apply layerIds_toggle | ].
  split.
  { subst once. unfold EditorLayers.toggleLayerLock, EditorLayers.withLayers.
    cbn [CanvasState.textLayers]. rewrite map_map. apply map_ext.
    intros l. destruct (EditorLayers.hasId id l); [ apply Hflip | reflexivity ]. }
  split.
  { subst once. unfold EditorLayers.toggleLayerLock, EditorLayers.withLayers.
    cbn [CanvasState.textLayers]. apply Forall2_map_right.
    intros l _. destruct (EditorLayers.hasId id l); reflexivity. }
  split.
  { subst twice once.
    unfold EditorLayers.toggleLayerLock, EditorLayers.withLayers.
    cbn [CanvasState.textLayers]. rewrite !map_map. apply map_ext.
    intros l. destruct (EditorLayers.hasId id l) eqn:Hl.
    - rewrite Hkeep, Hl, !Hflip. apply negb_involutive.
    - rewrite Hl. reflexivity. }
  split.
  { subst twice once.
    unfold EditorLayers.toggleLayerLock, EditorLayers.withLayers.
    cbn [CanvasState.textLayers CanvasState.backgroundImage
         CanvasState.selectedLayerIds CanvasState.canvasDimensions].
    f_equal. rewrite !map_map. apply map_ext.
    intros l. destruct (EditorLayers.hasId id l) eqn:Hl.
    - rewrite Hkeep, Hl, !Hkeep, Hl. apply Hthrice.
    - rewrite Hl, Hl. reflexivity. }
  repeat split.
Qed.

Section DocumentInvariant.

(** Unique layer ids, and a selection that names layers of the
    document. *)
Let wellFormed (s : CanvasState.t) : Prop :=
  uniqueIds (CanvasState.textLayers s)
  /\ incl (CanvasState.selectedLayerIds s) (layerIds s).

Lemma wellFormed_of_same_layers s s' :
  wellFormed s ->
  layerIds s' = layerIds s ->
  CanvasState.selectedLayerIds s' = CanvasState.selectedLayerIds s ->
  wellFormed s'.
Proof.
  unfold wellFormed, uniqueIds. fold (layerIds s) (layerIds s').
  intros [Hunique Hincl] -> ->. split; assumption.
Qed.

Lemma wellFormed_of_move s id move :
  In move [EditorLayers.moveLayerUp; EditorLayers.moveLayerDown;
           EditorLayers.moveLayerToTop; EditorLayers.moveLayerToBottom] ->
  wellFormed s -> wellFormed (move id s).
Proof.
  unfold wellFormed, uniqueIds, layerIds. intros Hmove [Hunique Hincl].
  assert (Hperm : Permutation (CanvasState.textLayers s)
                              (CanvasState.textLayers (move id s))).
  { destruct (moves_permute id s) as (Hup & Hdown & Htop & Hbottom).
    destruct Hmove as [<- | [<- | [<- | [<- | []]]]]; assumption. }
  destruct (moves_keep_rest id s move Hmove) as (Hsel & _ & _).
  pose proof (Permutation_map TextLayerProperties.id Hperm) as Hids.
  split.
  - apply (Permutation_NoDup Hids), Hunique.
  - rewrite Hsel. intros i Hi. apply (Permutation_in _ Hids), Hincl, Hi.
Qed.

Lemma reachable_wellFormed s : Reachable s -> wellFormed s.
Proof.
  induction 1 as
    [ | id layer s _ IH Hfresh | id properties s _ IH | id s _ IH | id s _ IH
      | id s _ IH | id s _ IH | id s _ IH | id s _ IH
      | id s _ IH Hin | ids s _ IH Hincl | s _ IH
      | image s _ IH | s _ IH | width height s _ IH | s _ IH
      | snapshot s _ IHsnapshot _ _ ].
  - split; [ constructor | intros i [] ].
  - destruct IH as [Hunique _]. unfold wellFormed, uniqueIds, layerIds in *.
    cbn [EditorSlice.addTextLayer CanvasState.textLayers
         CanvasState.selectedLayerIds].
    rewrite map_app. cbn [map]. split.
    + apply NoDup_app_remove_l with (l := []). cbn [app].
      apply (Permutation_NoDup (l := TextLayerProperties.id
                                        (EditorSlice.spread
                                           (EditorSlice.newTextLayer id) layer)
                                      :: map TextLayerProperties.id
                                           (CanvasState.textLayers s))).
      * apply Permutation_cons_append.
      * constructor; assumption.
    + intros i [<- | []]. apply in_or_app. right. left. reflexivity.
  - apply (wellFormed_of_same_layers s); [ exact IH | | reflexivity ].
    apply layerIds_update.
  - destruct IH as [Hunique Hincl]. unfold wellFormed, uniqueIds in *.
    fold (layerIds s) in Hunique.
    fold (layerIds (EditorLayers.deleteTextLayer id s)).
    rewrite layerIds_delete. split; [ apply NoDup_filter, Hunique | ].
    intros i Hi. cbn [EditorLayers.deleteTextLayer CanvasState.selectedLayerIds]
      in Hi.
    apply filter_In in Hi as [Hi Hkeep].
    apply filter_In. split; [ apply Hincl, Hi | exact Hkeep ].
  - apply (wellFormed_of_same_layers s); [ exact IH | | reflexivity ].
    apply layerIds_toggle.
  - apply wellFormed_of_move; [ cbn; auto | exact IH ].
  - apply wellFormed_of_move; [ cbn; auto | exact IH ].
  - apply wellFormed_of_move; [ cbn; auto | exact IH ].
  - apply wellFormed_of_move; [ cbn; auto 6 | exact IH ].
  - destruct IH as [Hunique _]. split; [ exact Hunique | ].
    intros i [<- | []]. exact Hin.
  - destruct IH as [Hunique _]. split; [ exact Hunique | exact Hincl ].
  - destruct IH as [Hunique _]. split; [ exact Hunique | intros i [] ].
  - exact IH.
  - exact IH.
  - exact IH.
  - split; [ constructor | intros i [] ].
  - rewrite importState_eq. exact IHsnapshot.
Qed.

End DocumentInvariant.

(** X15.  Every document that the actions of the editor store build
    from the initial one, with fresh ids for new layers and selections
    that name layers of the document, has unique layer ids and a
    selection that names only layers of the document: adding, updating,
    deleting, locking, reordering, selecting, resetting and importing a
    snapshot keep both. *)
Theorem reachable_documents_are_well_formed :
  forall s : CanvasState.t,
    Reachable s ->
    uniqueIds (CanvasState.textLayers s)
    /\ incl (CanvasState.selectedLayerIds s) (layerIds s).
Proof. intros s Hreach. apply reachable_wellFormed, Hreach. Qed.

Lemma reachable_documents_witness :
  let s :=
    EditorLayers.deleteTextLayer "a"
      (EditorLayers.moveLayerToTop "a"
         (EditorSlice.addTextLayer "b" (EditorSlice.mkPatch (Some 50) None)
            (EditorSlice.addTextLayer "a" (EditorSlice.mkPatch (Some 10) None)
               EditorSlice.initialState))) in
  uniqueIds (CanvasState.textLayers s)
  /\ incl (CanvasState.selectedLayerIds s) (layerIds s).
Proof.
  cbv zeta.
  apply (reachable_documents_are_well_formed
           (EditorLayers.deleteTextLayer "a"
              (EditorLayers.moveLayerToTop "a"
                 (EditorSlice.addTextLayer "b"
                    (EditorSlice.mkPatch (Some 50) None)
                    (EditorSlice.addTextLayer "a"
                       (EditorSlice.mkPatch (Some 10) None)
                       EditorSlice.initialState))))).
  apply reach_deleteTextLayer, reach_moveLayerToTop.
  apply reach_addTextLayer.
  - apply reach_addTextLayer; [ apply reach_initial | ].
    vm_compute. intuition.
  - vm_compute. intuition discriminate.
Defined.

(* ================================================================== *)
(** * Further properties of the export *)

Section ExportOutcome.

Import ExportPng.

Ltac export_cases :=
  repeat match goal with
    | |- context [ match toDataURL ?c ?o with _ => _ end ] =>
        destruct (toDataURL c o)
    | |- context [ if ?c then _ else _ ] => destruct c
    end.

(** Whatever its arguments, [exportToPng] only warns, logs and calls
    [toDataURL], at most once. *)
Lemma exportToPng_events canvas backgroundImage :
  forallb isExportInternal (fst (exportToPng canvas backgroundImage)) = true
  /\ (List.length
        (filter isCallToDataURL (fst (exportToPng canvas backgroundImage)))
      <= 1)%nat.
Proof.
  unfold exportToPng, exportTry.
  destruct canvas as [canvas | ]; [ | split; [ reflexivity | cbn; lia ] ].
  destruct backgroundImage as [backgroundImage | ];
    [ | split; [ reflexivity | cbn; lia ] ].
  export_cases; split; try reflexivity; cbn; lia.
Qed.

Lemma filter_none_of_internal (keep : Event -> bool) (events : list Event) :
  (forall ev, isExportInternal ev = true -> keep ev = false) ->
  forallb isExportInternal events = true ->
  filter keep events = [].
Proof.
  intros Hkeep. induction events as [ | ev events IH ]; [ reflexivity | ].
  cbn [forallb filter]. intros Hall.
  apply andb_true_iff in Hall as [Hev Hrest].
  rewrite (Hkeep ev Hev). apply IH, Hrest.
Qed.

(** The outcome of [handleExport], by how [exportToPng] settled. *)
Lemma handleExport_outcome canvas backgroundImage now :
  let trace := handleExport (Some canvas) (Some backgroundImage) now in
  match snd (exportToPng (Some canvas) (Some backgroundImage)) with
  | Resolved dataUrl =>
      filter isDownload trace = [DownloadPng dataUrl (exportFilename now)]
      /\ filter isShowError trace = []
      /\ List.length (filter isShowSuccess trace) = 1%nat
  | Rejected message =>
      filter isDownload trace = []
      /\ filter isShowError trace
         = [ShowError "Export failed"
              (message ++ " Please try again or try with a smaller image.")%string]
      /\ filter isShowSuccess trace = []
  end
  /\ filter isSetIsExporting trace = [SetIsExporting true; SetIsExporting false]
  /\ hd_error trace = Some (SetIsExporting true)
  /\ last trace (SetIsExporting true) = SetIsExporting false.
Proof.
  cbv zeta. unfold handleExport.
  destruct (exportToPng_events (Some canvas) (Some backgroundImage))
    as [Hinternal _].
  destruct (exportToPng (Some canvas) (Some backgroundImage))
    as [events settled].
  cbn [fst snd] in *.
  assert (Hquiet : forall keep,
             (forall ev, isExportInternal ev = true -> keep ev = false) ->
             filter keep events = []).
  { intros keep Hkeep. apply filter_none_of_internal; assumption. }
  assert (Hd : filter isDownload events = [])
    by (apply Hquiet; intros [ ]; (discriminate || reflexivity)).
  assert (He : filter isShowError events = [])
    by (apply Hquiet; intros [ ]; (discriminate || reflexivity)).
  assert (Hs : filter isShowSuccess events = [])
    by (apply Hquiet; intros [ ]; (discriminate || reflexivity)).
  assert (Hx : filter isSetIsExporting events = [])
    by (apply Hquiet; intros [ ]; (discriminate || reflexivity)).
  split; [ | split; [ | split ] ].
  - destruct settled as [dataUrl | message];
      cbn [app filter isDownload isShowError isShowSuccess];
      rewrite !filter_app, ?Hd, ?He, ?Hs; repeat split.
  - cbn [app filter isSetIsExporting]. rewrite !filter_app, Hx.
    destruct settled; reflexivity.
  - reflexivity.
  - cbn [app]. rewrite !app_assoc.
    change (?l ++ [SetIsExporting false]) with (l ++ [SetIsExporting false]).
    match goal with
    | |- last (_ :: _ :: ?l ++ [?x]) _ = _ =>
        change (last (SetIsExporting true
                        :: ShowWarning "Export started"
                             "Generating high-resolution PNG... This may take a moment for large images."
                        :: l ++ [x]) (SetIsExporting true))
          with (last ((SetIsExporting true
                         :: ShowWarning "Export started"
                              "Generating high-resolution PNG... This may take a moment for large images."
                         :: l) ++ [x]) (SetIsExporting true));
        apply last_last
    end.
Qed.

End ExportOutcome.

(** X16.  For every canvas, background image and clock reading,
    [handleExport] sets [isExporting] to true first and to false last,
    and [toDataURL] is called at most once.  If [exportToPng] resolves,
    exactly one download is triggered, with the resolved data URL and
    the file name of the clock reading, with one success notification
    and no error notification.  If it rejects, nothing is downloaded and
    exactly one error notification is shown, titled [Export failed],
    whose text is the message of the rejection followed by the hint to
    try again. *)
Theorem handleExport_downloads_iff_resolved :
  forall (canvas : ExportPng.FabricCanvas) (backgroundImage : BackgroundImage.t)
         (now : Z),
    let trace :=
      ExportPng.handleExport (Some canvas) (Some backgroundImage) now in
    match snd (ExportPng.exportToPng (Some canvas) (Some backgroundImage)) with
    | ExportPng.Resolved dataUrl =>
        filter ExportPng.isDownload trace
        = [ExportPng.DownloadPng dataUrl (ExportPng.exportFilename now)]
        /\ filter isShowError trace = []
        /\ List.length (filter isShowSuccess trace) = 1%nat
    | ExportPng.Rejected message =>
        filter ExportPng.isDownload trace = []
        /\ filter isShowError trace
           = [ExportPng.ShowError "Export failed"
                (message ++ " Please try again or try with a smaller image.")%string]
        /\ filter isShowSuccess trace = []
    end
    /\ filter isSetIsExporting trace
       = [ExportPng.SetIsExporting true; ExportPng.SetIsExporting false]
    /\ hd_error trace = Some (ExportPng.SetIsExporting true)
    /\ last trace (ExportPng.SetIsExporting true)
       = ExportPng.SetIsExporting false
    /\ (List.length (filter ExportPng.isCallToDataURL trace) <= 1)%nat.
Proof.
  intros canvas backgroundImage now trace.
  destruct (handleExport_outcome canvas backgroundImage now)
    as (Hsettled & Hflag & Hfirst & Hlast).
  split; [ exact Hsettled | ]. split; [ exact Hflag | ].
  split; [ exact Hfirst | ]. split; [ exact Hlast | ].
  subst trace. unfold ExportPng.handleExport.
  destruct (exportToPng_events (Some canvas) (Some backgroundImage))
    as [_ Hcalls].
  destruct (ExportPng.exportToPng (Some canvas) (Some backgroundImage))
    as [events settled].
  cbn [fst] in Hcalls.
  cbn [app filter ExportPng.isCallToDataURL].
  rewrite !filter_app, !length_app.
  destruct settled; cbn [filter ExportPng.isCallToDataURL List.length]; lia.
Qed.

(** X17.  When a dimension of the background image or of the canvas
    is zero or negative, [exportToPng] rejects without calling
    [toDataURL]: with the message about the image when the image is at
    fault, and else with the message about the canvas; [handleExport]
    then downloads nothing. *)
Theorem export_rejects_invalid_dimensions :
  forall (canvas : ExportPng.FabricCanvas) (backgroundImage : BackgroundImage.t)
         (now : Z),
    let imgWidth :=
      ImageDimensions.width (BackgroundImage.dimensions backgroundImage) in
    let imgHeight :=
      ImageDimensions.height (BackgroundImage.dimensions backgroundImage) in
    (imgWidth <= 0 \/ imgHeight <= 0
     \/ ExportPng.getWidth canvas <= 0 \/ ExportPng.getHeight canvas <= 0)%Q ->
    let message :=
      if Qle_bool imgWidth 0 || Qle_bool imgHeight 0
      then "Invalid background image dimensions"
      else "Invalid canvas dimensions" in
    ExportPng.exportToPng (Some canvas) (Some backgroundImage)
    = ([ExportPng.ConsoleError "Export failed:" (Js.Error message)],
       ExportPng.Rejected message)
    /\ filter ExportPng.isDownload
         (ExportPng.handleExport (Some canvas) (Some backgroundImage) now)
       = [].
Proof.
  intros canvas backgroundImage now imgWidth imgHeight Hbad message.
  assert (Hinvalid : forall x y,
             ExportPng.invalidDimensions x y = Qle_bool x 0 || Qle_bool y 0).
  { intros x y. unfold ExportPng.invalidDimensions, Js.isZero, Js.leb.
    destruct (Qle_bool x 0) eqn:Hx, (Qle_bool y 0) eqn:Hy;
      rewrite ?orb_true_r, ?orb_false_r; try reflexivity.
    destruct (Qeq_bool x 0) eqn:Ex.
    - apply Qeq_bool_iff in Ex.
      assert (Qle_bool x 0 = true) by (apply Qle_bool_iff; lra). congruence.
    - destruct (Qeq_bool y 0) eqn:Ey; [ | reflexivity ].
      apply Qeq_bool_iff in Ey.
      assert (Qle_bool y 0 = true) by (apply Qle_bool_iff; lra). congruence. }
  assert (Hexport :
    ExportPng.exportToPng (Some canvas) (Some backgroundImage)
    = ([ExportPng.ConsoleError "Export failed:" (Js.Error message)],
       ExportPng.Rejected message)).
  { unfold ExportPng.exportToPng, ExportPng.exportTry.
    fold imgWidth imgHeight. rewrite !Hinvalid. subst message.
    destruct (Qle_bool imgWidth 0 || Qle_bool imgHeight 0) eqn:Himg;
      [ reflexivity | ].
    apply orb_false_iff in Himg as [Hw Hh].
    assert (Hcanvas : Qle_bool (ExportPng.getWidth canvas) 0
                      || Qle_bool (ExportPng.getHeight canvas) 0 = true).
    { apply orb_true_iff.
      destruct Hbad as [Hb | [Hb | [Hb | Hb]]];
        apply Qle_bool_iff in Hb; try congruence; auto. }
    rewrite Hcanvas. reflexivity. }
  split; [ exact Hexport | ].
  pose proof (handleExport_outcome canvas backgroundImage now) as Hout.
  cbv zeta in Hout. rewrite Hexport in Hout. cbn [snd] in Hout.
  apply Hout.
Qed.

Lemma export_rejects_invalid_witness :
  ExportPng.exportToPng
    (Some (ExportPng.mkCanvas 0 600
             (fun _ => Js.Ok "data:image/png;base64,iVBORw0KGgo=")))
    (Some (BackgroundImage.mk "blob:bg" (Some (FileObject "bg.png"))
                              (ImageDimensions.mk 400 300 (4 # 3))))
  = ([ExportPng.ConsoleError "Export failed:"
        (Js.Error "Invalid canvas dimensions")],
     ExportPng.Rejected "Invalid canvas dimensions").
Proof.
  apply (export_rejects_invalid_dimensions
           (ExportPng.mkCanvas 0 600
              (fun _ => Js.Ok "data:image/png;base64,iVBORw0KGgo="))
           (BackgroundImage.mk "blob:bg" (Some (FileObject "bg.png"))
                               (ImageDimensions.mk 400 300 (4 # 3)))
           1700000000000).
  right. right. left. vm_compute. discriminate.
Defined.

(** X19.  After [img.onload] of the uploader for an image of [width]
    by [height] pixels, both positive, the store holds the image as
    background, the canvas dimensions are those of the image, and layers
    and selection are as before; the snapshot of that state is the new
    present of the history.  A Fabric canvas made with these canvas
    dimensions is exported with multiplier 1, at exactly [width] by
    [height]. *)
Theorem upload_then_export_native :
  forall (src fileName : string) (width height now : Z) (w : World)
         (toDataURL : ExportPng.ToDataURLOptions -> Js.Result string),
    (0 < width)%Z -> (0 < height)%Z ->
    let w' := snd (ImageUploader.onImageLoad src fileName width height now w) in
    let backgroundImage :=
      ImageUploader.backgroundOf src (FileObject fileName) width height in
    let canvas :=
      CanvasComponent.newFabricCanvas
        (CanvasState.canvasDimensions (editor w')) toDataURL in
    CanvasState.backgroundImage (editor w') = Some backgroundImage
    /\ CanvasState.canvasDimensions (editor w')
       = Dimensions.mk (inject_Z width) (inject_Z height)
    /\ CanvasState.textLayers (editor w') = CanvasState.textLayers (editor w)
    /\ CanvasState.selectedLayerIds (editor w')
       = CanvasState.selectedLayerIds (editor w)
    /\ option_map HistoryAction.state (HistoryState.present (history w'))
       = Some (Json.deepClone (editor w'))
    /\ (ExportPng.computeMultiplier canvas backgroundImage == 1)%Q
    /\ (ExportPng.exportWidth canvas backgroundImage == inject_Z width)%Q
    /\ (ExportPng.exportHeight canvas backgroundImage == inject_Z height)%Q.
Proof.
  intros src fileName width height now w toDataURL Hw Hh w' backgroundImage
         canvas.
  assert (Hwq : (0 < inject_Z width)%Q)
    by (change 0%Q with (inject_Z 0); rewrite <- Zlt_Qlt; exact Hw).
  assert (Hhq : (0 < inject_Z height)%Q)
    by (change 0%Q with (inject_Z 0); rewrite <- Zlt_Qlt; exact Hh).
  repeat (split; [ reflexivity | ]).
  assert (Hsame :
    (ExportPng.exportWidth canvas backgroundImage == inject_Z width)%Q
    /\ (ExportPng.exportHeight canvas backgroundImage == inject_Z height)%Q).
  { apply (export_matches_same_ratio canvas backgroundImage);
      [ exact Hwq | exact Hhq | ].
    change (inject_Z width * inject_Z height
            == inject_Z height * inject_Z width)%Q.
    apply Qmult_comm. }
  split; [ | exact Hsame ].
  unfold ExportPng.computeMultiplier.
  subst canvas backgroundImage w'.
  cbn [ImageUploader.backgroundOf BackgroundImage.dimensions
       ImageDimensions.width ImageDimensions.height
       CanvasComponent.newFabricCanvas ExportPng.getWidth ExportPng.getHeight
       ImageUploader.onImageLoad snd editor EditorSlice.setBackgroundImage
       EditorSlice.setCanvasDimensions CanvasState.canvasDimensions
       Dimensions.width Dimensions.height].
  assert (Hone : forall x : Q, (0 < x)%Q -> (x / x == 1)%Q).
  { intros x Hx. field. intros E. rewrite E in Hx. exact (Qlt_irrefl _ Hx). }
  destruct (max_cases (inject_Z width / inject_Z width)
                      (inject_Z height / inject_Z height)) as [-> | ->];
    apply Hone; assumption.
Qed.

Lemma upload_then_export_witness :
  let w' :=
    snd (ImageUploader.onImageLoad "blob:bg" "bg.png" 400 300 1700000000000
                                   initialWorld) in
  (ExportPng.computeMultiplier
     (CanvasComponent.newFabricCanvas
        (CanvasState.canvasDimensions (editor w'))
        (fun _ => Js.Ok "data:image/png;base64,iVBORw0KGgo="))
     (ImageUploader.backgroundOf "blob:bg" (FileObject "bg.png") 400 300)
   == 1)%Q.
Proof.
  cbv zeta.
  apply (upload_then_export_native "blob:bg" "bg.png" 400 300 1700000000000
           initialWorld
           (fun _ => Js.Ok "data:image/png;base64,iVBORw0KGgo="));
    reflexivity.
Defined.

(* ================================================================== *)
(** * Further properties of the handlers *)

Section Handlers.

Lemma undo_after_pushCurrent now description w p :
  HistoryState.present (history w) = Some p ->
  (2 <= HistoryState.maxHistorySize (history w))%Z ->
  HistorySlice.undo (LayerPanel.pushCurrent now description w)
  = Js.Ok (mkWorld (HistoryAction.state p)
             (HistoryState.mk
                (keepLast (Z.to_nat (HistoryState.maxHistorySize (history w) - 2))
                          (HistoryState.past (history w)))
                (Some p)
                [HistoryAction.mk now description (Json.deepClone (editor w))]
                (HistoryState.maxHistorySize (history w)))).
Proof.
  destruct w as [e [ps pr fs m]].
  cbn [history editor HistoryState.present HistoryState.maxHistorySize
       HistoryState.past].
  intros -> Hm. unfold LayerPanel.pushCurrent. cbn [editor history].
  pose proof (pushHistory_past_keepLast now description e ps p fs m Hm) as Hpast.
  assert (Hpushed :
    HistorySlice.pushHistory now description e
      (HistoryState.mk ps (Some p) fs m)
    = HistoryState.mk (keepLast (Z.to_nat (m - 2)) ps ++ [p])
        (Some (HistoryAction.mk now description (Json.deepClone e))) [] m).
  { unfold HistorySlice.pushHistory in *.
    cbn [HistoryState.past HistoryState.present HistoryState.maxHistorySize]
      in *.
    rewrite Hpast. reflexivity. }
  rewrite Hpushed. apply undo_snoc.
Qed.

(** Every action is a change of the document followed by a push of the
    changed document, except a drag of an object without layer id. *)
Lemma perform_pushes action now w :
  match action with
  | DragLayer id _ _ => id <> EmptyString
  | _ => True
  end ->
  exists description,
    perform action now w
    = LayerPanel.pushCurrent now description
        (mkWorld (editor (perform action now w)) (history w)).
Proof.
  destruct action as [id | id | id direction | id | id x y]; intros Hid;
    cbn [perform]; try (eexists; reflexivity).
  unfold CanvasEvents.onObjectMoved.
  apply String.eqb_neq in Hid. rewrite Hid. eexists. reflexivity.
Qed.

End Handlers.

(** X22.  Every action of the layer panel (add, delete, move, lock)
    and every drag of a layer on the canvas can be undone: performed on
    a store whose present is [p], it makes the snapshot of the changed
    document the present, with an empty future, and one [undo] afterwards
    puts [p] back as the present and its snapshot into the Document
    Store, so that the layers, the selection and the canvas dimensions
    are those before the action whenever [p] was the snapshot of the
    document then. *)
Theorem user_actions_can_be_undone :
  forall (action : UserAction) (now : Z) (w : World) (p : HistoryAction.t),
    HistoryState.present (history w) = Some p ->
    (2 <= HistoryState.maxHistorySize (history w))%Z ->
    match action with
    | DragLayer id _ _ => id <> EmptyString
    | _ => True
    end ->
    let w' := perform action now w in
    option_map HistoryAction.state (HistoryState.present (history w'))
    = Some (Json.deepClone (editor w'))
    /\ HistoryState.future (history w') = []
    /\ exists w1,
        HistorySlice.undo w' = Js.Ok w1
        /\ editor w1 = HistoryAction.state p
        /\ HistoryState.present (history w1) = Some p
        /\ option_map HistoryAction.state
             (hd_error (HistoryState.future (history w1)))
           = Some (Json.deepClone (editor w'))
        /\ (HistoryAction.state p = Json.deepClone (editor w) ->
            CanvasState.textLayers (editor w1) = CanvasState.textLayers (editor w)
            /\ CanvasState.selectedLayerIds (editor w1)
               = CanvasState.selectedLayerIds (editor w)
            /\ CanvasState.canvasDimensions (editor w1)
               = CanvasState.canvasDimensions (editor w)).
Proof.
  intros action now w p Hpresent Hmax Hid w'.
  destruct (perform_pushes action now w Hid) as (description & Hperform).
  fold w' in Hperform.
  split; [ rewrite Hperform; reflexivity | ].
  split; [ rewrite Hperform; reflexivity | ].
  rewrite Hperform.
  rewrite (undo_after_pushCurrent now description
             (mkWorld (editor w') (history w)) p Hpresent Hmax).
  eexists. split; [ reflexivity | ].
  cbn [editor history HistoryState.present HistoryState.future hd_error
       option_map HistoryAction.state].
  repeat split; rewrite H; reflexivity.
Qed.

Lemma user_actions_witness :
  let p := HistoryAction.mk 1 "Added text layer"
             (EditorSlice.addTextLayer "a" (EditorSlice.mkPatch None None)
                                       EditorSlice.initialState) in
  let w := mkWorld (HistoryAction.state p)
             (HistoryState.mk [] (Some p) [] HistorySlice.MAX_HISTORY_SIZE) in
  HistoryState.future (history (perform (DeleteLayer "a") 2 w)) = [].
Proof.
  cbv zeta.
  apply (user_actions_can_be_undone (DeleteLayer "a") 2
           (mkWorld
              (EditorSlice.addTextLayer "a" (EditorSlice.mkPatch None None)
                                        EditorSlice.initialState)
              (HistoryState.mk []
                 (Some (HistoryAction.mk 1 "Added text layer"
                          (EditorSlice.addTextLayer "a"
                             (EditorSlice.mkPatch None None)
                             EditorSlice.initialState)))
                 [] HistorySlice.MAX_HISTORY_SIZE))
           (HistoryAction.mk 1 "Added text layer"
              (EditorSlice.addTextLayer "a" (EditorSlice.mkPatch None None)
                                        EditorSlice.initialState))).
  - reflexivity.
  - vm_compute. discriminate.
  - exact I.
Defined.

(** X23.  [handleToggleLock(id)] toggles the lock and records what it
    did: the action it pushes holds the snapshot of the toggled document
    and is described as [Locked text layer] when the first layer with
    that id was not locked before, and as [Unlocked text layer] when it
    was locked, or when the document has no such layer. *)
Theorem handleToggleLock_describes :
  forall (id : string) (now : Z) (w : World),
    let w' := LayerPanel.handleToggleLock id now w in
    editor w' = EditorLayers.toggleLayerLock id (editor w)
    /\ HistoryState.present (history w')
       = Some (HistoryAction.mk now
                 match Home.findLayer (CanvasState.textLayers (editor w)) id with
                 | Some layer => if isLocked layer then "Unlocked text layer"
                                 else "Locked text layer"
                 | None => "Unlocked text layer"
                 end
                 (Json.deepClone (editor w')))
    /\ HistoryState.future (history w') = [].
Proof.
  intros id now w w'. split; [ reflexivity | ]. split; [ | reflexivity ].
  subst w'. unfold LayerPanel.handleToggleLock, LayerPanel.pushCurrent.
  cbn [editor history HistorySlice.pushHistory HistoryState.present].
  do 2 f_equal.
  unfold EditorLayers.toggleLayerLock, EditorLayers.withLayers.
  cbn [CanvasState.textLayers].
  rewrite findLayer_map
    by (intros l; destruct (EditorLayers.hasId id l); reflexivity).
  destruct (Home.findLayer (CanvasState.textLayers (editor w)) id)
    as [layer | ] eqn:Hfind; [ | reflexivity ].
  apply findLayer_some in Hfind as [_ Hid]. cbn [option_map].
  unfold EditorLayers.hasId. rewrite Hid, String.eqb_refl.
  unfold isLocked.
  change (EditorLayers.notLocked (EditorLayers.withLockToggled layer))
    with (if EditorLayers.notLocked layer then false else true).
  destruct (EditorLayers.notLocked layer); reflexivity.
Qed.

(** X24.  A drag that ends on an object tagged with a layer id writes
    the position of the object into the first layer with that id and
    into nothing else of it, leaves the layers with other ids, the order
    of the layers and the selection as they were, and pushes the
    snapshot of the result; an object without a layer id, or with an
    empty one, changes neither store. *)
Theorem object_moved_sets_position :
  forall (id : string) (left top : Js.number) (now : Z) (w : World),
    let w' := CanvasEvents.onObjectMoved (Some id) left top now w in
    CanvasEvents.onObjectMoved None left top now w = w
    /\ CanvasEvents.onObjectMoved (Some EmptyString) left top now w = w
    /\ (if String.eqb id EmptyString then w' = w
        else
          Home.findLayer (CanvasState.textLayers (editor w')) id
          = option_map
              (fun layer =>
                 EditorSlice.spread layer
                   (EditorSlice.mkPatch (Some left) (Some top)))
              (Home.findLayer (CanvasState.textLayers (editor w)) id)
          /\ (forall other,
                 other <> id ->
                 Home.findLayer (CanvasState.textLayers (editor w')) other
                 = Home.findLayer (CanvasState.textLayers (editor w)) other)
          /\ layerIds (editor w') = layerIds (editor w)
          /\ CanvasState.selectedLayerIds (editor w')
             = CanvasState.selectedLayerIds (editor w)
          /\ HistoryState.present (history w')
             = Some (HistoryAction.mk now "Moved text layer"
                       (Json.deepClone (editor w')))).
Proof.
  intros id left top now w w'. split; [ reflexivity | ].
  split; [ reflexivity | ].
  subst w'. unfold CanvasEvents.onObjectMoved.
  destruct (String.eqb id EmptyString); [ reflexivity | ].
  unfold LayerPanel.pushCurrent. cbn [editor history].
  split; [ | split; [ | split; [ apply layerIds_update | split; reflexivity ] ] ].
  - rewrite findLayer_update.
    destruct (Home.findLayer (CanvasState.textLayers (editor w)) id)
      as [layer | ] eqn:Hfind; [ | reflexivity ].
    apply findLayer_some in Hfind as [_ Hid]. cbn [option_map].
    now rewrite Hid, String.eqb_refl.
  - intros other Hother. rewrite findLayer_update.
    destruct (Home.findLayer (CanvasState.textLayers (editor w)) other)
      as [layer | ] eqn:Hfind; [ | reflexivity ].
    apply findLayer_some in Hfind as [_ Hid]. cbn [option_map].
    apply String.eqb_neq in Hother. now rewrite Hid, Hother.
Qed.

(* ================================================================== *)
(** * Nudging from the keyboard and from the buttons *)

Section KeyboardNudge.



Variables (textLayers : list TextLayerProperties.t)
          (direction : string) (distance : Js.number).

Hypothesis distance_nonneg : (0 <= distance)%Q.






End KeyboardNudge.


Section KeyboardHistory.

Lemma undo_returns w : exists w', HistorySlice.undo w = Js.Ok w'.
Proof.
  destruct w as [e [ps pr fs m]]. destruct ps as [ | a ps'].
  - eexists. apply undo_empty_past.
  - destruct pr as [p | ].
    + destruct (@nonempty_snoc _ (a :: ps')) as (init & q & ->);
        [ discriminate | ].
      eexists. apply undo_snoc.
    + eexists. apply undo_null_present.
Qed.

Lemma redo_returns w : exists w', HistorySlice.redo w = Js.Ok w'.
Proof.
  destruct w as [e [ps pr fs m]]. destruct fs as [ | f fs'].
  - eexists. apply redo_empty_future.
  - eexists. apply redo_cons.
Qed.

Lemma undo_without_past w :
  HistorySlice.canUndo (history w) = false -> HistorySlice.undo w = Js.Ok w.
Proof.
  destruct w as [e [ps pr fs m]]. destruct ps as [ | a ps'].
  - intros _. apply undo_empty_past.
  - unfold HistorySlice.canUndo. cbn [history HistoryState.past List.length].
    intros H. apply Z.ltb_ge in H. lia.
Qed.

Lemma redo_without_future w :
  HistorySlice.canRedo (history w) = false -> HistorySlice.redo w = Js.Ok w.
Proof.
  destruct w as [e [ps pr fs m]]. destruct fs as [ | f fs'].
  - intros _. apply redo_empty_future.
  - unfold HistorySlice.canRedo. cbn [history HistoryState.future List.length].
    intros H. apply Z.ltb_ge in H. lia.
Qed.

End KeyboardHistory.

(** X25.  The undo and redo shortcuts act on the stores as they are when
    the key is pressed, whatever render built the handler: with Ctrl or
    Cmd held, [z] without Shift leaves the stores as [undo()] leaves
    them, and [z] with Shift, or [y], as [redo()] leaves them; the
    handler returns, calls [preventDefault], and changes neither the
    history panel nor the pending timeouts. *)
Theorem keyboard_undo_redo_use_current_stores :
  forall (mounted : CanvasState.t) (e : HomeKeys.KeyboardEvent) (now : Z)
         (page : HomeKeys.Page),
    HomeKeys.ctrlKey e || HomeKeys.metaKey e = true ->
    let handled w :=
      Js.Ok (HomeKeys.mkPage w (HomeKeys.showHistory page)
                             (HomeKeys.pendingTimeouts page) true) in
    (HomeKeys.key e = "z" -> HomeKeys.shiftKey e = false ->
     exists w,
       HistorySlice.undo (HomeKeys.stores page) = Js.Ok w
       /\ HomeKeys.handleKeyDown mounted e now page = handled w)
    /\ ((HomeKeys.key e = "z" /\ HomeKeys.shiftKey e = true)
        \/ HomeKeys.key e = "y" ->
        exists w,
          HistorySlice.redo (HomeKeys.stores page) = Js.Ok w
          /\ HomeKeys.handleKeyDown mounted e now page = handled w).
Proof.
  intros mounted [key ctrlKey metaKey shiftKey targetTagName] now page.
  cbn [HomeKeys.ctrlKey HomeKeys.metaKey HomeKeys.key HomeKeys.shiftKey].
  intros Hmodifier. cbv zeta. split.
  - intros -> ->. unfold HomeKeys.handleKeyDown.
    cbn [HomeKeys.ctrlKey HomeKeys.metaKey HomeKeys.key HomeKeys.shiftKey
         HomeKeys.targetTagName].
    rewrite Hmodifier.
    destruct (HistorySlice.canUndo (history (HomeKeys.stores page))) eqn:Hcan.
    + destruct (undo_returns (HomeKeys.stores page)) as (w & Hundo).
      exists w. split; [ exact Hundo | ]. rewrite Hundo. reflexivity.
    + exists (HomeKeys.stores page).
      split; [ apply undo_without_past, Hcan | reflexivity ].
  - intros Hkey. unfold HomeKeys.handleKeyDown.
    cbn [HomeKeys.ctrlKey HomeKeys.metaKey HomeKeys.key HomeKeys.shiftKey
         HomeKeys.targetTagName].
    rewrite Hmodifier.
    assert (Hshape :
      (key = "z" /\ shiftKey = true) \/ key = "y") by exact Hkey.
    destruct Hshape as [[-> ->] | ->].
    + destruct (HistorySlice.canRedo (history (HomeKeys.stores page))) eqn:Hcan.
      * destruct (redo_returns (HomeKeys.stores page)) as (w & Hredo).
        exists w. split; [ exact Hredo | ].
        cbn [String.eqb Ascii.eqb Bool.eqb andb orb negb Js.bind
             HomeKeys.stores HomeKeys.showHistory HomeKeys.pendingTimeouts].
        rewrite Hcan, Hredo. reflexivity.
      * exists (HomeKeys.stores page).
        split; [ apply redo_without_future, Hcan | ].
        cbn [String.eqb Ascii.eqb Bool.eqb andb orb negb Js.bind
             HomeKeys.stores HomeKeys.showHistory HomeKeys.pendingTimeouts].
        rewrite Hcan. reflexivity.
    + destruct (HistorySlice.canRedo (history (HomeKeys.stores page))) eqn:Hcan.
      * destruct (redo_returns (HomeKeys.stores page)) as (w & Hredo).
        exists w. split; [ exact Hredo | ].
        cbn [String.eqb Ascii.eqb Bool.eqb andb orb negb Js.bind
             HomeKeys.stores HomeKeys.showHistory HomeKeys.pendingTimeouts].
        rewrite Hcan, Hredo. destruct shiftKey; reflexivity.
      * exists (HomeKeys.stores page).
        split; [ apply redo_without_future, Hcan | ].
        cbn [String.eqb Ascii.eqb Bool.eqb andb orb negb Js.bind
             HomeKeys.stores HomeKeys.showHistory HomeKeys.pendingTimeouts].
        rewrite Hcan. destruct shiftKey; reflexivity.
Qed.

Lemma keyboard_undo_witness :
  let stores :=
    LayerPanel.handleAddLayer "b" 2
      (LayerPanel.handleAddLayer "a" 1 initialWorld) in
  exists w,
    HistorySlice.undo stores = Js.Ok w
    /\ HomeKeys.handleKeyDown EditorSlice.initialState
         (HomeKeys.mkKeyboardEvent "z" true false false (Some "BODY"))
         3 (HomeKeys.mkPage stores false 0 false)
       = Js.Ok (HomeKeys.mkPage w false 0 true).
Proof.
  cbv zeta.
  apply (proj1 (keyboard_undo_redo_use_current_stores
                  EditorSlice.initialState
                  (HomeKeys.mkKeyboardEvent "z" true false false (Some "BODY"))
                  3
                  (HomeKeys.mkPage
                     (LayerPanel.handleAddLayer "b" 2
                        (LayerPanel.handleAddLayer "a" 1 initialWorld))
                     false 0 false)
                  eq_refl));
    reflexivity.
Defined.

(* ================================================================== *)
(** * What smart spacing leaves alone *)

Section SmartSpacingFrame.

Implicit Types (a b : TextLayerProperties.t)
         (layers : list TextLayerProperties.t) (store : CanvasState.t).

Lemma insertByLeft_perm a layers :
  Permutation (Home.insertByLeft a layers) (a :: layers).
Proof.
  induction layers as [ | b layers IH ]; cbn [Home.insertByLeft].
  - apply Permutation_refl.
  - destruct (Js.leb _ _); [ apply Permutation_refl | ].
    apply perm_trans with (b :: a :: layers);
      [ apply perm_skip, IH | apply perm_swap ].
Qed.

Lemma sortByLeft_perm layers : Permutation (Home.sortByLeft layers) layers.
Proof.
  unfold Home.sortByLeft.
  induction layers as [ | a layers IH ]; cbn [fold_right].
  - apply Permutation_refl.
  - apply perm_trans with (a :: fold_right Home.insertByLeft [] layers);
      [ apply insertByLeft_perm | apply perm_skip, IH ].
Qed.

Lemma movedOnlyLeft_refl a : movedOnlyLeft a a.
Proof. destruct a. reflexivity. Qed.

Lemma movedOnlyLeft_trans a b c :
  movedOnlyLeft a b -> movedOnlyLeft b c -> movedOnlyLeft a c.
Proof.
  unfold movedOnlyLeft. intros Hab Hbc. rewrite Hbc at 1. rewrite Hab at 1.
  reflexivity.
Qed.

(** The loop of smart spacing maps the layers of the store one by one:
    a layer keeps everything but its [left], and a layer whose id is
    not among those of the loop keeps its [left] too. *)
Lemma spaceEach_frame leftmostPos spacing layers : forall index store,
  exists g,
    CanvasState.textLayers
      (Home.spaceEach leftmostPos spacing index layers store)
    = map g (CanvasState.textLayers store)
    /\ (forall a, movedOnlyLeft a (g a))
    /\ (forall a,
           ~ In (TextLayerProperties.id a) (map TextLayerProperties.id layers) ->
           g a = a)
    /\ CanvasState.selectedLayerIds
         (Home.spaceEach leftmostPos spacing index layers store)
       = CanvasState.selectedLayerIds store
    /\ CanvasState.backgroundImage
         (Home.spaceEach leftmostPos spacing index layers store)
       = CanvasState.backgroundImage store
    /\ CanvasState.canvasDimensions
         (Home.spaceEach leftmostPos spacing index layers store)
       = CanvasState.canvasDimensions store.
Proof.
  induction layers as [ | b layers IH ]; intros index store;
    cbn [Home.spaceEach].
  - exists (fun a => a). split; [ symmetry; apply map_id | ].
    split; [ apply movedOnlyLeft_refl | ]. repeat split.
  - set (newLeft := (leftmostPos + spacing * Js.ofNat index)%Q).
    set (update := fun a =>
           if String.eqb (TextLayerProperties.id a) (TextLayerProperties.id b)
           then EditorSlice.spread a (EditorSlice.mkPatch (Some newLeft) None)
           else a).
    destruct (IH (S index)
                (EditorSlice.updateTextLayer (TextLayerProperties.id b)
                   (EditorSlice.mkPatch (Some newLeft) None) store))
      as (g & Hlayers & Hframe & Hrest & Hselection & Hbackground & Hcanvas).
    exists (fun a => g (update a)).
    split; [ rewrite Hlayers, updateTextLayer_layers, map_map; reflexivity | ].
    split; [ | split; [ | repeat split; assumption ] ].
    + intros a. apply movedOnlyLeft_trans with (update a); [ | apply Hframe ].
      subst update. cbv beta.
      destruct (String.eqb _ _); [ reflexivity | apply movedOnlyLeft_refl ].
    + intros a Hout. cbn [map In] in Hout.
      assert (Hupdate : update a = a).
      { subst update. cbv beta.
        destruct (String.eqb (TextLayerProperties.id a)
                             (TextLayerProperties.id b)) eqn:Hid;
          [ | reflexivity ].
        apply String.eqb_eq in Hid. exfalso. apply Hout. left.
        symmetry. exact Hid. }
      rewrite Hupdate. apply Hrest. intros Hin. apply Hout. right. exact Hin.
Qed.

End SmartSpacingFrame.

(** X26.  Smart spacing changes nothing but the [left] of layers: for
    every closure (the selection and the layer list that the component
    rendered) and every store, each layer of the store comes back at its
    place with the same fields except, at most, [left]; a layer whose id
    is not selected in the closure, or not found in the layer list of
    the closure, comes back unchanged; and the selection, the background
    and the canvas dimensions are as before.  With fewer than two
    selected ids, or fewer than two selected layers in the list of the
    closure, the store is returned as it is. *)
Theorem smart_spacing_moves_only_lefts :
  forall (selectedLayerIds : list string)
         (textLayers : list TextLayerProperties.t) (store : CanvasState.t),
    let store' := Home.applySmartSpacing selectedLayerIds textLayers store in
    let chosen :=
      filter (fun layer => Home.includes selectedLayerIds
                                         (TextLayerProperties.id layer))
             textLayers in
    Forall2
      (fun old new =>
         movedOnlyLeft old new
         /\ (Home.includes selectedLayerIds (TextLayerProperties.id old) = false
             \/ Home.findLayer textLayers (TextLayerProperties.id old) = None ->
             new = old))
      (CanvasState.textLayers store) (CanvasState.textLayers store')
    /\ CanvasState.selectedLayerIds store' = CanvasState.selectedLayerIds store
    /\ CanvasState.backgroundImage store' = CanvasState.backgroundImage store
    /\ CanvasState.canvasDimensions store' = CanvasState.canvasDimensions store
    /\ ((List.length selectedLayerIds < 2)%nat \/ (List.length chosen < 2)%nat ->
        store' = store).
Proof.
  intros selectedLayerIds textLayers store store' chosen.
  assert (Hsame : forall layers,
             Forall2
               (fun old new =>
                  movedOnlyLeft old new
                  /\ (Home.includes selectedLayerIds
                                    (TextLayerProperties.id old) = false
                      \/ Home.findLayer textLayers
                                        (TextLayerProperties.id old) = None ->
                      new = old))
               layers layers).
  { induction layers as [ | a layers IH ]; constructor; [ | exact IH ].
    split; [ apply movedOnlyLeft_refl | reflexivity ]. }
  assert (Hlength : List.length (Home.sortByLeft chosen) = List.length chosen)
    by (apply Permutation_length, sortByLeft_perm).
  split.
  - subst store'. unfold Home.applySmartSpacing. fold chosen.
    destruct (Z.of_nat (List.length selectedLayerIds) <? 2)%Z;
      [ apply Hsame | ].
    destruct (Z.of_nat (List.length (Home.sortByLeft chosen)) <? 2)%Z;
      [ apply Hsame | ].
    destruct (Js.index (Home.sortByLeft chosen) 0) as [first | ];
      [ | apply Hsame ].
    destruct (Js.index (Home.sortByLeft chosen) _) as [last | ];
      [ | apply Hsame ].
    cbv zeta.
    match goal with
    | |- context [ Home.spaceEach ?l ?sp 0 _ store ] =>
        destruct (spaceEach_frame l sp (Home.sortByLeft chosen) 0 store)
          as (g & -> & Hframe & Hrest & _)
    end.
    clear Hsame.
    induction (CanvasState.textLayers store) as [ | a layers IH ];
      cbn [map]; constructor; [ | exact IH ].
    split; [ apply Hframe | ].
    intros Hout. apply Hrest. intros Hin.
    apply in_map_iff in Hin as (x & Hid & Hx).
    apply (Permutation_in _ (sortByLeft_perm chosen)) in Hx.
    subst chosen. apply filter_In in Hx as [Hx Hselected].
    rewrite Hid in Hselected.
    destruct Hout as [Hout | Hout]; [ congruence | ].
    pose proof (findLayer_none _ _ _ Hout Hx) as Hne.
    rewrite Hid, String.eqb_refl in Hne. discriminate.
  - assert (Hrest :
      CanvasState.selectedLayerIds store' = CanvasState.selectedLayerIds store
      /\ CanvasState.backgroundImage store' = CanvasState.backgroundImage store
      /\ CanvasState.canvasDimensions store'
         = CanvasState.canvasDimensions store).
    { subst store'. unfold Home.applySmartSpacing. fold chosen.
      destruct (Z.of_nat (List.length selectedLayerIds) <? 2)%Z;
        [ repeat split | ].
      destruct (Z.of_nat (List.length (Home.sortByLeft chosen)) <? 2)%Z;
        [ repeat split | ].
      destruct (Js.index (Home.sortByLeft chosen) 0) as [first | ];
        [ | repeat split ].
      destruct (Js.index (Home.sortByLeft chosen) _) as [last | ];
        [ | repeat split ].
      cbv zeta.
      match goal with
      | |- context [ Home.spaceEach ?l ?sp 0 _ store ] =>
          destruct (spaceEach_frame l sp (Home.sortByLeft chosen) 0 store)
            as (g & _ & _ & _ & -> & -> & ->)
      end.
      repeat split. }
    destruct Hrest as (Hselection & Hbackground & Hcanvas).
    repeat (split; [ assumption | ]).
    intros Hfew. subst store'. unfold Home.applySmartSpacing. fold chosen.
    destruct (Z.ltb_spec (Z.of_nat (List.length selectedLayerIds)) 2)
      as [ | Hmany ]; [ reflexivity | ].
    destruct (Z.ltb_spec (Z.of_nat (List.length (Home.sortByLeft chosen))) 2)
      as [ | Hmany' ]; [ reflexivity | ].
    rewrite Hlength in Hmany'. lia.
Qed.

(* ================================================================== *)
(** * The export over doubles *)

Section ExportOverDoubles.

Import PrimFloat.
Import ExportDouble.

#[local] Set Warnings "-inexact-float".

(** A positive double is truthy and not [<= 0]. *)
Lemma positive_double (x : Double.number) :
  Double.ltb 0%float x = true ->
  Double.isFalsy x = false /\ Double.leb x 0%float = false.
Proof.
  unfold Double.ltb, Double.leb, Double.isFalsy, Double.isNaN.
  rewrite FloatAxioms.ltb_spec, FloatAxioms.leb_spec, !FloatAxioms.eqb_spec.
  change (FloatOps.Prim2SF 0%float) with (SpecFloat.S754_zero false).
  destruct (FloatOps.Prim2SF x) as [s | s | | s m e];
    cbn; try discriminate; destruct s; try discriminate; intros _.
  - split; reflexivity.
  - rewrite Z.compare_refl, Pos.compare_cont_refl. split; reflexivity.
Qed.

Lemma invalidDimensions_positive (x y : Double.number) :
  Double.ltb 0%float x = true -> Double.ltb 0%float y = true ->
  invalidDimensions x y = false.
Proof.
  intros Hx Hy. unfold invalidDimensions.
  destruct (positive_double x Hx) as [-> ->].
  destruct (positive_double y Hy) as [-> ->]. reflexivity.
Qed.

Lemma invalidMultiplier_positive (m : Double.number) :
  Double.isFinite m = true -> Double.ltb 0%float m = true ->
  invalidMultiplier m = false.
Proof.
  intros Hfinite Hpos. unfold invalidMultiplier. rewrite Hfinite.
  destruct (positive_double m Hpos) as [_ ->]. reflexivity.
Qed.

Variables (canvas : FabricCanvas) (backgroundImage : BackgroundImage).

Let imgWidth := imageWidth (dimensions backgroundImage).
Let imgHeight := imageHeight (dimensions backgroundImage).
Let canvasWidth := getWidth canvas.
Let canvasHeight := getHeight canvas.

Hypothesis image_valid : invalidDimensions imgWidth imgHeight = false.
Hypothesis canvas_valid : invalidDimensions canvasWidth canvasHeight = false.

(** When the quotient of the dimensions is not a finite positive
    double, the [try] block throws before it reaches [toDataURL]. *)
Lemma exportTry_invalid_multiplier :
  invalidMultiplier (computeMultiplier canvas backgroundImage) = true ->
  exportTry (Some canvas) (Some backgroundImage)
  = ([], Js.Throw (Js.Error "Invalid export multiplier calculated")).
Proof.
  intros Hinvalid. unfold exportTry.
  fold imgWidth imgHeight canvasWidth canvasHeight.
  rewrite image_valid, canvas_valid. cbv zeta. rewrite Hinvalid. reflexivity.
Qed.

(** When all three guards pass, the [try] block reaches [toDataURL],
    once, with the options computed from the multiplier. *)
Lemma exportTry_reaches_surface :
  invalidMultiplier (computeMultiplier canvas backgroundImage) = false ->
  exists warn,
    existsb isCallToDataURL warn = false
    /\ existsb isDownload warn = false
    /\ existsb isShowError warn = false
    /\ exportTry (Some canvas) (Some backgroundImage)
       = (warn ++ [CallToDataURL (exportOptions canvas backgroundImage)],
          match toDataURL canvas (exportOptions canvas backgroundImage) with
          | Js.Throw e => Js.Throw e
          | Js.Ok dataUrl =>
              if String.eqb dataUrl EmptyString
                 || negb (Js.startsWith dataUrl "data:image/png;base64,")
              then Js.Throw (Js.Error "Failed to generate valid PNG data URL")
              else Js.Ok dataUrl
          end).
Proof.
  intros Hvalid. unfold exportTry.
  fold imgWidth imgHeight canvasWidth canvasHeight.
  rewrite image_valid, canvas_valid. cbv zeta. rewrite Hvalid.
  match goal with
  | |- context [ (?w ++ [CallToDataURL _]) ] => exists w
  end.
  split; [ destruct (_ || _); reflexivity | ].
  split; [ destruct (_ || _); reflexivity | ].
  split; [ destruct (_ || _); reflexivity | ].
  destruct (toDataURL canvas (exportOptions canvas backgroundImage))
    as [dataUrl | e]; [ | reflexivity ].
  destruct (_ || _); reflexivity.
Qed.

End ExportOverDoubles.

Section ExportSizes.

Import PrimFloat.
Import ExportDouble.

#[local] Set Warnings "-inexact-float".

Lemma filter_quiet (keep : Event -> bool) (warn : list Event) :
  existsb keep warn = false -> filter keep warn = [].
Proof.
  induction warn as [ | ev warn IH ]; [ reflexivity | ].
  cbn [existsb filter]. intros Hnone.
  apply orb_false_iff in Hnone as [-> Hrest]. apply IH, Hrest.
Qed.

(** C7.  What [exportToPng] computes, over doubles.  For dimensions
    that are positive and a multiplier
    [Math.max(imgWidth / canvasWidth, imgHeight / canvasHeight)] that
    is finite and positive, [toDataURL] is called once, for the PNG
    format and the region [canvasWidth] x [canvasHeight] at the origin
    with that one multiplier, and when it returns a PNG data URL
    [handleExport] triggers one download named
    [image-text-composition-<Date.now()>.png].  The size
    [canvasWidth * multiplier] by [canvasHeight * multiplier] is not the
    native size of the image: for an 800 x 600 canvas and a 1000 x 500
    image the multiplier is 1.25 and the size 1000 x 750; for a
    400 x 300 canvas and a 452 x 339 image, of the same aspect ratio,
    the multiplier is 1.1299999999999999 and the size
    451.99999999999994 x 338.99999999999994, below the native size in
    both directions. *)
Theorem export_size_is_not_native :
  (forall (canvas : FabricCanvas) (backgroundImage : BackgroundImage)
          (now : Z),
      let imgWidth := imageWidth (dimensions backgroundImage) in
      let imgHeight := imageHeight (dimensions backgroundImage) in
      let canvasWidth := getWidth canvas in
      let canvasHeight := getHeight canvas in
      let multiplier :=
        Double.max (imgWidth / canvasWidth)%float
                   (imgHeight / canvasHeight)%float in
      let options :=
        mkOptions "png" 1%float multiplier 0%float 0%float
                  canvasWidth canvasHeight in
      Double.ltb 0%float imgWidth = true ->
      Double.ltb 0%float imgHeight = true ->
      Double.ltb 0%float canvasWidth = true ->
      Double.ltb 0%float canvasHeight = true ->
      Double.isFinite multiplier = true ->
      Double.ltb 0%float multiplier = true ->
      filter isCallToDataURL
        (fst (exportToPng (Some canvas) (Some backgroundImage)))
      = [CallToDataURL options]
      /\ forall dataUrl,
          toDataURL canvas options = Js.Ok dataUrl ->
          Js.startsWith dataUrl "data:image/png;base64," = true ->
          snd (exportToPng (Some canvas) (Some backgroundImage))
          = Resolved dataUrl
          /\ filter isDownload
               (handleExport (Some canvas) (Some backgroundImage) now)
             = [DownloadPng dataUrl
                  ("image-text-composition-" ++ Js.showZ now ++ ".png")%string])
  /\ (forall (surface : ToDataURLOptions -> Js.Result string)
             (url : string) (file : option FileValue),
         let canvas := mkCanvas 800%float 600%float surface in
         let backgroundImage :=
           mkBackgroundImage url file
             (mkImageDimensions 1000%float 500%float 2%float) in
         filter isCallToDataURL
           (fst (exportToPng (Some canvas) (Some backgroundImage)))
         = [CallToDataURL
              (mkOptions "png" 1%float 1.25%float 0%float 0%float
                         800%float 600%float)]
         /\ exportWidth canvas backgroundImage = 1000%float
         /\ exportHeight canvas backgroundImage = 750%float
         /\ (exportHeight canvas backgroundImage
             =? imageHeight (dimensions backgroundImage))%float = false)
  /\ (forall (surface : ToDataURLOptions -> Js.Result string)
             (url : string) (file : option FileValue),
         let canvas := mkCanvas 400%float 300%float surface in
         let backgroundImage :=
           mkBackgroundImage url file
             (mkImageDimensions 452%float 339%float (452 / 339)%float) in
         (imageWidth (dimensions backgroundImage) * getHeight canvas
          =? imageHeight (dimensions backgroundImage) * getWidth canvas)%float
         = true
         /\ filter isCallToDataURL
              (fst (exportToPng (Some canvas) (Some backgroundImage)))
            = [CallToDataURL
                 (mkOptions "png" 1%float 1.1299999999999999%float
                            0%float 0%float 400%float 300%float)]
         /\ exportWidth canvas backgroundImage = 451.99999999999994%float
         /\ exportHeight canvas backgroundImage = 338.99999999999994%float
         /\ (exportWidth canvas backgroundImage
             <? imageWidth (dimensions backgroundImage))%float = true
         /\ (exportHeight canvas backgroundImage
             <? imageHeight (dimensions backgroundImage))%float = true).
Proof.
  assert (Hcalls :
    forall canvas backgroundImage,
      invalidDimensions (imageWidth (dimensions backgroundImage))
                        (imageHeight (dimensions backgroundImage)) = false ->
      invalidDimensions (getWidth canvas) (getHeight canvas) = false ->
      invalidMultiplier (computeMultiplier canvas backgroundImage) = false ->
      filter isCallToDataURL
        (fst (exportToPng (Some canvas) (Some backgroundImage)))
      = [CallToDataURL (exportOptions canvas backgroundImage)]).
  { intros canvas backgroundImage Himage Hcanvas Hmultiplier.
    destruct (exportTry_reaches_surface canvas backgroundImage
                Himage Hcanvas Hmultiplier) as (warn & Hwarn & _ & _ & Htry).
    unfold exportToPng. rewrite Htry.
    destruct (toDataURL canvas (exportOptions canvas backgroundImage))
      as [dataUrl | e]; [ destruct (_ || _) | ];
      cbn [fst]; rewrite !filter_app, (filter_quiet _ _ Hwarn); reflexivity. }
  split; [ | split ].
  - intros canvas backgroundImage now imgWidth imgHeight canvasWidth
           canvasHeight multiplier options Hiw Hih Hcw Hch Hfinite Hpositive.
    assert (Himage : invalidDimensions imgWidth imgHeight = false)
      by (apply invalidDimensions_positive; assumption).
    assert (Hcanvas : invalidDimensions canvasWidth canvasHeight = false)
      by (apply invalidDimensions_positive; assumption).
    assert (Hmultiplier :
              invalidMultiplier (computeMultiplier canvas backgroundImage)
              = false)
      by (apply invalidMultiplier_positive; assumption).
    split; [ apply Hcalls; assumption | ].
    intros dataUrl Hreturned Hpng.
    destruct (exportTry_reaches_surface canvas backgroundImage
                Himage Hcanvas Hmultiplier) as (warn & _ & Hwarn & _ & Htry).
    change (exportOptions canvas backgroundImage) with options in Htry.
    assert (Hnonempty : String.eqb dataUrl EmptyString = false)
      by (destruct dataUrl; [ discriminate Hpng | reflexivity ]).
    assert (Hexport :
      exportToPng (Some canvas) (Some backgroundImage)
      = (warn ++ [CallToDataURL options], Resolved dataUrl)).
    { unfold exportToPng. rewrite Htry, Hreturned.
      unfold Js.startsWith in *. rewrite Hnonempty, Hpng. reflexivity. }
    split; [ rewrite Hexport; reflexivity | ].
    unfold handleExport. rewrite Hexport.
    cbn [app filter isDownload].
    rewrite !filter_app. cbn [filter isDownload app].
    rewrite (filter_quiet _ _ Hwarn). reflexivity.
  - intros surface url file canvas backgroundImage.
    split; [ apply Hcalls; reflexivity | ].
    repeat split.
  - intros surface url file canvas backgroundImage.
    split; [ reflexivity | ].
    split; [ apply Hcalls; reflexivity | ].
    repeat split.
Qed.

Lemma export_size_witness :
  filter isCallToDataURL
    (fst (exportToPng
            (Some (mkCanvas 400%float 300%float
                     (fun _ => Js.Ok "data:image/png;base64,iVBORw0KGgo=")))
            (Some (mkBackgroundImage "blob:bg" (Some (FileObject "bg.png"))
                     (mkImageDimensions 1200%float 900%float
                                        (1200 / 900)%float)))))
  = [CallToDataURL
       (mkOptions "png" 1%float 3%float 0%float 0%float 400%float 300%float)].
Proof.
  apply (proj1 export_size_is_not_native
           (mkCanvas 400%float 300%float
              (fun _ => Js.Ok "data:image/png;base64,iVBORw0KGgo="))
           (mkBackgroundImage "blob:bg" (Some (FileObject "bg.png"))
              (mkImageDimensions 1200%float 900%float (1200 / 900)%float))
           1700000000000%Z);
    reflexivity.
Defined.

End ExportSizes.

Section ExportFailures.

Import PrimFloat.
Import ExportDouble.

#[local] Set Warnings "-inexact-float".

(** What [handleExport] shows and downloads when the promise rejects. *)
Lemma handleExport_rejected canvas backgroundImage now events message :
  exportToPng (Some canvas) (Some backgroundImage)
  = (events, Rejected message) ->
  existsb isDownload events = false ->
  existsb isShowError events = false ->
  filter isDownload (handleExport (Some canvas) (Some backgroundImage) now)
  = []
  /\ filter isShowError
       (handleExport (Some canvas) (Some backgroundImage) now)
     = [ShowError "Export failed"
          (message ++ " Please try again or try with a smaller image.")%string].
Proof.
  intros Hexport Hdownload Herror. unfold handleExport. rewrite Hexport.
  cbn [app filter isDownload isShowError].
  rewrite !filter_app. cbn [filter isDownload isShowError app].
  rewrite (filter_quiet _ _ Hdownload), (filter_quiet _ _ Herror).
  split; reflexivity.
Qed.

(** X18.  With positive dimensions, a failed export is reported and
    nothing is downloaded.  When the multiplier is not a finite positive
    double (the quotient of the dimensions overflowed or underflowed),
    the promise rejects with [Invalid export multiplier calculated] and
    [toDataURL] is not called.  Otherwise, when [toDataURL] throws, the
    promise rejects with the message of the thrown error (with
    [Failed to export image] when what was thrown is not an error), and
    when it returns a string that is not a PNG data URL, the promise
    rejects with [Failed to generate valid PNG data URL].  In each case
    [handleExport] shows that message in its one error notification and
    triggers no download. *)
Theorem export_reports_surface_failure :
  forall (canvas : FabricCanvas) (backgroundImage : BackgroundImage) (now : Z),
    Double.ltb 0%float (imageWidth (dimensions backgroundImage)) = true ->
    Double.ltb 0%float (imageHeight (dimensions backgroundImage)) = true ->
    Double.ltb 0%float (getWidth canvas) = true ->
    Double.ltb 0%float (getHeight canvas) = true ->
    let settled := snd (exportToPng (Some canvas) (Some backgroundImage)) in
    let trace := handleExport (Some canvas) (Some backgroundImage) now in
    let failed message :=
      settled = Rejected message
      /\ filter isDownload trace = []
      /\ filter isShowError trace
         = [ShowError "Export failed"
              (message ++ " Please try again or try with a smaller image.")%string] in
    if invalidMultiplier (computeMultiplier canvas backgroundImage)
    then failed "Invalid export multiplier calculated"
         /\ filter isCallToDataURL trace = []
    else
      match toDataURL canvas (exportOptions canvas backgroundImage) with
      | Js.Throw (Js.Error message) => failed message
      | Js.Throw Js.NonError => failed "Failed to export image"
      | Js.Ok dataUrl =>
          if Js.startsWith dataUrl "data:image/png;base64,"
          then settled = Resolved dataUrl
          else failed "Failed to generate valid PNG data URL"
      end.
Proof.
  intros canvas backgroundImage now Hiw Hih Hcw Hch settled trace failed.
  pose proof (invalidDimensions_positive _ _ Hiw Hih) as Himage.
  pose proof (invalidDimensions_positive _ _ Hcw Hch) as Hcanvas.
  assert (Hfailed : forall events message,
             exportToPng (Some canvas) (Some backgroundImage)
             = (events, Rejected message) ->
             existsb isDownload events = false ->
             existsb isShowError events = false ->
             failed message).
  { intros events message Hexport Hdownload Herror. subst failed. cbv beta.
    split; [ subst settled; rewrite Hexport; reflexivity | ].
    apply (handleExport_rejected _ _ _ _ _ Hexport Hdownload Herror). }
  destruct (invalidMultiplier (computeMultiplier canvas backgroundImage))
    eqn:Hmultiplier.
  - pose proof (exportTry_invalid_multiplier canvas backgroundImage
                  Himage Hcanvas Hmultiplier) as Htry.
    split.
    + apply (Hfailed [ConsoleError "Export failed:"
                        (Js.Error "Invalid export multiplier calculated")]);
        [ unfold exportToPng; rewrite Htry | | ]; reflexivity.
    + subst trace. unfold handleExport, exportToPng. rewrite Htry. reflexivity.
  - destruct (exportTry_reaches_surface canvas backgroundImage
                Himage Hcanvas Hmultiplier)
      as (warn & _ & Hdownload & Herror & Htry).
    assert (Hquiet : forall e,
               existsb isDownload
                 ((warn ++ [CallToDataURL (exportOptions canvas backgroundImage)])
                  ++ [ConsoleError "Export failed:" e]) = false
               /\ existsb isShowError
                    ((warn
                      ++ [CallToDataURL (exportOptions canvas backgroundImage)])
                     ++ [ConsoleError "Export failed:" e]) = false).
    { intros e. rewrite !existsb_app, Hdownload, Herror. split; reflexivity. }
    destruct (toDataURL canvas (exportOptions canvas backgroundImage))
      as [dataUrl | [message | ]] eqn:Hsurface.
    + destruct (Js.startsWith dataUrl "data:image/png;base64,") eqn:Hpng.
      * assert (Hnonempty : String.eqb dataUrl EmptyString = false)
          by (destruct dataUrl; [ discriminate Hpng | reflexivity ]).
        rewrite Hnonempty in Htry.
        subst settled. unfold exportToPng. rewrite Htry. reflexivity.
      * eapply Hfailed; [ | apply Hquiet | apply Hquiet ].
        rewrite orb_true_r in Htry.
        unfold exportToPng. rewrite Htry. reflexivity.
    + eapply Hfailed; [ | apply Hquiet | apply Hquiet ].
      unfold exportToPng. rewrite Htry. reflexivity.
    + eapply Hfailed; [ | apply Hquiet | apply Hquiet ].
      unfold exportToPng. rewrite Htry. reflexivity.
Qed.

Lemma export_surface_failure_witness :
  snd (exportToPng
         (Some (mkCanvas 400%float 300%float
                  (fun _ => Js.Throw (Js.Error "The canvas has been tainted"))))
         (Some (mkBackgroundImage "blob:bg" (Some (FileObject "bg.png"))
                  (mkImageDimensions 400%float 300%float (400 / 300)%float))))
  = Rejected "The canvas has been tainted"
  /\ snd (exportToPng
            (Some (mkCanvas 1e-10%float 1e-10%float
                     (fun _ => Js.Ok "data:image/png;base64,iVBORw0KGgo=")))
            (Some (mkBackgroundImage "blob:bg" (Some (FileObject "bg.png"))
                     (mkImageDimensions 1e308%float 1e308%float 1%float))))
     = Rejected "Invalid export multiplier calculated".
Proof.
  split.
  - apply (export_reports_surface_failure
             (mkCanvas 400%float 300%float
                (fun _ => Js.Throw (Js.Error "The canvas has been tainted")))
             (mkBackgroundImage "blob:bg" (Some (FileObject "bg.png"))
                (mkImageDimensions 400%float 300%float (400 / 300)%float))
             1700000000000%Z);
      reflexivity.
  - apply (export_reports_surface_failure
             (mkCanvas 1e-10%float 1e-10%float
                (fun _ => Js.Ok "data:image/png;base64,iVBORw0KGgo="))
             (mkBackgroundImage "blob:bg" (Some (FileObject "bg.png"))
                (mkImageDimensions 1e308%float 1e308%float 1%float))
             1700000000000%Z);
      reflexivity.
Defined.

End ExportFailures.
